(** * SpinningCubes: session/frame lifecycle and transform library

    A shallow embedding of [examples/SpinningCubes/main.c]: the 4x4 transform
    helpers, the OpenXR event handler [HandleXREvents], the swapchain pool
    creation [CreateSwapchains], the per-tick routine [RenderFrame], [Cleanup]
    and the main loop.

    Conventions of the embedding.
    - The animation clock and the projection matrix are computed in IEEE-754
      binary32, the C type [float] (module [F32]), rounding included; the
      library function [SDL_tanf] is a parameter there.  The matrices that
      reach the draw calls (module [Transform]) are idealised: their entries
      are real numbers, [SDL_cosf], [SDL_sinf] and [SDL_tanf] are [cos],
      [sin] and [tan], and the clock enters them through its real value.
      What is stated of these matrices is stated of these idealised
      entries.
    - An [XrResult] is its signed integer value; [XR_FAILED] and
      [XR_SUCCEEDED] are the sign tests of [openxr.h].
    - Opaque handles and pointers to opaque objects are natural numbers in
      [N], [0] being [XR_NULL_HANDLE] / [NULL].  A heap array obtained from
      [SDL_calloc] is [Some l]; the [NULL] pointer is [None].
    - The calls into the OpenXR runtime and the GPU layer that create,
      destroy, acquire, release or submit something, or that open or close a
      session, a frame or a render pass, are logged, in program order, in a
      trace of [Call]s.  Logging, shader loading, the filling of the upload
      buffer and the binding calls inside a render pass are not logged.  What
      the runtime answers is an input of the model (the [..Env] records), so
      every theorem quantifies over all runtime behaviours.
    - A read outside an array, or through a [NULL] array pointer, is undefined
      behaviour in C.  The one place where the embedded code can make such a
      read is [swapchain->images[imageIndex]] in [RenderFrame]; the model
      gives the value read as an [option], [None] when the index is outside
      the array, and a trace in which a render pass targets [None] describes
      the program only up to that call. *)

From Stdlib Require Import List Bool Arith ZArith NArith Lia.
From Stdlib Require Import Reals Lra.
From Stdlib Require SpecFloat.
Import ListNotations.

(** ** Math types and functions, on real entries *)

Module Transform.

Local Open Scope R_scope.

Record Vec3 := mkVec3 { x : R; y : R; z : R }.

(** [typedef struct { float m[16]; } Mat4;] *)
Record Mat4 := mkMat4 { m : list R }.

(** [a.m[i]]; the arrays below all have 16 entries. *)
Definition at_ (a : Mat4) (i : nat) : R := nth i (m a) 0.

Notation "a .[ i ]" := (at_ a i%nat) (at level 1, left associativity, format "a .[ i ]").

Definition Mat4_Identity : Mat4 :=
  mkMat4 [ 1;0;0;0; 0;1;0;0; 0;0;1;0; 0;0;0;1 ].

(** The innermost loop of [Mat4_Multiply]: [result.m[i*4+j]] starts at [0]
    and accumulates [a.m[i*4+k] * b.m[k*4+j]] for [k = 0..3]. *)
Definition Mat4_Multiply_entry (a b : Mat4) (i j : nat) : R :=
  fold_left (fun acc k => acc + a.[i * 4 + k] * b.[k * 4 + j]) (seq 0 4) 0.

Definition Mat4_Multiply (a b : Mat4) : Mat4 :=
  mkMat4 (flat_map (fun i => map (fun j => Mat4_Multiply_entry a b i j) (seq 0 4))
                   (seq 0 4)).

Definition Mat4_Translation (x y z : R) : Mat4 :=
  mkMat4 [ 1;0;0;0; 0;1;0;0; 0;0;1;0; x;y;z;1 ].

Definition Mat4_Scale (s : R) : Mat4 :=
  mkMat4 [ s;0;0;0; 0;s;0;0; 0;0;s;0; 0;0;0;1 ].

Definition Mat4_RotationY (rad : R) : Mat4 :=
  let c := cos rad in let s := sin rad in
  mkMat4 [ c;0;-s;0; 0;1;0;0; s;0;c;0; 0;0;0;1 ].

Definition Mat4_RotationX (rad : R) : Mat4 :=
  let c := cos rad in let s := sin rad in
  mkMat4 [ 1;0;0;0; 0;c;s;0; 0;-s;c;0; 0;0;0;1 ].

(** OpenXR pose and field-of-view structures ([openxr.h]). *)
Record XrQuaternionf := mkQuat { qx : R; qy : R; qz : R; qw : R }.
Record XrVector3f := mkVector3 { px : R; py : R; pz : R }.
Record XrPosef := mkPose { orientation : XrQuaternionf; position : XrVector3f }.
Record XrFovf := mkFov { angleLeft : R; angleRight : R; angleUp : R; angleDown : R }.

(** Convert an [XrPosef] to a view matrix (inverted transform). *)
Definition Mat4_FromXrPose (pose : XrPosef) : Mat4 :=
  let x := qx (orientation pose) in let y := qy (orientation pose) in
  let z := qz (orientation pose) in let w := qw (orientation pose) in
  let right := mkVec3 (1-2*(y*y+z*z)) (2*(x*y+w*z)) (2*(x*z-w*y)) in
  let up := mkVec3 (2*(x*y-w*z)) (1-2*(x*x+z*z)) (2*(y*z+w*x)) in
  let fwd := mkVec3 (2*(x*z+w*y)) (2*(y*z-w*x)) (1-2*(x*x+y*y)) in
  let pos := mkVec3 (px (position pose)) (py (position pose)) (pz (position pose)) in
  let dr := -(right.(Transform.x)*pos.(Transform.x) + right.(Transform.y)*pos.(Transform.y)
              + right.(Transform.z)*pos.(Transform.z)) in
  let du := -(up.(Transform.x)*pos.(Transform.x) + up.(Transform.y)*pos.(Transform.y)
              + up.(Transform.z)*pos.(Transform.z)) in
  let df := -(fwd.(Transform.x)*pos.(Transform.x) + fwd.(Transform.y)*pos.(Transform.y)
              + fwd.(Transform.z)*pos.(Transform.z)) in
  mkMat4 [ right.(Transform.x); up.(Transform.x); fwd.(Transform.x); 0;
           right.(Transform.y); up.(Transform.y); fwd.(Transform.y); 0;
           right.(Transform.z); up.(Transform.z); fwd.(Transform.z); 0;
           dr; du; df; 1 ].

(** Asymmetric projection matrix from an XR field of view, as it enters the
    idealised matrix of a draw call; the binary32 computation, with its
    infinities and NaNs, is [F32.Mat4_Projection] below. *)
Definition Mat4_Projection (fov : XrFovf) (nearZ farZ : R) : Mat4 :=
  let tL := tan (angleLeft fov) in let tR := tan (angleRight fov) in
  let tU := tan (angleUp fov) in let tD := tan (angleDown fov) in
  let w := tR - tL in let h := tU - tD in
  mkMat4 [ 2/w; 0; 0; 0;
           0; 2/h; 0; 0;
           (tR+tL)/w; (tU+tD)/h; -farZ/(farZ-nearZ); -1;
           0; 0; -(farZ*nearZ)/(farZ-nearZ); 0 ].

(** *** Cube scene configuration *)

Definition NUM_CUBES : nat := 5.

Definition cubePositions : list Vec3 :=
  [ mkVec3 0.0 0.0 (-2.0);
    mkVec3 (-1.2) 0.4 (-2.5);
    mkVec3 1.2 0.3 (-2.5);
    mkVec3 (-0.6) (-0.4) (-1.8);
    mkVec3 0.6 (-0.3) (-1.8) ].
Definition cubeScales : list R := [ 1.0; 0.6; 0.6; 0.5; 0.5 ].
Definition cubeSpeeds : list R := [ 1.0; 1.5; -1.2; 2.0; -0.8 ].

Definition Vec3_zero : Vec3 := mkVec3 0 0 0.

(** The model matrix of one scene instance, as the draw loop of
    [RenderFrame] builds it: scale -> rotateY -> rotateX -> translate. *)
Definition instance_model (scale_ speed : R) (pos : Vec3) (animTime : R) : Mat4 :=
  let rot := animTime * speed in
  let scale := Mat4_Scale scale_ in
  let rotY := Mat4_RotationY rot in
  let rotX := Mat4_RotationX (rot * 0.7) in
  let trans := Mat4_Translation pos.(x) pos.(y) pos.(z) in
  Mat4_Multiply (Mat4_Multiply (Mat4_Multiply scale rotY) rotX) trans.

Definition cube_model (animTime : R) (cubeIdx : nat) : Mat4 :=
  instance_model (nth cubeIdx cubeScales 0) (nth cubeIdx cubeSpeeds 0)
                 (nth cubeIdx cubePositions Vec3_zero) animTime.

(** [mvp = model * view * projection] for one cube and one eye. *)
Definition cube_mvp (animTime : R) (viewMatrix projMatrix : Mat4) (cubeIdx : nat) : Mat4 :=
  let model := cube_model animTime cubeIdx in
  let mv := Mat4_Multiply model viewMatrix in
  Mat4_Multiply mv projMatrix.

End Transform.

Import Transform.

(** ** Binary32 arithmetic

    The C type [float] as IEEE-754 binary32 (24 bits of precision, exponent
    of the infinities 128), on the Standard Library's specification of
    floating-point arithmetic: every operation rounds to nearest, ties to
    even, and zeros are signed. *)

Module F32.

Definition prec : Z := 24.
Definition emax : Z := 128.

Definition float32 : Type := SpecFloat.spec_float.

Definition fadd : float32 -> float32 -> float32 := SpecFloat.SFadd prec emax.
Definition fsub : float32 -> float32 -> float32 := SpecFloat.SFsub prec emax.
Definition fmul : float32 -> float32 -> float32 := SpecFloat.SFmul prec emax.
Definition fdiv : float32 -> float32 -> float32 := SpecFloat.SFdiv prec emax.
Definition fneg : float32 -> float32 := SpecFloat.SFopp.

(** The conversion of an integer constant, and a decimal literal
    [num / den] of the source ([0.011f] is [decimal 11 1000]): the binary32
    nearest to the quotient, which the correctly rounded division of two
    exactly represented integers gives. *)
Definition of_Z (n : Z) : float32 := SpecFloat.binary_normalize prec emax n 0 false.
Definition decimal (num den : Z) : float32 := fdiv (of_Z num) (of_Z den).

Definition zero : float32 := SpecFloat.S754_zero false.

Definition is_nan (f : float32) : bool :=
  match f with SpecFloat.S754_nan => true | _ => false end.
Definition is_zero (f : float32) : bool :=
  match f with SpecFloat.S754_zero _ => true | _ => false end.
Definition is_finite (f : float32) : bool :=
  match f with
  | SpecFloat.S754_zero _ | SpecFloat.S754_finite _ _ _ => true
  | _ => false
  end.
(** A number other than zero: finite and not zero, or an infinity. *)
Definition is_nonzero (f : float32) : bool :=
  match f with
  | SpecFloat.S754_finite _ _ _ | SpecFloat.S754_infinity _ => true
  | _ => false
  end.

(** The real number a finite binary32 value stands for; an infinity and NaN
    stand for none and are sent to [0]. *)
Definition to_R (f : float32) : R :=
  match f with
  | SpecFloat.S754_finite s m e =>
      ((if s then -1 else 1) * IZR (Zpos m) * powerRZ 2 e)%R
  | _ => 0%R
  end.

(** The increment of [animTime += 0.011f]. *)
Definition anim_step : float32 := decimal 11 1000.

(** [XrFovf] with its [float] fields. *)
Record XrFovf := mkFov {
  angleLeft : float32;
  angleRight : float32;
  angleUp : float32;
  angleDown : float32
}.

Section Projection.

(** [SDL_tanf]. *)
Variable tanf : float32 -> float32.

(** Asymmetric projection matrix from an XR field of view, every operation
    in binary32; the integer constants are converted to [float]. *)
Definition Mat4_Projection (fov : XrFovf) (nearZ farZ : float32) : list float32 :=
  let tL := tanf (angleLeft fov) in let tR := tanf (angleRight fov) in
  let tU := tanf (angleUp fov) in let tD := tanf (angleDown fov) in
  let w := fsub tR tL in let h := fsub tU tD in
  [ fdiv (of_Z 2) w; of_Z 0; of_Z 0; of_Z 0;
    of_Z 0; fdiv (of_Z 2) h; of_Z 0; of_Z 0;
    fdiv (fadd tR tL) w; fdiv (fadd tU tD) h;
    fdiv (fneg farZ) (fsub farZ nearZ); of_Z (-1);
    of_Z 0; of_Z 0; fdiv (fneg (fmul farZ nearZ)) (fsub farZ nearZ); of_Z 0 ].

End Projection.

End F32.

(** ** OpenXR types *)

(** [XrResult] is a signed 32-bit enum: negative values are errors,
    [XR_SUCCESS] is 0, positive values are qualified successes. *)
Definition XrResult := Z.
Definition XR_SUCCESS : XrResult := 0%Z.
Definition XR_EVENT_UNAVAILABLE : XrResult := 4%Z.
Definition XR_ERROR_RUNTIME_FAILURE : XrResult := (-2)%Z.
Definition XR_FAILED (result : XrResult) : bool := (result <? 0)%Z.
Definition XR_SUCCEEDED (result : XrResult) : bool := (0 <=? result)%Z.

Definition handle := N.
Definition XR_NULL_HANDLE : handle := 0%N.
Definition is_null (h : handle) : bool := (h =? 0)%N.

(** [XrTime] is a signed 64-bit count of nanoseconds. *)
Definition XrTime := Z.

Inductive XrSessionState :=
| XR_SESSION_STATE_UNKNOWN
| XR_SESSION_STATE_IDLE
| XR_SESSION_STATE_READY
| XR_SESSION_STATE_SYNCHRONIZED
| XR_SESSION_STATE_VISIBLE
| XR_SESSION_STATE_FOCUSED
| XR_SESSION_STATE_STOPPING
| XR_SESSION_STATE_LOSS_PENDING
| XR_SESSION_STATE_EXITING.

(** The event record an [xrPollEvent] call fills in, as a tagged union on its
    [type] field.  [XrEventDataOther] stands for every structure type the
    handler has no case for (events lost, interaction profile changed, ...). *)
Inductive XrEventDataBuffer :=
| XrEventDataSessionStateChanged (state : XrSessionState)
| XrEventDataInstanceLossPending
| XrEventDataOther.

Inductive XrEnvironmentBlendMode :=
| XR_ENVIRONMENT_BLEND_MODE_OPAQUE
| XR_ENVIRONMENT_BLEND_MODE_ADDITIVE
| XR_ENVIRONMENT_BLEND_MODE_ALPHA_BLEND.

Record XrExtent2Di := mkExtent { width : Z; height : Z }.

Record XrViewConfigurationView := mkViewConfig {
  recommendedImageRectWidth : N;
  recommendedImageRectHeight : N
}.

Record XrView := mkView { view_pose : XrPosef; view_fov : XrFovf }.

Record XrFrameState := mkFrameState {
  predictedDisplayTime : XrTime;
  shouldRender : bool
}.

(** [XrStructureType] tags; a zeroed structure has tag [XR_TYPE_UNKNOWN]. *)
Definition XrStructureType := Z.
Definition XR_TYPE_UNKNOWN : XrStructureType := 0%Z.
Definition XR_TYPE_COMPOSITION_LAYER_PROJECTION_VIEW : XrStructureType := 48%Z.

Record XrCompositionLayerProjectionView := mkProjView {
  type : XrStructureType;
  pose : XrPosef;
  fov : XrFovf;
  subImage_swapchain : handle;
  subImage_imageRect_offset : Z * Z;
  subImage_imageRect_extent : XrExtent2Di;
  subImage_imageArrayIndex : N
}.

Record XrCompositionLayerProjection := mkLayer {
  layer_space : handle;
  layer_viewCount : nat;
  layer_views : list XrCompositionLayerProjectionView
}.

(** [layers] is the one-slot array [layers[1]] of [RenderFrame]: [None] while
    the slot holds [NULL], [Some layer] once it points to the projection
    layer. *)
Record XrFrameEndInfo := mkEndInfo {
  displayTime : XrTime;
  environmentBlendMode : XrEnvironmentBlendMode;
  layerCount : nat;
  layers : option XrCompositionLayerProjection
}.

(** ** Global state *)

Definition SDL_GPUTextureFormat := Z.

Record VRSwapchain := mkVRSwapchain {
  swapchain : handle;
  images : list handle;
  size : XrExtent2Di;
  format : SDL_GPUTextureFormat;
  imageCount : nat
}.

(** The file-scope variables of [main.c] that the session and frame code
    reads or writes.  [xrInstance], [xrSystemId], [xrSession] and [gpuDevice]
    are set once before the main loop and only passed along, so they are left
    out. *)
Record Globals := mkGlobals {
  xrLocalSpace : handle;
  xrSessionRunning : bool;
  xrShouldQuit : bool;
  vrSwapchains : option (list VRSwapchain);
  xrViews : option (list XrView);
  viewCount : nat;
  pipeline : handle;
  vertexBuffer : handle;
  indexBuffer : handle;
  animTime : F32.float32
}.

Definition set_xrSessionRunning (b : bool) (g : Globals) : Globals :=
  mkGlobals (xrLocalSpace g) b (xrShouldQuit g) (vrSwapchains g) (xrViews g)
            (viewCount g) (pipeline g) (vertexBuffer g) (indexBuffer g) (animTime g).
Definition set_xrShouldQuit (b : bool) (g : Globals) : Globals :=
  mkGlobals (xrLocalSpace g) (xrSessionRunning g) b (vrSwapchains g) (xrViews g)
            (viewCount g) (pipeline g) (vertexBuffer g) (indexBuffer g) (animTime g).
Definition set_vrSwapchains (p : option (list VRSwapchain)) (g : Globals) : Globals :=
  mkGlobals (xrLocalSpace g) (xrSessionRunning g) (xrShouldQuit g) p (xrViews g)
            (viewCount g) (pipeline g) (vertexBuffer g) (indexBuffer g) (animTime g).
Definition set_xrViews (p : option (list XrView)) (g : Globals) : Globals :=
  mkGlobals (xrLocalSpace g) (xrSessionRunning g) (xrShouldQuit g) (vrSwapchains g) p
            (viewCount g) (pipeline g) (vertexBuffer g) (indexBuffer g) (animTime g).
Definition set_viewCount (n : nat) (g : Globals) : Globals :=
  mkGlobals (xrLocalSpace g) (xrSessionRunning g) (xrShouldQuit g) (vrSwapchains g)
            (xrViews g) n (pipeline g) (vertexBuffer g) (indexBuffer g) (animTime g).
Definition set_pipeline (h : handle) (g : Globals) : Globals :=
  mkGlobals (xrLocalSpace g) (xrSessionRunning g) (xrShouldQuit g) (vrSwapchains g)
            (xrViews g) (viewCount g) h (vertexBuffer g) (indexBuffer g) (animTime g).
Definition set_vertexBuffer (h : handle) (g : Globals) : Globals :=
  mkGlobals (xrLocalSpace g) (xrSessionRunning g) (xrShouldQuit g) (vrSwapchains g)
            (xrViews g) (viewCount g) (pipeline g) h (indexBuffer g) (animTime g).
Definition set_indexBuffer (h : handle) (g : Globals) : Globals :=
  mkGlobals (xrLocalSpace g) (xrSessionRunning g) (xrShouldQuit g) (vrSwapchains g)
            (xrViews g) (viewCount g) (pipeline g) (vertexBuffer g) h (animTime g).
Definition set_animTime (t : F32.float32) (g : Globals) : Globals :=
  mkGlobals (xrLocalSpace g) (xrSessionRunning g) (xrShouldQuit g) (vrSwapchains g)
            (xrViews g) (viewCount g) (pipeline g) (vertexBuffer g) (indexBuffer g) t.

(** ** Calls into the runtime and the GPU layer *)

(** One constructor per external function the embedded code calls, with the
    arguments the claims speak about and, where the code branches on it, the
    result the runtime returned.  The [i] of the three swapchain-image calls is
    the view index of the loop iteration that makes the call;
    [swapchain] is the handle passed. *)
Inductive Call :=
| xrBeginSession (result : XrResult)
| xrEndSession
| xrEnumerateViewConfigurationViews (viewCapacityInput : nat) (result : XrResult)
| SDL_CreateGPUXRSwapchain (i : nat) (result : XrResult) (swapchain : handle)
| xrEnumerateSwapchainImages (swapchain : handle) (result : XrResult)
| SDL_CreateGPUGraphicsPipeline (pipeline : handle)
| SDL_CreateGPUBuffer (buffer : handle)
| SDL_DestroyGPUXRSwapchain (swapchain : handle)
| xrWaitFrame (result : XrResult)
| xrBeginFrame (result : XrResult)
| xrLocateViews (displayTime : XrTime) (result : XrResult)
| xrAcquireSwapchainImage (i : nat) (swapchain : handle) (result : XrResult)
| xrWaitSwapchainImage (i : nat) (swapchain : handle) (result : XrResult)
| xrReleaseSwapchainImage (i : nat) (swapchain : handle)
| SDL_BeginGPURenderPass (texture : option handle)
| SDL_DrawGPUIndexedPrimitives (mvp : Mat4)
| SDL_EndGPURenderPass
| SDL_SubmitGPUCommandBuffer
| xrEndFrame (endInfo : XrFrameEndInfo).

(** ** The monad of the embedding: global state and call trace *)

Definition M (A : Type) : Type := Globals -> A * Globals * list Call.

Definition ret {A} (a : A) : M A := fun g => (a, g, []).

Definition bind {A B} (c : M A) (k : A -> M B) : M B :=
  fun g =>
    let '(a, g1, t1) := c g in
    let '(b, g2, t2) := k a g1 in
    (b, g2, t1 ++ t2).

Definition get : M Globals := fun g => (g, g, []).
Definition modify (f : Globals -> Globals) : M unit := fun g => (tt, f g, []).
Definition call (c : Call) : M unit := fun g => (tt, g, [c]).

Declare Scope xr_scope.
Delimit Scope xr_scope with xr.
Notation "x <- c ;; k" := (bind c (fun x => k))
  (at level 61, c at next level, right associativity) : xr_scope.
Notation "' pat <- c ;; k" := (bind c (fun x => match x with pat => k end))
  (at level 61, pat pattern, c at next level, right associativity) : xr_scope.
Notation "c ;; k" := (bind c (fun _ => k))
  (at level 61, right associativity) : xr_scope.

(** Projections of a run. *)
Definition value_of {A} (r : A * Globals * list Call) : A := fst (fst r).
Definition state_of {A} (r : A * Globals * list Call) : Globals := snd (fst r).
Definition trace_of {A} (r : A * Globals * list Call) : list Call := snd r.

(** [a[i] = v] on a heap array; the embedded code only stores in range. *)
Fixpoint store {A} (i : nat) (v : A) (l : list A) : list A :=
  match l, i with
  | [], _ => []
  | _ :: l', O => v :: l'
  | a :: l', S i' => a :: store i' v l'
  end.

Fixpoint for_each {A} (l : list A) (body : A -> M unit) : M unit :=
  match l with
  | [] => ret tt
  | a :: l' => (body a ;; for_each l' body)%xr
  end.

(** A [for] loop whose body updates a local variable [s]. *)
Fixpoint for_fold {A S} (l : list A) (body : A -> S -> M S) (s : S) : M S :=
  match l with
  | [] => ret s
  | a :: l' => (s' <- body a s ;; for_fold l' body s')%xr
  end.

(** ** What the runtime answers *)

(** Answers to the calls of one iteration of the loop of [CreateSwapchains]:
    what [SDL_CreateGPUXRSwapchain] returns and stores through its three
    out-pointers, and what [xrEnumerateSwapchainImages] returns and stores. *)
Record SwapchainEnv := mkSwapchainEnv {
  create_result : XrResult;
  create_format : SDL_GPUTextureFormat;
  create_swapchain : handle;
  create_images : list handle;
  enumerate_result : XrResult;
  enumerate_imageCount : nat
}.

Record CreateSwapchainsEnv := mkCreateSwapchainsEnv {
  count_result : XrResult;
  count_viewCount : nat;
  fill_result : XrResult;
  fill_viewCount : nat;
  fill_viewConfigs : list XrViewConfigurationView;
  per_view : list SwapchainEnv;
  shaders_loaded : bool;
  created_pipeline : handle;
  created_vertexBuffer : handle;
  created_indexBuffer : handle
}.

(** One successful [xrPollEvent]: the event it delivered and the answers to
    the calls its handling makes. *)
Record EventEnv := mkEventEnv {
  event : XrEventDataBuffer;
  beginSession_result : XrResult;
  createSwapchains_env : CreateSwapchainsEnv
}.

Record ViewEnv := mkViewEnv {
  acquire_result : XrResult;
  acquire_imageIndex : nat;
  waitImage_result : XrResult
}.

Record FrameEnv := mkFrameEnv {
  waitFrame_result : XrResult;
  waitFrame_frameState : XrFrameState;
  beginFrame_result : XrResult;
  locateViews_result : XrResult;
  locateViews_views : list XrView;
  per_view_image : list ViewEnv
}.

(** One iteration of the main loop: whether [SDL_PollEvent] delivered
    [SDL_EVENT_QUIT], the events [xrPollEvent] delivers before it first
    returns something other than [XR_SUCCESS], and the answers to the frame
    calls. *)
Record TickEnv := mkTickEnv {
  sdl_quit : bool;
  xr_events : list EventEnv;
  frame_env : FrameEnv
}.

Definition SwapchainEnv_default : SwapchainEnv :=
  mkSwapchainEnv XR_ERROR_RUNTIME_FAILURE 0%Z XR_NULL_HANDLE [] XR_ERROR_RUNTIME_FAILURE 0.
Definition ViewEnv_default : ViewEnv :=
  mkViewEnv XR_ERROR_RUNTIME_FAILURE 0 XR_ERROR_RUNTIME_FAILURE.

(** ** Zero-initialised structures ([SDL_calloc], [= {0}]) *)

Definition XrPosef_zero : XrPosef := mkPose (mkQuat 0 0 0 0) (mkVector3 0 0 0).
Definition XrFovf_zero : XrFovf := mkFov 0 0 0 0.
Definition XrExtent2Di_zero : XrExtent2Di := mkExtent 0 0.
Definition XrView_zero : XrView := mkView XrPosef_zero XrFovf_zero.
Definition XrViewConfigurationView_zero : XrViewConfigurationView := mkViewConfig 0 0.
Definition VRSwapchain_zero : VRSwapchain :=
  mkVRSwapchain XR_NULL_HANDLE [] XrExtent2Di_zero 0%Z 0.
Definition XrCompositionLayerProjectionView_zero : XrCompositionLayerProjectionView :=
  mkProjView XR_TYPE_UNKNOWN XrPosef_zero XrFovf_zero XR_NULL_HANDLE (0%Z, 0%Z)
             XrExtent2Di_zero 0%N.

(** The array [vrSwapchains] points to (empty for [NULL]) and its entry [i]. *)
Definition pool (g : Globals) : list VRSwapchain :=
  match vrSwapchains g with Some l => l | None => [] end.
Definition vrSwapchains_at (g : Globals) (i : nat) : VRSwapchain :=
  nth i (pool g) VRSwapchain_zero.
Definition xrViews_at (g : Globals) (i : nat) : XrView :=
  nth i (match xrViews g with Some l => l | None => [] end) XrView_zero.

(** [vrSwapchains[i] = f (vrSwapchains[i])] *)
Definition update_swapchain (i : nat) (f : VRSwapchain -> VRSwapchain) (g : Globals)
  : Globals :=
  match vrSwapchains g with
  | Some l => set_vrSwapchains (Some (store i (f (nth i l VRSwapchain_zero)) l)) g
  | None => g
  end.

Definition update_view (i : nat) (f : XrView -> XrView) (g : Globals) : Globals :=
  match xrViews g with
  | Some l => set_xrViews (Some (store i (f (nth i l XrView_zero)) l)) g
  | None => g
  end.

(** [(int32_t)] of an unsigned 32-bit value. *)
Definition to_int32 (n : N) : Z :=
  ((Z.of_N n + 2 ^ 31) mod 2 ^ 32 - 2 ^ 31)%Z.

(** ** Pipeline and buffer creation *)

Local Open Scope xr_scope.

(** [CreatePipeline]: fails when a shader did not load, or when the pipeline
    object comes back [NULL]; the global [pipeline] is assigned in between. *)
Definition CreatePipeline (env : CreateSwapchainsEnv) (colorFormat : SDL_GPUTextureFormat)
  : M Z :=
  if negb (shaders_loaded env) then ret 1%Z
  else
    call (SDL_CreateGPUGraphicsPipeline (created_pipeline env)) ;;
    modify (set_pipeline (created_pipeline env)) ;;
    g <- get ;;
    if is_null (pipeline g) then ret 1%Z else ret 0%Z.

(** [CreateCubeBuffers]: both buffers are created and assigned, then tested;
    when both exist the vertex and index data are uploaded in a copy pass,
    whose command buffer is submitted. *)
Definition CreateCubeBuffers (env : CreateSwapchainsEnv) : M Z :=
  call (SDL_CreateGPUBuffer (created_vertexBuffer env)) ;;
  modify (set_vertexBuffer (created_vertexBuffer env)) ;;
  call (SDL_CreateGPUBuffer (created_indexBuffer env)) ;;
  modify (set_indexBuffer (created_indexBuffer env)) ;;
  g <- get ;;
  if is_null (vertexBuffer g) || is_null (indexBuffer g) then ret 1%Z
  else
    call SDL_SubmitGPUCommandBuffer ;;
    ret 0%Z.

(** ** Swapchain pool creation *)

(** The body of the [for] loop of [CreateSwapchains] for view [i]; [true]
    stands for the early [return 1]. *)
Definition CreateSwapchains_view (env : CreateSwapchainsEnv)
  (viewConfigs : list XrViewConfigurationView) (i : nat) : M bool :=
  modify (update_view i (fun v =>
    mkView (mkPose (mkQuat (qx (orientation (view_pose v))) (qy (orientation (view_pose v)))
                           (qz (orientation (view_pose v))) 1%R)
                   (position (view_pose v)))
           (view_fov v))) ;;
  let cfg := nth i viewConfigs XrViewConfigurationView_zero in
  let se := nth i (per_view env) SwapchainEnv_default in
  let swapchainCreateInfo_width := recommendedImageRectWidth cfg in
  let swapchainCreateInfo_height := recommendedImageRectHeight cfg in
  call (SDL_CreateGPUXRSwapchain i (create_result se) (create_swapchain se)) ;;
  modify (update_swapchain i (fun s =>
    mkVRSwapchain (create_swapchain se) (create_images se) (size s) (create_format se)
                  (imageCount s))) ;;
  if XR_FAILED (create_result se) then ret true
  else
    g <- get ;;
    call (xrEnumerateSwapchainImages (swapchain (vrSwapchains_at g i)) (enumerate_result se)) ;;
    modify (update_swapchain i (fun s =>
      mkVRSwapchain (swapchain s) (images s) (size s) (format s) (enumerate_imageCount se))) ;;
    (if XR_FAILED (enumerate_result se)
     then modify (update_swapchain i (fun s =>
            mkVRSwapchain (swapchain s) (images s) (size s) (format s) 3))
     else ret tt) ;;
    modify (update_swapchain i (fun s =>
      mkVRSwapchain (swapchain s) (images s)
                    (mkExtent (to_int32 swapchainCreateInfo_width)
                              (to_int32 swapchainCreateInfo_height))
                    (format s) (imageCount s))) ;;
    ret false.

Fixpoint CreateSwapchains_loop (env : CreateSwapchainsEnv)
  (viewConfigs : list XrViewConfigurationView) (views : list nat) : M bool :=
  match views with
  | [] => ret false
  | i :: rest =>
      failed <- CreateSwapchains_view env viewConfigs i ;;
      if failed then ret true else CreateSwapchains_loop env viewConfigs rest
  end.

Definition CreateSwapchains (env : CreateSwapchainsEnv) : M Z :=
  call (xrEnumerateViewConfigurationViews 0 (count_result env)) ;;
  modify (set_viewCount (count_viewCount env)) ;;
  if XR_FAILED (count_result env) then ret 1%Z
  else
    g <- get ;;
    call (xrEnumerateViewConfigurationViews (viewCount g) (fill_result env)) ;;
    modify (set_viewCount (fill_viewCount env)) ;;
    let viewConfigs := fill_viewConfigs env in
    if XR_FAILED (fill_result env) then ret 1%Z
    else
      g <- get ;;
      modify (set_vrSwapchains (Some (repeat VRSwapchain_zero (viewCount g)))) ;;
      modify (set_xrViews (Some (repeat XrView_zero (viewCount g)))) ;;
      failed <- CreateSwapchains_loop env viewConfigs (seq 0 (viewCount g)) ;;
      if failed then ret 1%Z
      else
        g <- get ;;
        if (0 <? viewCount g) && is_null (pipeline g) then
          rc <- CreatePipeline env (format (vrSwapchains_at g 0)) ;;
          if negb (rc =? 0)%Z then ret 1%Z
          else
            rc <- CreateCubeBuffers env ;;
            if negb (rc =? 0)%Z then ret 1%Z else ret 0%Z
        else ret 0%Z.

(** ** Session state machine *)

(** The body of the [while] loop of [HandleXREvents] for one polled event. *)
Definition handle_event (e : EventEnv) : M unit :=
  match event e with
  | XrEventDataSessionStateChanged state =>
      match state with
      | XR_SESSION_STATE_READY =>
          let result := beginSession_result e in
          call (xrBeginSession result) ;;
          if XR_SUCCEEDED result then
            modify (set_xrSessionRunning true) ;;
            rc <- CreateSwapchains (createSwapchains_env e) ;;
            if negb (rc =? 0)%Z then modify (set_xrShouldQuit true) else ret tt
          else ret tt
      | XR_SESSION_STATE_STOPPING =>
          call xrEndSession ;;
          modify (set_xrSessionRunning false)
      | XR_SESSION_STATE_EXITING
      | XR_SESSION_STATE_LOSS_PENDING =>
          modify (set_xrShouldQuit true)
      | _ => ret tt
      end
  | XrEventDataInstanceLossPending => modify (set_xrShouldQuit true)
  | XrEventDataOther => ret tt
  end.

(** [HandleXREvents] drains the event queue: [polled] lists what the
    successive [xrPollEvent] calls deliver while they return [XR_SUCCESS]. *)
Definition HandleXREvents (polled : list EventEnv) : M unit :=
  for_each polled handle_event.

(** ** Frame orchestrator *)

(** The draw loop over the cubes, inside [if (pipeline && vertexBuffer &&
    indexBuffer)]: one uniform push and indexed draw per cube, with that
    cube's [mvp]. *)
Definition draw_cubes (viewMatrix projMatrix : Mat4) : M unit :=
  g <- get ;;
  if negb (is_null (pipeline g)) && negb (is_null (vertexBuffer g))
     && negb (is_null (indexBuffer g))
  then
    for_each (seq 0 NUM_CUBES) (fun cubeIdx =>
      g <- get ;;
      call (SDL_DrawGPUIndexedPrimitives
              (cube_mvp (F32.to_R (animTime g)) viewMatrix projMatrix cubeIdx)))
  else ret tt.

(** The body of the per-view [for] loop of [RenderFrame]; a [continue] is the
    early [ret] of the unchanged [projViews]. *)
Definition RenderFrame_view (env : FrameEnv) (i : nat)
  (projViews : list XrCompositionLayerProjectionView)
  : M (list XrCompositionLayerProjectionView) :=
  g <- get ;;
  let swapchain_ := vrSwapchains_at g i in
  let ve := nth i (per_view_image env) ViewEnv_default in
  let imageIndex := acquire_imageIndex ve in
  call (xrAcquireSwapchainImage i (swapchain swapchain_) (acquire_result ve)) ;;
  if XR_FAILED (acquire_result ve) then ret projViews
  else
    call (xrWaitSwapchainImage i (swapchain swapchain_) (waitImage_result ve)) ;;
    if XR_FAILED (waitImage_result ve) then
      call (xrReleaseSwapchainImage i (swapchain swapchain_)) ;;
      ret projViews
    else
      let targetTexture := nth_error (images swapchain_) imageIndex in
      let viewMatrix := Mat4_FromXrPose (view_pose (xrViews_at g i)) in
      let projMatrix := Mat4_Projection (view_fov (xrViews_at g i)) 0.05%R 100.0%R in
      call (SDL_BeginGPURenderPass targetTexture) ;;
      draw_cubes viewMatrix projMatrix ;;
      call SDL_EndGPURenderPass ;;
      call (xrReleaseSwapchainImage i (swapchain swapchain_)) ;;
      ret (store i (mkProjView XR_TYPE_COMPOSITION_LAYER_PROJECTION_VIEW
                               (view_pose (xrViews_at g i)) (view_fov (xrViews_at g i))
                               (swapchain swapchain_) (0%Z, 0%Z) (size swapchain_) 0%N)
                 projViews).

(** The block guarded by [frameState.shouldRender && viewCount > 0 &&
    vrSwapchains != NULL], up to the label [endFrame]: it yields the values of
    [layerCount] and [layers] that reach the end-frame call.  The
    [goto endFrame] after a failed [xrLocateViews] leaves them at their
    initial values. *)
Definition RenderFrame_layers (env : FrameEnv) (frameState : XrFrameState)
  : M (nat * option XrCompositionLayerProjection) :=
  g <- get ;;
  if shouldRender frameState && (0 <? viewCount g)
     && (match vrSwapchains g with Some _ => true | None => false end)
  then
    modify (fun g => set_animTime (F32.fadd (animTime g) F32.anim_step) g) ;;
    let result := locateViews_result env in
    call (xrLocateViews (predictedDisplayTime frameState) result) ;;
    modify (fun g => match xrViews g with
                     | Some _ => set_xrViews (Some (locateViews_views env)) g
                     | None => g
                     end) ;;
    if XR_FAILED result then ret (0, None)
    else
      g <- get ;;
      let projViews := repeat XrCompositionLayerProjectionView_zero (viewCount g) in
      projViews <- for_fold (seq 0 (viewCount g)) (RenderFrame_view env) projViews ;;
      call SDL_SubmitGPUCommandBuffer ;;
      g <- get ;;
      ret (1, Some (mkLayer (xrLocalSpace g) (viewCount g) projViews))
  else ret (0, None).

Definition RenderFrame (env : FrameEnv) : M unit :=
  g <- get ;;
  if negb (xrSessionRunning g) then ret tt
  else
    let frameState := waitFrame_frameState env in
    let result := waitFrame_result env in
    call (xrWaitFrame result) ;;
    if XR_FAILED result then ret tt
    else
      let result := beginFrame_result env in
      call (xrBeginFrame result) ;;
      if XR_FAILED result then ret tt
      else
        '(layerCount, layers) <- RenderFrame_layers env frameState ;;
        call (xrEndFrame (mkEndInfo (predictedDisplayTime frameState)
                                    XR_ENVIRONMENT_BLEND_MODE_OPAQUE layerCount layers)).

(** ** Shutdown and main loop *)

Definition Cleanup : M unit :=
  modify (set_pipeline XR_NULL_HANDLE) ;;
  modify (set_vertexBuffer XR_NULL_HANDLE) ;;
  modify (set_indexBuffer XR_NULL_HANDLE) ;;
  g <- get ;;
  match vrSwapchains g with
  | Some _ =>
      for_each (seq 0 (viewCount g)) (fun i =>
        g <- get ;;
        if negb (is_null (swapchain (vrSwapchains_at g i)))
        then call (SDL_DestroyGPUXRSwapchain (swapchain (vrSwapchains_at g i)))
        else ret tt)
  | None => ret tt
  end.

(** One iteration of [while (!xrShouldQuit)]. *)
Definition main_tick (t : TickEnv) : M unit :=
  (if sdl_quit t then modify (set_xrShouldQuit true) else ret tt) ;;
  HandleXREvents (xr_events t) ;;
  RenderFrame (frame_env t).

(** The main loop over the ticks the environment provides; the loop test is
    made at the top of every iteration. *)
Fixpoint main_loop (ticks : list TickEnv) : M unit :=
  match ticks with
  | [] => ret tt
  | t :: rest =>
      g <- get ;;
      if xrShouldQuit g then ret tt
      else main_tick t ;; main_loop rest
  end.

(** The initial values of the file-scope variables, with the reference space
    [InitXRSession] created. *)
Definition initial_globals (localSpace : handle) : Globals :=
  mkGlobals localSpace false false None None 0 XR_NULL_HANDLE XR_NULL_HANDLE
            XR_NULL_HANDLE F32.zero.

Local Close Scope xr_scope.

(** ** Vocabulary of the properties *)

(** *** The session lifecycle the compositor follows

    The order in which a conforming runtime reports session states
    (OpenXR session lifecycle): IDLE, then READY, then the running states
    SYNCHRONIZED / VISIBLE / FOCUSED, then STOPPING and back to IDLE, from
    where the session is readied again or exits; LOSS_PENDING can follow any
    state that is not terminal. *)
Definition lifecycle_next (s s' : XrSessionState) : bool :=
  match s, s' with
  | XR_SESSION_STATE_LOSS_PENDING, _ => false
  | XR_SESSION_STATE_EXITING, _ => false
  | _, XR_SESSION_STATE_LOSS_PENDING => true
  | XR_SESSION_STATE_UNKNOWN, XR_SESSION_STATE_IDLE => true
  | XR_SESSION_STATE_IDLE, XR_SESSION_STATE_READY => true
  | XR_SESSION_STATE_IDLE, XR_SESSION_STATE_EXITING => true
  | XR_SESSION_STATE_READY, XR_SESSION_STATE_SYNCHRONIZED => true
  | XR_SESSION_STATE_SYNCHRONIZED, XR_SESSION_STATE_VISIBLE => true
  | XR_SESSION_STATE_SYNCHRONIZED, XR_SESSION_STATE_STOPPING => true
  | XR_SESSION_STATE_VISIBLE, XR_SESSION_STATE_FOCUSED => true
  | XR_SESSION_STATE_VISIBLE, XR_SESSION_STATE_SYNCHRONIZED => true
  | XR_SESSION_STATE_FOCUSED, XR_SESSION_STATE_VISIBLE => true
  | XR_SESSION_STATE_STOPPING, XR_SESSION_STATE_IDLE => true
  | _, _ => false
  end.

(** A sequence of events is valid from session state [s] when its
    session-state-changed events follow the lifecycle; other events may occur
    anywhere. *)
Fixpoint lifecycle_valid (s : XrSessionState) (evs : list XrEventDataBuffer) : bool :=
  match evs with
  | [] => true
  | XrEventDataSessionStateChanged s' :: rest =>
      lifecycle_next s s' && lifecycle_valid s' rest
  | _ :: rest => lifecycle_valid s rest
  end.

(** The session state after a sequence of events. *)
Fixpoint lifecycle_after (s : XrSessionState) (evs : list XrEventDataBuffer)
  : XrSessionState :=
  match evs with
  | [] => s
  | XrEventDataSessionStateChanged s' :: rest => lifecycle_after s' rest
  | _ :: rest => lifecycle_after s rest
  end.

(** All events the ticks deliver, in the order they are polled. *)
Definition events_of (ticks : list TickEnv) : list XrEventDataBuffer :=
  flat_map (fun t => map event (xr_events t)) ticks.

(** *** Session discipline on a trace

    [session_discipline begun running t] reads a trace from left to right.
    [begun] records that a session-begin was issued with no session-end
    since; [running] that the last session-begin succeeded with no session-end
    since.  The trace is rejected at a session-begin issued while [begun], and
    at a wait-frame issued while not [running]. *)
Fixpoint session_discipline (begun running : bool) (t : list Call) : bool :=
  match t with
  | [] => true
  | xrBeginSession result :: t' =>
      negb begun && session_discipline true (XR_SUCCEEDED result) t'
  | xrEndSession :: t' => session_discipline false false t'
  | xrWaitFrame _ :: t' => running && session_discipline begun running t'
  | _ :: t' => session_discipline begun running t'
  end.

(** The calls [session_discipline] does not look at. *)
Definition session_neutral (c : Call) : bool :=
  match c with
  | xrBeginSession _ | xrEndSession | xrWaitFrame _ => false
  | _ => true
  end.

(** What links the session state last reported, the [begun] flag of
    [session_discipline] and the globals: the running flag is only set while
    a session-begin is outstanding, and none is outstanding in the states from
    which the lifecycle can reach READY. *)
Definition session_inv (s : XrSessionState) (begun : bool) (g : Globals) : Prop :=
  (xrSessionRunning g = true -> begun = true)
  /\ match s with
     | XR_SESSION_STATE_UNKNOWN | XR_SESSION_STATE_IDLE | XR_SESSION_STATE_STOPPING =>
         begun = false
     | _ => True
     end.

(** *** Swapchain-image discipline on a trace *)

Inductive ImageState :=
| Free                                   (* no image of any view is held *)
| Acquired (i : nat) (h : handle)        (* view [i], swapchain [h]: acquired *)
| WaitFailed (i : nat) (h : handle)      (* acquired, the wait failed *)
| Ready (i : nat) (h : handle)           (* acquired and waited on *)
| InPass (i : nat) (h : handle)          (* render pass open *)
| Rendered (i : nat) (h : handle).       (* render pass closed *)

(** The call is made for view [i] on swapchain [h], the image held. *)
Definition same_image (i : nat) (h : handle) (j : nat) (h' : handle) : bool :=
  Nat.eqb i j && N.eqb h h'.

(** One call against the image state; [None] rejects the call.  A failed
    acquire holds nothing; a wait needs the image of that view acquired, on
    the same swapchain; a release needs it held, on the same swapchain, with
    either the wait failed or the rendering done; the next acquire, the
    command-buffer submission and end-frame need every image released. *)
Definition image_step (s : ImageState) (c : Call) : option ImageState :=
  match c with
  | xrAcquireSwapchainImage i h result =>
      match s with
      | Free => Some (if XR_FAILED result then Free else Acquired i h)
      | _ => None
      end
  | xrWaitSwapchainImage i h result =>
      match s with
      | Acquired j h' =>
          if same_image i h j h'
          then Some (if XR_FAILED result then WaitFailed i h else Ready i h)
          else None
      | _ => None
      end
  | SDL_BeginGPURenderPass _ =>
      match s with Ready i h => Some (InPass i h) | _ => None end
  | SDL_DrawGPUIndexedPrimitives _ =>
      match s with InPass i h => Some (InPass i h) | _ => None end
  | SDL_EndGPURenderPass =>
      match s with InPass i h => Some (Rendered i h) | _ => None end
  | xrReleaseSwapchainImage i h =>
      match s with
      | WaitFailed j h' | Rendered j h' =>
          if same_image i h j h' then Some Free else None
      | _ => None
      end
  | SDL_SubmitGPUCommandBuffer | xrEndFrame _ =>
      match s with Free => Some Free | _ => None end
  | _ => Some s
  end.

Fixpoint image_discipline (s : ImageState) (t : list Call) : option ImageState :=
  match t with
  | [] => Some s
  | c :: t' =>
      match image_step s c with
      | Some s' => image_discipline s' t'
      | None => None
      end
  end.

(** Counting the swapchain-image calls of view [i] in a trace. *)
Definition is_acquire (i : nat) (c : Call) : bool :=
  match c with xrAcquireSwapchainImage j _ _ => Nat.eqb i j | _ => false end.
Definition is_acquire_ok (i : nat) (c : Call) : bool :=
  match c with
  | xrAcquireSwapchainImage j _ result => Nat.eqb i j && negb (XR_FAILED result)
  | _ => false
  end.
Definition is_wait (i : nat) (c : Call) : bool :=
  match c with xrWaitSwapchainImage j _ _ => Nat.eqb i j | _ => false end.
Definition is_release (i : nat) (c : Call) : bool :=
  match c with xrReleaseSwapchainImage j _ => Nat.eqb i j | _ => false end.

(** A swapchain-image call is made on the swapchain of its view's entry of
    the pool of [g]; any other call passes. *)
Definition on_view_swapchain (g : Globals) (c : Call) : bool :=
  match c with
  | xrAcquireSwapchainImage i h _ | xrWaitSwapchainImage i h _
  | xrReleaseSwapchainImage i h => N.eqb h (swapchain (vrSwapchains_at g i))
  | _ => true
  end.

Definition count (p : Call -> bool) (t : list Call) : nat := length (filter p t).

(** *** Frame calls *)

Definition is_xrWaitFrame (c : Call) : bool :=
  match c with xrWaitFrame _ => true | _ => false end.
Definition is_xrBeginFrame (c : Call) : bool :=
  match c with xrBeginFrame _ => true | _ => false end.
Definition is_xrEndFrame (c : Call) : bool :=
  match c with xrEndFrame _ => true | _ => false end.

Definition is_draw (c : Call) : bool :=
  match c with SDL_DrawGPUIndexedPrimitives _ => true | _ => false end.

(** The creation calls [CreateSwapchains] can make, the pipeline and buffer
    creation included. *)
Definition is_pool_setup_call (c : Call) : bool :=
  match c with
  | xrEnumerateViewConfigurationViews _ _
  | SDL_CreateGPUXRSwapchain _ _ _
  | xrEnumerateSwapchainImages _ _
  | SDL_CreateGPUGraphicsPipeline _
  | SDL_CreateGPUBuffer _ => true
  | _ => false
  end.

(** Every call [CreateSwapchains] can make: the creation calls and the
    submission of the upload commands in [CreateCubeBuffers]. *)
Definition is_setup_call (c : Call) : bool :=
  is_pool_setup_call c
  || match c with SDL_SubmitGPUCommandBuffer => true | _ => false end.

(** The calls [CreateSwapchains] makes to build the pool. *)
Definition is_creation_call (c : Call) : bool :=
  match c with
  | xrEnumerateViewConfigurationViews _ _
  | SDL_CreateGPUXRSwapchain _ _ _
  | xrEnumerateSwapchainImages _ _ => true
  | _ => false
  end.

Definition is_destroy (c : Call) : bool :=
  match c with SDL_DestroyGPUXRSwapchain _ => true | _ => false end.
(** A render pass begun on a texture read outside the image array. *)
Definition is_pass_out_of_bounds (c : Call) : bool :=
  match c with SDL_BeginGPURenderPass None => true | _ => false end.
Definition is_create_pipeline (c : Call) : bool :=
  match c with SDL_CreateGPUGraphicsPipeline _ => true | _ => false end.

(** A tick that delivers no event, only the frame answers [f]. *)
Definition frame_tick (f : FrameEnv) : TickEnv := mkTickEnv false [] f.

(** View [i] completed both acquire and wait in the tick answered by [env]. *)
Definition view_completed (env : FrameEnv) (i : nat) : bool :=
  let ve := nth i (per_view_image env) ViewEnv_default in
  negb (XR_FAILED (acquire_result ve)) && negb (XR_FAILED (waitImage_result ve)).

(** The read [swapchain->images[imageIndex]] of view [i], when the view gets
    that far, is inside the image array of its pool entry; and this for every
    view of the pool. *)
Definition view_reads_in_bounds (env : FrameEnv) (g : Globals) (i : nat) : bool :=
  negb (view_completed env i)
  || (acquire_imageIndex (nth i (per_view_image env) ViewEnv_default)
      <? length (images (vrSwapchains_at g i))).
Definition frame_reads_in_bounds (env : FrameEnv) (g : Globals) : bool :=
  forallb (view_reads_in_bounds env g) (seq 0 (viewCount g)).

(** The composition-layer entry [RenderFrame] fills in for view [i]. *)
Definition populated_entry (g : Globals) (i : nat) : XrCompositionLayerProjectionView :=
  mkProjView XR_TYPE_COMPOSITION_LAYER_PROJECTION_VIEW
             (view_pose (xrViews_at g i)) (view_fov (xrViews_at g i))
             (swapchain (vrSwapchains_at g i)) (0%Z, 0%Z) (size (vrSwapchains_at g i)) 0%N.

(** The guard of the render block of [RenderFrame]: the pool exists. *)
Definition pool_exists (g : Globals) : bool :=
  (0 <? viewCount g)
  && match vrSwapchains g with Some _ => true | None => false end.

(** The tick answered by [env] from state [g] reaches the clock update. *)
Definition clock_advances (env : FrameEnv) (g : Globals) : bool :=
  xrSessionRunning g
  && negb (XR_FAILED (waitFrame_result env))
  && negb (XR_FAILED (beginFrame_result env))
  && shouldRender (waitFrame_frameState env)
  && pool_exists g.

(** *** Names for the intermediate results of a tick *)

(** The trace of one iteration of the per-view loop (it does not depend on
    the entries collected so far). *)
Definition view_trace (env : FrameEnv) (g : Globals) (i : nat) : list Call :=
  trace_of (RenderFrame_view env i [] g).

(** The globals once the clock is advanced and [xrLocateViews] has returned. *)
Definition after_locate (env : FrameEnv) (g : Globals) : Globals :=
  let g1 := set_animTime (F32.fadd (animTime g) F32.anim_step) g in
  match xrViews g1 with
  | Some _ => set_xrViews (Some (locateViews_views env)) g1
  | None => g1
  end.

(** The array [projViews] when the per-view loop is over. *)
Definition render_views (env : FrameEnv) (g : Globals)
  : list XrCompositionLayerProjectionView :=
  fold_left (fun pv i => if view_completed env i
                         then store i (populated_entry g i) pv else pv)
            (seq 0 (viewCount g))
            (repeat XrCompositionLayerProjectionView_zero (viewCount g)).

(** *** Names for the results of pool creation *)

(** Creating the swapchain of view [i] failed. *)
Definition view_fails (env : CreateSwapchainsEnv) (i : nat) : bool :=
  XR_FAILED (create_result (nth i (per_view env) SwapchainEnv_default)).

(** Entry [i] of the pool after the loop iteration for view [i], from its
    value [old] before: the three fields [SDL_CreateGPUXRSwapchain] stores
    through its out-pointers, and, when that call succeeded, the image count
    and the size. *)
Definition view_entry (env : CreateSwapchainsEnv)
  (viewConfigs : list XrViewConfigurationView) (i : nat) (old : VRSwapchain)
  : VRSwapchain :=
  let cfg := nth i viewConfigs XrViewConfigurationView_zero in
  let se := nth i (per_view env) SwapchainEnv_default in
  if XR_FAILED (create_result se) then
    mkVRSwapchain (create_swapchain se) (create_images se) (size old) (create_format se)
                  (imageCount old)
  else
    mkVRSwapchain (create_swapchain se) (create_images se)
                  (mkExtent (to_int32 (recommendedImageRectWidth cfg))
                            (to_int32 (recommendedImageRectHeight cfg)))
                  (create_format se)
                  (if XR_FAILED (enumerate_result se) then 3 else enumerate_imageCount se).

(** The pool array after the loop over [views], which stops at the first view
    whose creation fails. *)
Fixpoint loop_pool (env : CreateSwapchainsEnv)
  (viewConfigs : list XrViewConfigurationView) (views : list nat)
  (l : list VRSwapchain) : list VRSwapchain :=
  match views with
  | [] => l
  | i :: rest =>
      let l' := store i (view_entry env viewConfigs i (nth i l VRSwapchain_zero)) l in
      if view_fails env i then l' else loop_pool env viewConfigs rest l'
  end.

(** The event is a session-state change to READY and the session-begin call
    made for it succeeded. *)
Definition ready_begun (e : EventEnv) : bool :=
  match event e with
  | XrEventDataSessionStateChanged XR_SESSION_STATE_READY =>
      XR_SUCCEEDED (beginSession_result e)
  | _ => false
  end.

Definition is_create_swapchain (i : nat) (c : Call) : bool :=
  match c with SDL_CreateGPUXRSwapchain j _ _ => Nat.eqb i j | _ => false end.

(** The destroy calls [Cleanup] makes for the pool entries with a non-null
    swapchain handle. *)
Definition destroy_calls (handles : list handle) : list Call :=
  flat_map (fun h => if is_null h then [] else [SDL_DestroyGPUXRSwapchain h]) handles.

(** ** Concrete scenarios *)

Module Scenario.

Definition two_views : list XrViewConfigurationView :=
  [mkViewConfig 1440 1584; mkViewConfig 1440 1584].

(** A swapchain creation that succeeds with handle [h] and three images. *)
Definition swapchain_ok (h : handle) : SwapchainEnv :=
  mkSwapchainEnv XR_SUCCESS 44%Z h [h + 1; h + 2; h + 3]%N XR_SUCCESS 3.

(** A swapchain creation that fails and stores nothing. *)
Definition swapchain_failing : SwapchainEnv :=
  mkSwapchainEnv XR_ERROR_RUNTIME_FAILURE 0%Z XR_NULL_HANDLE [] XR_ERROR_RUNTIME_FAILURE 0.

(** Pool creation for two views with the given per-view answers. *)
Definition pool_env (answers : list SwapchainEnv) : CreateSwapchainsEnv :=
  mkCreateSwapchainsEnv XR_SUCCESS 2 XR_SUCCESS 2 two_views answers true 5%N 6%N 7%N.

Definition both_ok (h : handle) : CreateSwapchainsEnv :=
  pool_env [swapchain_ok h; swapchain_ok (h + 10)%N].
Definition second_fails : CreateSwapchainsEnv :=
  pool_env [swapchain_ok 10%N; swapchain_failing].

(** A session-state-changed event; its session-begin (if any) succeeds. *)
Definition state_changed (s : XrSessionState) (env : CreateSwapchainsEnv) : EventEnv :=
  mkEventEnv (XrEventDataSessionStateChanged s) XR_SUCCESS env.

Definition start : Globals := initial_globals 1%N.

(** A full lifecycle round followed by a second READY. *)
Definition first_round : list EventEnv :=
  [ state_changed XR_SESSION_STATE_IDLE (both_ok 10%N);
    state_changed XR_SESSION_STATE_READY (both_ok 10%N);
    state_changed XR_SESSION_STATE_SYNCHRONIZED (both_ok 10%N);
    state_changed XR_SESSION_STATE_STOPPING (both_ok 10%N);
    state_changed XR_SESSION_STATE_IDLE (both_ok 10%N) ].
Definition second_ready : EventEnv := state_changed XR_SESSION_STATE_READY (both_ok 30%N).

(** The first READY of a session, with the second view's swapchain failing. *)
Definition failing_ready : EventEnv := state_changed XR_SESSION_STATE_READY second_fails.

Definition view_ok : ViewEnv := mkViewEnv XR_SUCCESS 0 XR_SUCCESS.
Definition view_acquire_fails : ViewEnv := mkViewEnv XR_ERROR_RUNTIME_FAILURE 0 XR_SUCCESS.

(** Frame answers: everything succeeds and the frame is to be rendered. *)
Definition frame_ok : FrameEnv :=
  mkFrameEnv XR_SUCCESS (mkFrameState 1000%Z true) XR_SUCCESS XR_SUCCESS
             [XrView_zero; XrView_zero] [view_ok; view_ok].
(** Frame answers: the first view fails to acquire. *)
Definition frame_left_eye_fails : FrameEnv :=
  mkFrameEnv XR_SUCCESS (mkFrameState 1000%Z true) XR_SUCCESS XR_SUCCESS
             [XrView_zero; XrView_zero] [view_acquire_fails; view_ok].
(** Frame answers: wait-frame fails. *)
Definition frame_wait_fails : FrameEnv :=
  mkFrameEnv XR_ERROR_RUNTIME_FAILURE (mkFrameState 0%Z false) XR_SUCCESS XR_SUCCESS [] [].
(** Frame answers: view-locate fails. *)
Definition frame_locate_fails : FrameEnv :=
  mkFrameEnv XR_SUCCESS (mkFrameState 1000%Z true) XR_SUCCESS XR_ERROR_RUNTIME_FAILURE [] [].

(** The globals of a running session with a two-view pool. *)
Definition running : Globals :=
  state_of (HandleXREvents
              [ state_changed XR_SESSION_STATE_IDLE (both_ok 10%N);
                state_changed XR_SESSION_STATE_READY (both_ok 10%N) ] start).

(** One tick that delivers IDLE and READY and renders, then two plain
    frames. *)
Definition three_ticks : list TickEnv :=
  [ mkTickEnv false [ state_changed XR_SESSION_STATE_IDLE (both_ok 10%N);
                      state_changed XR_SESSION_STATE_READY (both_ok 10%N) ] frame_ok;
    frame_tick frame_ok;
    mkTickEnv false [ state_changed XR_SESSION_STATE_SYNCHRONIZED (both_ok 10%N) ]
              frame_left_eye_fails ].

(** Frame answers: the second view fails to acquire. *)
Definition frame_right_eye_fails : FrameEnv :=
  mkFrameEnv XR_SUCCESS (mkFrameState 1000%Z true) XR_SUCCESS XR_SUCCESS
             [XrView_zero; XrView_zero] [view_ok; view_acquire_fails].

(** [M_PI / 4] as a [float], and a tangent known at the angles the scenarios
    use: [1] at [M_PI / 4] of either sign, and its argument elsewhere, which
    is what [tanf] returns at the two zeros. *)
Definition quarter_pi : F32.float32 := SpecFloat.S754_finite false 13176795 (-24).
Definition tanf_sample (a : F32.float32) : F32.float32 :=
  match a with
  | SpecFloat.S754_finite s m e =>
      if Pos.eqb m 13176795 && Z.eqb e (-24) then SpecFloat.S754_finite s 8388608 (-23)
      else a
  | _ => a
  end.

(** A field of view of [M_PI / 4] to every side, and the degenerate one with
    every angle zero. *)
Definition square_fov : F32.XrFovf :=
  F32.mkFov (F32.fneg quarter_pi) quarter_pi quarter_pi (F32.fneg quarter_pi).
Definition zero_fov : F32.XrFovf :=
  F32.mkFov (F32.fneg F32.zero) F32.zero F32.zero (F32.fneg F32.zero).

(** The near and far planes of [RenderFrame]: [0.05f] and [100.0f]. *)
Definition nearZ : F32.float32 := F32.decimal 5 100.
Definition farZ : F32.float32 := F32.of_Z 100.

(** The running state of [running] late in a long session, the clock at
    [262144.0f]. *)
Definition running_late : Globals := set_animTime (F32.of_Z 262144) running.

End Scenario.

(** ** Vocabulary of the further properties *)

(** *** Transform library *)



(** *** Frame orchestrator and swapchain pool *)



(** The pipeline and both cube buffers exist: the guard of the draw loop. *)
Definition can_draw (g : Globals) : bool :=
  negb (is_null (pipeline g)) && negb (is_null (vertexBuffer g))
  && negb (is_null (indexBuffer g)).

Definition is_begin_pass (c : Call) : bool :=
  match c with SDL_BeginGPURenderPass _ => true | _ => false end.
Definition is_resource_call (c : Call) : bool :=
  match c with
  | SDL_CreateGPUGraphicsPipeline _ | SDL_CreateGPUBuffer _ => true
  | _ => false
  end.

(** The frame answers ask for a rendered frame: wait-frame and begin-frame
    succeed and the frame state has the should-render flag. *)
Definition frame_renders (f : FrameEnv) : bool :=
  negb (XR_FAILED (waitFrame_result f)) && negb (XR_FAILED (beginFrame_result f))
  && shouldRender (waitFrame_frameState f).

(** The handles the swapchain creation calls of a trace stored, and the
    handles its destroy calls were given, in order. *)
Definition created_handles (t : list Call) : list handle :=
  flat_map (fun c => match c with SDL_CreateGPUXRSwapchain _ _ h => [h] | _ => [] end) t.
Definition destroyed_handles (t : list Call) : list handle :=
  flat_map (fun c => match c with SDL_DestroyGPUXRSwapchain h => [h] | _ => [] end) t.

(** *** Frame discipline on a trace *)

Inductive FramePhase :=
| Outside      (* between frames *)
| Waited       (* wait-frame succeeded, begin-frame not yet called *)
| Begun.       (* begin-frame succeeded, end-frame not yet called *)

(** One call against the frame phase; [None] rejects the call.  Wait-frame
    is made between frames, begin-frame after a successful wait-frame, view
    location, the swapchain-image calls and the render-pass calls inside a
    begun frame, which end-frame closes; session and pool calls are made
    between frames only.  A command buffer is submitted inside a begun frame
    (the frame's rendering) or between frames (the upload of
    [CreateCubeBuffers]), never between a wait-frame and its begin-frame. *)
Definition frame_step (s : FramePhase) (c : Call) : option FramePhase :=
  match c with
  | xrWaitFrame result =>
      match s with
      | Outside => Some (if XR_FAILED result then Outside else Waited)
      | _ => None
      end
  | xrBeginFrame result =>
      match s with
      | Waited => Some (if XR_FAILED result then Outside else Begun)
      | _ => None
      end
  | xrEndFrame _ =>
      match s with Begun => Some Outside | _ => None end
  | xrLocateViews _ _ | xrAcquireSwapchainImage _ _ _ | xrWaitSwapchainImage _ _ _
  | xrReleaseSwapchainImage _ _ | SDL_BeginGPURenderPass _
  | SDL_DrawGPUIndexedPrimitives _ | SDL_EndGPURenderPass =>
      match s with Begun => Some Begun | _ => None end
  | SDL_SubmitGPUCommandBuffer =>
      match s with Waited => None | _ => Some s end
  | _ =>
      match s with Outside => Some Outside | _ => None end
  end.

Fixpoint frame_discipline (s : FramePhase) (t : list Call) : option FramePhase :=
  match t with
  | [] => Some s
  | c :: t' =>
      match frame_step s c with
      | Some s' => frame_discipline s' t'
      | None => None
      end
  end.

Definition is_xrBeginFrame_ok (c : Call) : bool :=
  match c with xrBeginFrame result => negb (XR_FAILED result) | _ => false end.

(** The event asks the application to quit: a session-state change to EXITING
    or LOSS_PENDING, or an instance-loss-pending event. *)
Definition is_quit_event (e : EventEnv) : bool :=
  match event e with
  | XrEventDataSessionStateChanged XR_SESSION_STATE_EXITING
  | XrEventDataSessionStateChanged XR_SESSION_STATE_LOSS_PENDING
  | XrEventDataInstanceLossPending => true
  | _ => false
  end.

(** *** Outcome of pool creation *)

(** The pipeline and cube buffers get created by this call: there is a view
    and no pipeline yet. *)
Definition creates_resources (env : CreateSwapchainsEnv) (g : Globals) : bool :=
  (0 <? fill_viewCount env) && is_null (pipeline g).

(** Everything [CreateSwapchains] tests came out well: both enumerations,
    every view's swapchain and, when they get created, the shaders, the
    pipeline and both buffers. *)
Definition creation_succeeds (env : CreateSwapchainsEnv) (g : Globals) : bool :=
  negb (XR_FAILED (count_result env))
  && negb (XR_FAILED (fill_result env))
  && negb (existsb (view_fails env) (seq 0 (fill_viewCount env)))
  && (if creates_resources env g
      then shaders_loaded env
           && negb (is_null (created_pipeline env))
           && negb (is_null (created_vertexBuffer env))
           && negb (is_null (created_indexBuffer env))
      else true).

(** A pipeline-creation call that returned a pipeline object. *)
Definition is_pipeline_created (c : Call) : bool :=
  match c with SDL_CreateGPUGraphicsPipeline h => negb (is_null h) | _ => false end.

(** [1] when the globals hold a pipeline object, else [0]. *)
Definition pipelines_held (g : Globals) : nat :=
  if is_null (pipeline g) then 0 else 1.

(** * Controller input layer

    A shallow embedding of [src/xr_input.c].

    Conventions of this part.
    - The fixed-size arrays of [struct XR_InputState] are total maps on their
      indices; only indices inside the array bounds are ever read.
    - Every [XR_Controller] the library hands out is a slot of the
      [controllers] array of an [XR_InputState]: a pointer to one is the
      index of its slot, [None] being [NULL].  Its [_state] back pointer is
      either [NULL] or the enclosing state, so it is a flag.
    - [XR_Button] has no negative enumerator and is compared as an unsigned
      value: a button is a natural number.
    - The calls into the OpenXR runtime are logged in a trace of
      [InputCall]s; what the runtime answers is an input of the model. *)

From Stdlib Require String.

Module Input.

Import String.StringSyntax.

Definition XrPath := N.
Definition XR_NULL_PATH : XrPath := 0%N.

(** [enum XR_Hand], [enum XR_Button], [enum XR_PoseType]. *)
Definition XR_HAND_LEFT : nat := 0.
Definition XR_HAND_RIGHT : nat := 1.
Definition XR_HAND_COUNT : nat := 2.

Definition XR_BUTTON_A : nat := 0.
Definition XR_BUTTON_B : nat := 1.
Definition XR_BUTTON_X : nat := 2.
Definition XR_BUTTON_Y : nat := 3.
Definition XR_BUTTON_MENU : nat := 4.
Definition XR_BUTTON_THUMBSTICK : nat := 5.
Definition XR_BUTTON_TRIGGER : nat := 6.
Definition XR_BUTTON_GRIP : nat := 7.
Definition XR_BUTTON_THUMBREST : nat := 8.
Definition XR_BUTTON_COUNT : nat := 9.

Definition XR_POSE_GRIP : Z := 0.
Definition XR_POSE_AIM : Z := 1.
Definition XR_POSE_PALM : Z := 2.
Definition XR_POSE_COUNT : Z := 3.

Inductive XrActionType :=
| XR_ACTION_TYPE_BOOLEAN_INPUT
| XR_ACTION_TYPE_FLOAT_INPUT
| XR_ACTION_TYPE_VECTOR2F_INPUT
| XR_ACTION_TYPE_POSE_INPUT
| XR_ACTION_TYPE_VIBRATION_OUTPUT.

(** [XrSpaceLocationFlags] bits of [openxr.h]. *)
Definition XR_SPACE_LOCATION_ORIENTATION_VALID_BIT : Z := 1.
Definition XR_SPACE_LOCATION_POSITION_VALID_BIT : Z := 2.
Definition XR_SPACE_LOCATION_ORIENTATION_TRACKED_BIT : Z := 4.
Definition XR_SPACE_LOCATION_POSITION_TRACKED_BIT : Z := 8.

Record XR_Controller := mkController {
  hand : nat;
  active : bool;
  gripSpace : handle;
  aimSpace : handle;
  _state : bool          (* the back pointer is set *)
}.

Record XR_InputState := mkInputState {
  instance : handle;
  session : handle;
  actionSet : handle;
  buttonActions : nat -> handle;
  triggerAction : handle;
  gripAction : handle;
  thumbstickAction : handle;
  trackpadAction : handle;
  gripPoseAction : handle;
  aimPoseAction : handle;
  hapticAction : handle;
  handPaths : nat -> XrPath;
  controllers : nat -> XR_Controller;
  prevButtons : nat -> nat -> bool;
  currButtons : nat -> nat -> bool
}.

Definition set_controllers (v : nat -> XR_Controller) (s : XR_InputState) : XR_InputState :=
  mkInputState (instance s) (session s) (actionSet s) (buttonActions s) (triggerAction s)
    (gripAction s) (thumbstickAction s) (trackpadAction s) (gripPoseAction s)
    (aimPoseAction s) (hapticAction s) (handPaths s) v (prevButtons s) (currButtons s).
Definition set_prevButtons (v : nat -> nat -> bool) (s : XR_InputState) : XR_InputState :=
  mkInputState (instance s) (session s) (actionSet s) (buttonActions s) (triggerAction s)
    (gripAction s) (thumbstickAction s) (trackpadAction s) (gripPoseAction s)
    (aimPoseAction s) (hapticAction s) (handPaths s) (controllers s) v (currButtons s).
Definition set_currButtons (v : nat -> nat -> bool) (s : XR_InputState) : XR_InputState :=
  mkInputState (instance s) (session s) (actionSet s) (buttonActions s) (triggerAction s)
    (gripAction s) (thumbstickAction s) (trackpadAction s) (gripPoseAction s)
    (aimPoseAction s) (hapticAction s) (handPaths s) (controllers s) (prevButtons s) v.

(** [a[i] = v] and [a[i][j] = v] on an array seen as a map. *)
Definition upd {A} (i : nat) (v : A) (a : nat -> A) : nat -> A :=
  fun k => if Nat.eqb k i then v else a k.
Definition upd2 {A} (i j : nat) (v : A) (a : nat -> nat -> A) : nat -> nat -> A :=
  upd i (upd j v (a i)) a.

Definition set_active (v : bool) (c : XR_Controller) : XR_Controller :=
  mkController (hand c) v (gripSpace c) (aimSpace c) (_state c).

(** ** Runtime calls and the trace *)

Inductive InputCall :=
| xrStringToPath (pathString : String.string) (result : XrResult)
| xrCreateActionSet (result : XrResult)
| xrCreateAction (type : XrActionType) (name : String.string) (result : XrResult)
| xrSuggestInteractionProfileBindings (interactionProfile : XrPath)
    (suggestedBindings : list (handle * XrPath)) (result : XrResult)
| xrCreateActionSpace (action : handle) (subactionPath : XrPath) (result : XrResult)
    (space : handle)
| xrDestroySpace (space : handle)
| xrDestroyActionSet (set : handle)
| xrSyncActions (result : XrResult)
| xrGetActionStatePose (action : handle) (subactionPath : XrPath)
| xrGetActionStateBoolean (action : handle) (subactionPath : XrPath) (result : XrResult)
| xrLocateSpace (space baseSpace : handle) (time : Z) (velocity : bool) (result : XrResult).

(** A computation that logs runtime calls. *)
Definition W (A : Type) : Type := (A * list InputCall)%type.
Definition wret {A} (a : A) : W A := (a, []).
Definition wbind {A B} (c : W A) (k : A -> W B) : W B :=
  let b := k (fst c) in (fst b, snd c ++ snd b).
Definition wcall (c : InputCall) : W unit := (tt, [c]).

Declare Scope input_scope.
Delimit Scope input_scope with input.
Notation "x <~ c ;; k" := (wbind c (fun x => k))
  (at level 61, c at next level, right associativity) : input_scope.
Notation "c ;;; k" := (wbind c (fun _ => k))
  (at level 61, right associativity) : input_scope.
Local Open Scope input_scope.

(** A [for] loop that threads an accumulator through its iterations. *)
Fixpoint wfold {A S} (l : list A) (body : A -> S -> W S) (s : S) : W S :=
  match l with
  | [] => wret s
  | a :: rest => s' <~ body a s ;; wfold rest body s'
  end.

(** ** Helpers *)

(** What the runtime answers while the input system is created. *)
Record CreateEnv := mkCreateEnv {
  calloc_ok : bool;
  string_to_path : String.string -> XrResult * XrPath;
  actionSet_result : XrResult;
  actionSet_handle : handle;
  action_answer : String.string -> XrResult * handle;      (* by action name *)
  suggest_result : XrPath -> XrResult;              (* by profile path *)
  space_answer : nat -> bool -> XrResult * handle   (* by hand; grip [false] or aim [true] *)
}.

Definition GetPath (env : CreateEnv) (pathString : String.string) : W XrPath :=
  let result := fst (string_to_path env pathString) in
  wcall (xrStringToPath pathString result) ;;;
  if negb (result =? XR_SUCCESS)%Z then wret XR_NULL_PATH
  else wret (snd (string_to_path env pathString)).

Definition CreateAction (env : CreateEnv) (type : XrActionType) (name : String.string)
  : W handle :=
  let result := fst (action_answer env name) in
  wcall (xrCreateAction type name result) ;;;
  if negb (result =? XR_SUCCESS)%Z then wret XR_NULL_HANDLE
  else wret (snd (action_answer env name)).

(** ** Interaction profile bindings *)

Record ControllerProfile := mkProfile {
  profile : String.string;
  trigger : option String.string;
  grip : option String.string;
  thumbstick : option String.string;
  trackpad : option String.string;
  buttonA : option String.string;
  buttonB : option String.string;
  buttonMenu : option String.string;
  thumbstickClick : option String.string;
  gripPose : option String.string;
  aimPose : option String.string;
  haptic : option String.string
}.

Local Open Scope string_scope.

Definition g_profiles : list ControllerProfile :=
  [ (* Oculus Touch (Quest, Rift) *)
    mkProfile "/interaction_profiles/oculus/touch_controller"
      (Some "/input/trigger/value") (Some "/input/squeeze/value")
      (Some "/input/thumbstick") None
      (Some "/input/a/click") (Some "/input/b/click") (Some "/input/menu/click")
      (Some "/input/thumbstick/click")
      (Some "/input/grip/pose") (Some "/input/aim/pose") (Some "/output/haptic");
    (* Valve Index *)
    mkProfile "/interaction_profiles/valve/index_controller"
      (Some "/input/trigger/value") (Some "/input/squeeze/value")
      (Some "/input/thumbstick") (Some "/input/trackpad")
      (Some "/input/a/click") (Some "/input/b/click") (Some "/input/system/click")
      (Some "/input/thumbstick/click")
      (Some "/input/grip/pose") (Some "/input/aim/pose") (Some "/output/haptic");
    (* HTC Vive Wand *)
    mkProfile "/interaction_profiles/htc/vive_controller"
      (Some "/input/trigger/value") (Some "/input/squeeze/click")
      None (Some "/input/trackpad")
      (Some "/input/trackpad/click") None (Some "/input/menu/click")
      None
      (Some "/input/grip/pose") (Some "/input/aim/pose") (Some "/output/haptic");
    (* Simple Controller (fallback) *)
    mkProfile "/interaction_profiles/khr/simple_controller"
      (Some "/input/select/click") None
      None None
      (Some "/input/select/click") None (Some "/input/menu/click")
      None
      (Some "/input/grip/pose") (Some "/input/aim/pose") (Some "/output/haptic") ].

Definition handPrefixes : list String.string := ["/user/hand/left"; "/user/hand/right"].

Definition buttonNames : list String.string :=
  [ "button_a"; "button_b"; "button_x"; "button_y";
    "button_menu"; "button_thumbstick"; "button_trigger";
    "button_grip"; "button_thumbrest" ].

Local Close Scope string_scope.

(** [snprintf(pathBuf, sizeof(pathBuf), "%s%s", a, b)] with a buffer of 256
    bytes: the first 255 characters of the concatenation. *)
Definition pathBuf_size : nat := 256.
Definition snprintf_pathBuf (a b : String.string) : String.string :=
  String.substring 0 (pathBuf_size - 1) (String.append a b).

(** One [if (profile->field) { ... bindingCount++; }] block: the bindings
    written so far are [bindings], in order. *)
Definition bind_field (env : CreateEnv) (prefix : String.string) (field : option String.string)
  (action : handle) (bindings : list (handle * XrPath)) : W (list (handle * XrPath)) :=
  match field with
  | Some suffix =>
      path <~ GetPath env (snprintf_pathBuf prefix suffix) ;;
      wret (bindings ++ [(action, path)])
  | None => wret bindings
  end.

(** The body of [for (int hand = 0; hand < 2; hand++)]. *)
Definition bind_hand (env : CreateEnv) (state : XR_InputState) (p : ControllerProfile)
  (hand : nat) (bindings : list (handle * XrPath)) : W (list (handle * XrPath)) :=
  let prefix := nth hand handPrefixes String.EmptyString in
  b <~ bind_field env prefix (trigger p) (triggerAction state) bindings ;;
  b <~ bind_field env prefix (grip p) (gripAction state) b ;;
  b <~ bind_field env prefix (thumbstick p) (thumbstickAction state) b ;;
  b <~ bind_field env prefix (trackpad p) (trackpadAction state) b ;;
  b <~ bind_field env prefix (buttonA p) (buttonActions state XR_BUTTON_A) b ;;
  b <~ bind_field env prefix (buttonB p) (buttonActions state XR_BUTTON_B) b ;;
  b <~ bind_field env prefix (buttonMenu p) (buttonActions state XR_BUTTON_MENU) b ;;
  b <~ bind_field env prefix (thumbstickClick p)
         (buttonActions state XR_BUTTON_THUMBSTICK) b ;;
  b <~ bind_field env prefix (gripPose p) (gripPoseAction state) b ;;
  b <~ bind_field env prefix (aimPose p) (aimPoseAction state) b ;;
  bind_field env prefix (haptic p) (hapticAction state) b.

(** The capacity of the local [bindings] array. *)
Definition bindings_capacity : nat := 64.

Definition SuggestBindingsForProfile (env : CreateEnv) (state : XR_InputState)
  (p : ControllerProfile) : W bool :=
  profilePath <~ GetPath env (profile p) ;;
  if (profilePath =? XR_NULL_PATH)%N then wret false
  else
    bindings <~ wfold (seq 0 2) (bind_hand env state p) [] ;;
    let result := suggest_result env profilePath in
    wcall (xrSuggestInteractionProfileBindings profilePath bindings result) ;;;
    wret (result =? XR_SUCCESS)%Z.

(** ** Initialization *)

Definition XR_Controller_zero : XR_Controller :=
  mkController 0 false XR_NULL_HANDLE XR_NULL_HANDLE false.

(** [xrCreateActionSpace] into [*space], then [*space = XR_NULL_HANDLE] when
    it did not succeed. *)
Definition create_space (env : CreateEnv) (hand : nat) (aim : bool)
  (action : handle) (subactionPath : XrPath) : W handle :=
  let result := fst (space_answer env hand aim) in
  let space := snd (space_answer env hand aim) in
  wcall (xrCreateActionSpace action subactionPath result space) ;;;
  if negb (result =? XR_SUCCESS)%Z then wret XR_NULL_HANDLE
  else wret space.

(** The body of the hand-space loop of [XR_Input_Create]. *)
Definition create_hand (env : CreateEnv) (hand : nat) (state : XR_InputState)
  : W XR_InputState :=
  g <~ create_space env hand false (gripPoseAction state) (handPaths state hand) ;;
  a <~ create_space env hand true (aimPoseAction state) (handPaths state hand) ;;
  wret (set_controllers
          (upd hand (mkController hand (active (controllers state hand)) g a true)
               (controllers state))
          state).

(** The loop over [g_profiles]; the accumulator is [successCount]. *)
Definition suggest_profile (env : CreateEnv) (state : XR_InputState)
  (p : ControllerProfile) (successCount : nat) : W nat :=
  ok <~ SuggestBindingsForProfile env state p ;;
  if ok then wret (S successCount) else wret successCount.

(** The loop that creates the button actions; the accumulator is the part of
    [buttonActions] filled so far. *)
Definition create_button (env : CreateEnv) (i : nat) (actions : nat -> handle)
  : W (nat -> handle) :=
  a <~ CreateAction env XR_ACTION_TYPE_BOOLEAN_INPUT (nth i buttonNames String.EmptyString) ;;
  wret (upd i a actions).

Local Open Scope string_scope.

Definition XR_Input_Create (env : CreateEnv) (instance session : handle)
  : W (option XR_InputState) :=
  if negb (calloc_ok env) then wret None
  else
    left <~ GetPath env "/user/hand/left" ;;
    right <~ GetPath env "/user/hand/right" ;;
    let handPaths := upd XR_HAND_RIGHT right (upd XR_HAND_LEFT left (fun _ => XR_NULL_PATH)) in
    wcall (xrCreateActionSet (actionSet_result env)) ;;;
    if negb (actionSet_result env =? XR_SUCCESS)%Z then wret None
    else
      buttons <~ wfold (seq 0 XR_BUTTON_COUNT) (create_button env)
                   (fun _ => XR_NULL_HANDLE) ;;
      triggerAction <~ CreateAction env XR_ACTION_TYPE_FLOAT_INPUT "trigger" ;;
      gripAction <~ CreateAction env XR_ACTION_TYPE_FLOAT_INPUT "grip" ;;
      thumbstickAction <~ CreateAction env XR_ACTION_TYPE_VECTOR2F_INPUT "thumbstick" ;;
      trackpadAction <~ CreateAction env XR_ACTION_TYPE_VECTOR2F_INPUT "trackpad" ;;
      gripPoseAction <~ CreateAction env XR_ACTION_TYPE_POSE_INPUT "grip_pose" ;;
      aimPoseAction <~ CreateAction env XR_ACTION_TYPE_POSE_INPUT "aim_pose" ;;
      hapticAction <~ CreateAction env XR_ACTION_TYPE_VIBRATION_OUTPUT "haptic" ;;
      let state :=
        mkInputState instance session (actionSet_handle env) buttons
          triggerAction gripAction thumbstickAction trackpadAction
          gripPoseAction aimPoseAction hapticAction handPaths
          (fun _ => XR_Controller_zero) (fun _ _ => false) (fun _ _ => false) in
      wfold g_profiles (suggest_profile env state) 0 ;;;
      state <~ wfold (seq 0 XR_HAND_COUNT) (create_hand env) state ;;
      wret (Some state).

Local Close Scope string_scope.

(** The body of the loop of [XR_Input_Destroy]. *)
Definition destroy_hand (state : XR_InputState) (hand : nat) : list InputCall :=
  (if negb (is_null (gripSpace (controllers state hand)))
   then [xrDestroySpace (gripSpace (controllers state hand))] else [])
  ++ (if negb (is_null (aimSpace (controllers state hand)))
      then [xrDestroySpace (aimSpace (controllers state hand))] else []).

(** [XR_Input_Destroy] returns nothing: the model gives its trace. *)
Definition XR_Input_Destroy (state : option XR_InputState) : list InputCall :=
  match state with
  | None => []
  | Some s =>
      flat_map (destroy_hand s) (seq 0 XR_HAND_COUNT)
      ++ (if negb (is_null (actionSet s)) then [xrDestroyActionSet (actionSet s)] else [])
  end.

Definition XR_Input_GetActionSet (state : option XR_InputState) : handle :=
  match state with Some s => actionSet s | None => XR_NULL_HANDLE end.

(** ** Per-frame update *)

(** What the runtime answers during one [XR_Input_Sync]: the result of
    [xrSyncActions], and for each hand and button what the state queries
    leave in [poseState] and [boolState]. *)
Record SyncEnv := mkSyncEnv {
  sync_result : XrResult;
  pose_isActive : nat -> bool;
  boolean_result : nat -> nat -> XrResult;
  boolean_isActive : nat -> nat -> bool;
  boolean_currentState : nat -> nat -> bool
}.

(** The body of the button loop of [XR_Input_Sync]. *)
Definition sync_button (env : SyncEnv) (hand btn : nat) (state : XR_InputState)
  : W XR_InputState :=
  if is_null (buttonActions state btn)
  then wret (set_currButtons (upd2 hand btn false (currButtons state)) state)
  else
    let result := boolean_result env hand btn in
    wcall (xrGetActionStateBoolean (buttonActions state btn) (handPaths state hand) result) ;;;
    if (result =? XR_SUCCESS)%Z
    then wret (set_currButtons
                 (upd2 hand btn (boolean_isActive env hand btn
                                 && boolean_currentState env hand btn)
                       (currButtons state)) state)
    else wret (set_currButtons (upd2 hand btn false (currButtons state)) state).

(** The body of the hand loop of [XR_Input_Sync]. *)
Definition sync_hand (env : SyncEnv) (hand : nat) (state : XR_InputState)
  : W XR_InputState :=
  wcall (xrGetActionStatePose (gripPoseAction state) (handPaths state hand)) ;;;
  let state :=
    set_controllers (upd hand (set_active (pose_isActive env hand) (controllers state hand))
                         (controllers state)) state in
  wfold (seq 0 XR_BUTTON_COUNT) (sync_button env hand) state.

(** [XR_Input_Sync]: the returned flag and the contents of [*state]
    afterwards. *)
Definition XR_Input_Sync (env : SyncEnv) (state : option XR_InputState)
  : W (bool * option XR_InputState) :=
  match state with
  | None => wret (false, None)
  | Some s =>
      let s := set_prevButtons (currButtons s) s in
      let result := sync_result env in
      wcall (xrSyncActions result) ;;;
      if negb (result =? XR_SUCCESS)%Z then wret (false, Some s)
      else
        s <~ wfold (seq 0 XR_HAND_COUNT) (sync_hand env) s ;;
        wret (true, Some s)
  end.

(** A pointer to a controller: the index of its slot in the state. *)
Definition XR_Input_GetController (state : option XR_InputState) (hand : Z) : option nat :=
  match state with
  | None => None
  | Some _ =>
      if (hand <? 0)%Z || (Z.of_nat XR_HAND_COUNT <=? hand)%Z then None
      else Some (Z.to_nat hand)
  end.

(** ** Input queries *)

Definition XR_Input_GetButton (state : XR_InputState) (controller : option nat)
  (button : nat) : bool :=
  match controller with
  | None => false
  | Some slot =>
      let c := controllers state slot in
      if negb (_state c) || (XR_BUTTON_COUNT <=? button) then false
      else currButtons state (hand c) button
  end.

Definition XR_Input_GetButtonDown (state : XR_InputState) (controller : option nat)
  (button : nat) : bool :=
  match controller with
  | None => false
  | Some slot =>
      let c := controllers state slot in
      if negb (_state c) || (XR_BUTTON_COUNT <=? button) then false
      else currButtons state (hand c) button && negb (prevButtons state (hand c) button)
  end.

Definition XR_Input_GetButtonUp (state : XR_InputState) (controller : option nat)
  (button : nat) : bool :=
  match controller with
  | None => false
  | Some slot =>
      let c := controllers state slot in
      if negb (_state c) || (XR_BUTTON_COUNT <=? button) then false
      else negb (currButtons state (hand c) button) && prevButtons state (hand c) button
  end.

(** ** Poses *)

Definition XR_Input_GetSpace (state : XR_InputState) (controller : option nat) (pose : Z)
  : handle :=
  match controller with
  | None => XR_NULL_HANDLE
  | Some slot =>
      let c := controllers state slot in
      if (pose =? XR_POSE_GRIP)%Z then gripSpace c
      else if (pose =? XR_POSE_AIM)%Z then aimSpace c
      else if (pose =? XR_POSE_PALM)%Z then gripSpace c
      else XR_NULL_HANDLE
  end.

(** What [xrLocateSpace] answers: its result and the location it fills in. *)
Record LocateEnv := mkLocateEnv {
  locate_result : XrResult;
  locationFlags : Z;
  location_pose : XrPosef
}.

(** [XR_Input_LocatePose]: the returned flag and what was stored through
    [outPose], if anything.  [outPose] and [outVelocity] say whether the
    pointers are non-null. *)
Definition XR_Input_LocatePose (env : LocateEnv) (state : XR_InputState)
  (controller : option nat) (poseType : Z) (baseSpace : handle) (time : Z)
  (outPose outVelocity : bool) : W (bool * option XrPosef) :=
  match controller with
  | None => wret (false, None)
  | Some _ =>
      if negb outPose then wret (false, None)
      else
        let space := XR_Input_GetSpace state controller poseType in
        if is_null space then wret (false, None)
        else
          let result := locate_result env in
          wcall (xrLocateSpace space baseSpace time outVelocity result) ;;;
          if negb (result =? XR_SUCCESS)%Z then wret (false, None)
          else
            let requiredFlags :=
              Z.lor XR_SPACE_LOCATION_POSITION_VALID_BIT
                    XR_SPACE_LOCATION_ORIENTATION_VALID_BIT in
            if negb (Z.land (locationFlags env) requiredFlags =? requiredFlags)%Z
            then wret (false, None)
            else wret (true, Some (location_pose env))
  end.

(** ** Vocabulary for the statements *)

(** The fields of a profile, in the order the binding loop visits them. *)
Definition profile_fields (p : ControllerProfile) : list (option String.string) :=
  [ trigger p; grip p; thumbstick p; trackpad p; buttonA p; buttonB p; buttonMenu p;
    thumbstickClick p; gripPose p; aimPose p; haptic p ].

Definition fields_present (p : ControllerProfile) : nat :=
  length (filter (fun f => match f with Some _ => true | None => false end)
                 (profile_fields p)).

(** The actions a profile's fields are bound to, in the same order. *)
Definition profile_actions (state : XR_InputState) (p : ControllerProfile) : list handle :=
  flat_map (fun fa => match fst fa with Some _ => [snd fa] | None => [] end)
    (combine (profile_fields p)
       [ triggerAction state; gripAction state; thumbstickAction state;
         trackpadAction state; buttonActions state XR_BUTTON_A;
         buttonActions state XR_BUTTON_B; buttonActions state XR_BUTTON_MENU;
         buttonActions state XR_BUTTON_THUMBSTICK; gripPoseAction state;
         aimPoseAction state; hapticAction state ]).

(** The bindings the loop writes for [hand]: for every field the profile
    gives, in order, the field's action with the path of the hand's prefix
    followed by the field's suffix; and the path conversions it makes for
    them. *)
Definition hand_bindings (env : CreateEnv) (state : XR_InputState) (p : ControllerProfile)
  (hand : nat) : list (handle * XrPath) :=
  flat_map (fun fa =>
              match fst fa with
              | Some suffix =>
                  [(snd fa,
                    fst (GetPath env (snprintf_pathBuf
                                        (nth hand handPrefixes String.EmptyString) suffix)))]
              | None => []
              end)
    (combine (profile_fields p)
       [ triggerAction state; gripAction state; thumbstickAction state;
         trackpadAction state; buttonActions state XR_BUTTON_A;
         buttonActions state XR_BUTTON_B; buttonActions state XR_BUTTON_MENU;
         buttonActions state XR_BUTTON_THUMBSTICK; gripPoseAction state;
         aimPoseAction state; hapticAction state ]).
Definition hand_conversions (env : CreateEnv) (p : ControllerProfile) (hand : nat)
  : list InputCall :=
  flat_map (fun f =>
              match f with
              | Some suffix =>
                  snd (GetPath env (snprintf_pathBuf
                                      (nth hand handPrefixes String.EmptyString) suffix))
              | None => []
              end)
    (profile_fields p).

Definition is_suggest (c : InputCall) : bool :=
  match c with xrSuggestInteractionProfileBindings _ _ _ => true | _ => false end.

Definition suggested (c : InputCall) : list (handle * XrPath) :=
  match c with xrSuggestInteractionProfileBindings _ b _ => b | _ => [] end.

Definition is_boolean_query (c : InputCall) : bool :=
  match c with xrGetActionStateBoolean _ _ _ => true | _ => false end.

Definition is_locate (c : InputCall) : bool :=
  match c with xrLocateSpace _ _ _ _ _ => true | _ => false end.

(** The button value a successful sync caches for [hand] and [btn]. *)
Definition cached_button (env : SyncEnv) (state : XR_InputState) (hand btn : nat) : bool :=
  if is_null (buttonActions state btn) then false
  else if (boolean_result env hand btn =? XR_SUCCESS)%Z
       then boolean_isActive env hand btn && boolean_currentState env hand btn
       else false.

(** The spaces a trace created and destroyed, in order. *)
Definition spaces_created (t : list InputCall) : list handle :=
  flat_map (fun c => match c with
                     | xrCreateActionSpace _ _ result h =>
                         if (result =? XR_SUCCESS)%Z then [h] else []
                     | _ => []
                     end) t.
Definition spaces_destroyed (t : list InputCall) : list handle :=
  flat_map (fun c => match c with xrDestroySpace h => [h] | _ => [] end) t.

(** The paths the binding loop builds for a profile fit [pathBuf]. *)
Definition paths_fit (p : ControllerProfile) : bool :=
  forallb (fun prefix =>
    forallb (fun f => match f with
                      | Some suffix =>
                          String.length (String.append prefix suffix) <? pathBuf_size
                      | None => true
                      end) (profile_fields p)) handPrefixes.

Definition is_some {A} (o : option A) : bool :=
  match o with Some _ => true | None => false end.

(** What [xrCreateActionSpace] followed by the null-on-failure assignment
    leaves in a space field. *)
Definition space_made (env : CreateEnv) (hand : nat) (aim : bool) : handle :=
  if (fst (space_answer env hand aim) =? XR_SUCCESS)%Z
  then snd (space_answer env hand aim) else XR_NULL_HANDLE.

(** A controller slot as [XR_Input_Create] leaves it. *)
Definition slot_ready (state : XR_InputState) (slot : nat) : bool :=
  _state (controllers state slot) && Nat.eqb (hand (controllers state slot)) slot.

End Input.

(** ** Concrete input scenarios *)

Module InputScenario.

Import Input.

Definition XR_SESSION_NOT_FOCUSED : XrResult := 8%Z.

(** A state as [XR_Input_Create] leaves it when every runtime call succeeds,
    except that the thumb-rest action could not be created; button A of the
    left hand is cached as pressed. *)
Definition state : XR_InputState :=
  mkInputState 1%N 2%N 3%N
    (fun btn => if Nat.eqb btn XR_BUTTON_THUMBREST then XR_NULL_HANDLE
                else N.of_nat (20 + btn))
    30%N 31%N 32%N 33%N 34%N 35%N 36%N
    (fun hand => N.of_nat (40 + hand))
    (fun hand => mkController hand true (N.of_nat (50 + hand)) (N.of_nat (60 + hand)) true)
    (fun _ _ => false)
    (fun hand btn => Nat.eqb hand XR_HAND_LEFT && Nat.eqb btn XR_BUTTON_A).

(** A sync that fails because the session is not focused. *)
Definition sync_not_focused : SyncEnv :=
  mkSyncEnv XR_SESSION_NOT_FOCUSED (fun _ => true) (fun _ _ => XR_SUCCESS)
    (fun _ _ => true) (fun _ _ => true).

(** A sync in which the trigger of the right hand is the only button held. *)
Definition sync_trigger_held : SyncEnv :=
  mkSyncEnv XR_SUCCESS (fun _ => true) (fun _ _ => XR_SUCCESS) (fun _ _ => true)
    (fun hand btn => Nat.eqb hand XR_HAND_RIGHT && Nat.eqb btn XR_BUTTON_TRIGGER).

(** A runtime that supports every path and every call while the input
    system is created. *)
Definition create_all_ok : CreateEnv :=
  mkCreateEnv true (fun s => (XR_SUCCESS, N.of_nat (100 + String.length s)))
    XR_SUCCESS 3%N (fun name => (XR_SUCCESS, N.of_nat (200 + String.length name)))
    (fun _ => XR_SUCCESS)
    (fun hand aim => (XR_SUCCESS, N.of_nat (300 + 2 * hand + (if aim then 1 else 0)))).

End InputScenario.
(** ** Properties of the transform library *)

Local Open Scope R_scope.

Lemma translation_row_general (scale_ speed : R) (pos : Vec3) (t : R) :
  let model := instance_model scale_ speed pos t in
  model.[12] = pos.(x) /\ model.[13] = pos.(y) /\ model.[14] = pos.(z).
Proof.
  cbv [instance_model Mat4_Multiply Mat4_Multiply_entry Mat4_Scale Mat4_RotationY
       Mat4_RotationX Mat4_Translation at_ m flat_map map seq fold_left app nth
       Nat.mul Nat.add].
  repeat split; ring.
Qed.

(** C8. For every animation-clock value [t] and every scene instance, the
    model matrix [scale * rotateY(t*speed) * rotateX(0.7*t*speed) *
    translate(pos)] built by the draw loop has, under the row-vector
    convention (translation in entries 12, 13, 14), exactly the instance's
    position as its translation; for the first cube that is [(0, 0, -2)]. *)
Theorem model_translation_is_position (t : R) (cubeIdx : nat) :
  let model := cube_model t cubeIdx in
  let pos := nth cubeIdx cubePositions Vec3_zero in
  (model.[12] = pos.(x) /\ model.[13] = pos.(y) /\ model.[14] = pos.(z))
  /\ ((cube_model t 0).[12] = 0 /\ (cube_model t 0).[13] = 0
      /\ (cube_model t 0).[14] = -2).
Proof.
  intros model pos. split.
  - unfold model, pos, cube_model. exact (translation_row_general _ _ _ t).
  - destruct (translation_row_general (nth 0 cubeScales 0) (nth 0 cubeSpeeds 0)
                (nth 0 cubePositions Vec3_zero) t) as (Hx & Hy & Hz).
    unfold cube_model. rewrite Hx, Hy, Hz.
    cbv [nth cubePositions x y z]. repeat split; lra.
Qed.

Local Close Scope R_scope.

(** ** The projection matrix in binary32 *)

(** A finite number plus its opposite is [+0], in either order. *)
Lemma fadd_opp_r (x : F32.float32) :
  F32.is_finite x = true -> F32.fadd x (F32.fneg x) = F32.zero.
Proof.
  destruct x as [s|s| |s m e]; try discriminate; intros _.
  - destruct s; reflexivity.
  - unfold F32.fadd, F32.fneg, SpecFloat.SFadd, SpecFloat.SFopp, SpecFloat.shl_align.
    rewrite Z.min_id, Z.sub_diag. cbn [fst].
    replace (SpecFloat.cond_Zopp s (Z.pos m) + SpecFloat.cond_Zopp (negb s) (Z.pos m))%Z
      with 0%Z by (destruct s; cbn [SpecFloat.cond_Zopp negb]; lia).
    reflexivity.
Qed.

Lemma fneg_involutive (x : F32.float32) : F32.fneg (F32.fneg x) = x.
Proof. destruct x as [s|s| |s m e]; cbn; now rewrite ?negb_involutive. Qed.

Lemma fneg_finite (x : F32.float32) : F32.is_finite (F32.fneg x) = F32.is_finite x.
Proof. now destruct x. Qed.

Lemma fadd_opp_l (x : F32.float32) :
  F32.is_finite x = true -> F32.fadd (F32.fneg x) x = F32.zero.
Proof.
  intros H. rewrite <- (fneg_involutive x) at 2.
  apply fadd_opp_r. now rewrite fneg_finite.
Qed.

(** A zero divided by a number other than zero is a zero. *)
Lemma fdiv_zero_l (z w : F32.float32) :
  F32.is_zero z = true -> F32.is_nonzero w = true -> F32.is_zero (F32.fdiv z w) = true.
Proof. destruct z, w; try discriminate; reflexivity. Qed.

(** C9. For a symmetric field of view ([angleLeft =
    -angleRight], [angleUp = -angleDown]) whose tangents are finite, taken
    with an odd tangent function, and whose computed width [tR - tL] and
    height [tU - tD] are numbers other than zero, the two off-centre terms
    [(tR+tL)/w] and [(tU+tD)/h] of the binary32 projection matrix are zeros,
    whatever the near and far planes, and the matrix is the symmetric
    perspective matrix with [2/w] and [2/h] on the diagonal. *)
Theorem symmetric_fov_projection (tanf : F32.float32 -> F32.float32)
  (fov : F32.XrFovf) (nearZ farZ : F32.float32) :
  F32.angleLeft fov = F32.fneg (F32.angleRight fov) ->
  F32.angleUp fov = F32.fneg (F32.angleDown fov) ->
  (forall a, tanf (F32.fneg a) = F32.fneg (tanf a)) ->
  let tL := tanf (F32.angleLeft fov) in let tR := tanf (F32.angleRight fov) in
  let tU := tanf (F32.angleUp fov) in let tD := tanf (F32.angleDown fov) in
  let w := F32.fsub tR tL in let h := F32.fsub tU tD in
  F32.is_finite tR = true -> F32.is_finite tU = true ->
  F32.is_nonzero w = true -> F32.is_nonzero h = true ->
  let P := F32.Mat4_Projection tanf fov nearZ farZ in
  F32.is_zero (nth 8 P F32.zero) = true
  /\ F32.is_zero (nth 9 P F32.zero) = true
  /\ P = [ F32.fdiv (F32.of_Z 2) w; F32.of_Z 0; F32.of_Z 0; F32.of_Z 0;
           F32.of_Z 0; F32.fdiv (F32.of_Z 2) h; F32.of_Z 0; F32.of_Z 0;
           nth 8 P F32.zero; nth 9 P F32.zero;
           F32.fdiv (F32.fneg farZ) (F32.fsub farZ nearZ); F32.of_Z (-1);
           F32.of_Z 0; F32.of_Z 0;
           F32.fdiv (F32.fneg (F32.fmul farZ nearZ)) (F32.fsub farZ nearZ); F32.of_Z 0 ].
Proof.
  intros HL HU Hodd tL tR tU tD w h HR HUf Hw Hh P.
  assert (HtL : tL = F32.fneg tR) by (unfold tL, tR; now rewrite HL, Hodd).
  assert (HtU : tU = F32.fneg tD) by (unfold tU, tD; now rewrite HU, Hodd).
  assert (HD : F32.is_finite tD = true).
  { rewrite HtU, fneg_finite in HUf. exact HUf. }
  assert (H8 : nth 8 P F32.zero = F32.fdiv (F32.fadd tR tL) w) by reflexivity.
  assert (H9 : nth 9 P F32.zero = F32.fdiv (F32.fadd tU tD) h) by reflexivity.
  split; [|split].
  - rewrite H8. apply fdiv_zero_l; [|exact Hw].
    rewrite HtL, fadd_opp_r by exact HR. reflexivity.
  - rewrite H9. apply fdiv_zero_l; [|exact Hh].
    rewrite HtU, fadd_opp_l by exact HD. reflexivity.
  - reflexivity.
Qed.

Lemma symmetric_fov_projection_witness :
  let P := F32.Mat4_Projection Scenario.tanf_sample Scenario.square_fov
             Scenario.nearZ Scenario.farZ in
  F32.is_zero (nth 8 P F32.zero) = true /\ F32.is_zero (nth 9 P F32.zero) = true.
Proof.
  assert (Hodd : forall a, Scenario.tanf_sample (F32.fneg a)
                           = F32.fneg (Scenario.tanf_sample a)).
  { intros [s|s| |s m e]; try reflexivity.
    cbn [Scenario.tanf_sample F32.fneg SpecFloat.SFopp].
    destruct (Pos.eqb m 13176795 && Z.eqb e (-24)); reflexivity. }
  destruct (symmetric_fov_projection Scenario.tanf_sample Scenario.square_fov
              Scenario.nearZ Scenario.farZ eq_refl eq_refl Hodd
              eq_refl eq_refl eq_refl eq_refl) as (H8 & H9 & _).
  split; assumption.
Defined.

(** The field of view with every angle zero is symmetric and its tangents
    are defined, and [0 < 0.05f < 100.0f]; but its
    width and height are zero, so the diagonal terms [2/w] and [2/h] are
    infinite and the two off-centre terms are [0/0]: not zero but NaN. *)
Lemma zero_fov_skew_is_nan :
  let fov := Scenario.zero_fov in
  let P := F32.Mat4_Projection Scenario.tanf_sample fov Scenario.nearZ Scenario.farZ in
  F32.angleLeft fov = F32.fneg (F32.angleRight fov)
  /\ F32.angleUp fov = F32.fneg (F32.angleDown fov)
  /\ F32.is_finite (Scenario.tanf_sample (F32.angleRight fov)) = true
  /\ F32.is_finite (Scenario.tanf_sample (F32.angleUp fov)) = true
  /\ SpecFloat.SFltb F32.zero Scenario.nearZ = true
  /\ SpecFloat.SFltb Scenario.nearZ Scenario.farZ = true
  /\ nth 0 P F32.zero = SpecFloat.S754_infinity false
  /\ nth 5 P F32.zero = SpecFloat.S754_infinity false
  /\ nth 8 P F32.zero = SpecFloat.S754_nan
  /\ nth 9 P F32.zero = SpecFloat.S754_nan
  /\ F32.is_zero (nth 8 P F32.zero) = false
  /\ F32.is_zero (nth 9 P F32.zero) = false.
Proof. vm_compute. repeat split. Qed.

(** ** Running the monad *)

Section Run.
Context {A B : Type}.
Implicit Types (g : Globals).

Lemma run_eta (r : A * Globals * list Call) :
  r = (value_of r, state_of r, trace_of r).
Proof. destruct r as [[a g] t]; reflexivity. Qed.

Lemma bind_value (c : M A) (k : A -> M B) g :
  value_of (bind c k g) = value_of (k (value_of (c g)) (state_of (c g))).
Proof.
  unfold bind, value_of, state_of.
  destruct (c g) as [[a g1] t1]; cbn. destruct (k a g1) as [[b g2] t2]; reflexivity.
Qed.

Lemma bind_state (c : M A) (k : A -> M B) g :
  state_of (bind c k g) = state_of (k (value_of (c g)) (state_of (c g))).
Proof.
  unfold bind, value_of, state_of.
  destruct (c g) as [[a g1] t1]; cbn. destruct (k a g1) as [[b g2] t2]; reflexivity.
Qed.

Lemma bind_trace (c : M A) (k : A -> M B) g :
  trace_of (bind c k g)
  = trace_of (c g) ++ trace_of (k (value_of (c g)) (state_of (c g))).
Proof.
  unfold bind, value_of, state_of, trace_of.
  destruct (c g) as [[a g1] t1]; cbn. destruct (k a g1) as [[b g2] t2]; reflexivity.
Qed.

Lemma ret_value (a : A) g : value_of (ret a g) = a.
Proof. reflexivity. Qed.
Lemma ret_state (a : A) g : state_of (ret a g) = g.
Proof. reflexivity. Qed.
Lemma ret_trace (a : A) g : trace_of (ret a g) = [].
Proof. reflexivity. Qed.
End Run.

Lemma get_value g : value_of (get g) = g.
Proof. reflexivity. Qed.
Lemma get_state g : state_of (get g) = g.
Proof. reflexivity. Qed.
Lemma get_trace g : trace_of (get g) = [].
Proof. reflexivity. Qed.
Lemma modify_state f g : state_of (modify f g) = f g.
Proof. reflexivity. Qed.
Lemma modify_trace f g : trace_of (modify f g) = [].
Proof. reflexivity. Qed.
Lemma call_state c g : state_of (call c g) = g.
Proof. reflexivity. Qed.
Lemma call_trace c g : trace_of (call c g) = [c].
Proof. reflexivity. Qed.

Create Rewrite HintDb run.
#[local] Hint Rewrite @bind_value @bind_state @bind_trace @ret_value @ret_state @ret_trace
  get_value get_state get_trace modify_state modify_trace call_state call_trace
  app_nil_r app_nil_l : run.

Ltac run := autorewrite with run; cbn [app].

(** Two runs are equal when their three components are. *)
Lemma run_ext {A} (r : A * Globals * list Call) a g t :
  value_of r = a -> state_of r = g -> trace_of r = t -> r = (a, g, t).
Proof. intros <- <- <-. apply run_eta. Qed.

(** ** Loops whose body leaves the globals alone *)

Lemma for_each_state {A} (body : A -> M unit) (l : list A) (g : Globals) :
  (forall a g', state_of (body a g') = g') ->
  state_of (for_each l body g) = g.
Proof.
  intros Hbody. revert g. induction l as [|a l IH]; intros g; [reflexivity|].
  cbn [for_each]. run. rewrite Hbody. apply IH.
Qed.

Lemma for_fold_run {A S} (body : A -> S -> M S) (f : A -> S -> S)
  (tr : Globals -> A -> list Call) (l : list A) (s : S) (g : Globals) :
  (forall a s', body a s' g = (f a s', g, tr g a)) ->
  for_fold l body s g = (fold_left (fun s' a => f a s') l s, g, flat_map (tr g) l).
Proof.
  intros Hbody. revert s. induction l as [|a l IH]; intros s; [reflexivity|].
  cbn [for_fold fold_left flat_map].
  apply run_ext; run; rewrite Hbody; cbn [value_of state_of trace_of fst snd];
    rewrite IH; reflexivity.
Qed.

(** ** The per-view loop body *)

Lemma draw_cubes_state (v p : Mat4) (g : Globals) :
  state_of (draw_cubes v p g) = g.
Proof.
  unfold draw_cubes. run.
  destruct (_ && _); run; [|reflexivity].
  apply for_each_state. intros a g'. run. reflexivity.
Qed.

Lemma RenderFrame_view_run env i pv g :
  RenderFrame_view env i pv g =
  (if view_completed env i then store i (populated_entry g i) pv else pv,
   g, view_trace env g i).
Proof.
  rewrite (run_eta (RenderFrame_view env i pv g)).
  unfold view_trace, view_completed, RenderFrame_view.
  run.
  destruct (XR_FAILED (acquire_result _)); run; [reflexivity|].
  destruct (XR_FAILED (waitImage_result _)); run; [reflexivity|].
  rewrite !draw_cubes_state. run.
  reflexivity.
Qed.

Lemma views_loop_run env pv g n :
  for_fold (seq 0 n) (RenderFrame_view env) pv g =
  (fold_left (fun pv i => if view_completed env i
                          then store i (populated_entry g i) pv else pv) (seq 0 n) pv,
   g, flat_map (view_trace env g) (seq 0 n)).
Proof.
  apply (for_fold_run (RenderFrame_view env)
           (fun i pv => if view_completed env i
                        then store i (populated_entry g i) pv else pv)
           (view_trace env)).
  intros a s'. apply RenderFrame_view_run.
Qed.

(** ** The render block and the whole tick *)

Lemma after_locate_viewCount env g : viewCount (after_locate env g) = viewCount g.
Proof. unfold after_locate. cbn. destruct (xrViews g); reflexivity. Qed.

Lemma after_locate_xrLocalSpace env g :
  xrLocalSpace (after_locate env g) = xrLocalSpace g.
Proof. unfold after_locate. cbn. destruct (xrViews g); reflexivity. Qed.

Lemma after_locate_animTime env g :
  animTime (after_locate env g) = F32.fadd (animTime g) F32.anim_step.
Proof. unfold after_locate. cbn. destruct (xrViews g); reflexivity. Qed.

Lemma RenderFrame_layers_run env fs g :
  RenderFrame_layers env fs g =
  if shouldRender fs && pool_exists g then
    let g1 := after_locate env g in
    if XR_FAILED (locateViews_result env) then
      ((0, None), g1, [xrLocateViews (predictedDisplayTime fs) (locateViews_result env)])
    else
      ((1, Some (mkLayer (xrLocalSpace g1) (viewCount g1) (render_views env g1))), g1,
       xrLocateViews (predictedDisplayTime fs) (locateViews_result env)
         :: flat_map (view_trace env g1) (seq 0 (viewCount g1))
         ++ [SDL_SubmitGPUCommandBuffer])
  else ((0, None), g, []).
Proof.
  unfold RenderFrame_layers, pool_exists.
  rewrite (run_eta (bind _ _ _)). run.
  rewrite <- andb_assoc.
  destruct (shouldRender fs && _); run; [|reflexivity].
  fold (after_locate env g).
  destruct (XR_FAILED (locateViews_result env)); run; [reflexivity|].
  rewrite views_loop_run. cbn [value_of state_of trace_of fst snd].
  reflexivity.
Qed.

Lemma RenderFrame_run env g :
  RenderFrame env g =
  if negb (xrSessionRunning g) then (tt, g, [])
  else if XR_FAILED (waitFrame_result env) then
    (tt, g, [xrWaitFrame (waitFrame_result env)])
  else if XR_FAILED (beginFrame_result env) then
    (tt, g, [xrWaitFrame (waitFrame_result env); xrBeginFrame (beginFrame_result env)])
  else
    let L := RenderFrame_layers env (waitFrame_frameState env) g in
    (tt, state_of L,
     xrWaitFrame (waitFrame_result env) :: xrBeginFrame (beginFrame_result env)
       :: trace_of L
       ++ [xrEndFrame (mkEndInfo (predictedDisplayTime (waitFrame_frameState env))
                                 XR_ENVIRONMENT_BLEND_MODE_OPAQUE
                                 (fst (value_of L)) (snd (value_of L)))]).
Proof.
  unfold RenderFrame. rewrite (run_eta (bind _ _ _)). run.
  destruct (negb (xrSessionRunning g)); run; [reflexivity|].
  destruct (XR_FAILED (waitFrame_result env)); run; [reflexivity|].
  destruct (XR_FAILED (beginFrame_result env)); run; [reflexivity|].
  cbv zeta.
  destruct (RenderFrame_layers env (waitFrame_frameState env) g) as [[[lc ls] g'] t].
  cbn [value_of state_of trace_of fst snd]. run. reflexivity.
Qed.

(** ** Arrays *)

Lemma store_length {A} (i : nat) (v : A) (l : list A) : length (store i v l) = length l.
Proof.
  revert i; induction l as [|a l IH]; intros [|i]; cbn; try reflexivity.
  now rewrite IH.
Qed.

Lemma nth_store_same {A} (i : nat) (v d : A) (l : list A) :
  i < length l -> nth i (store i v l) d = v.
Proof.
  revert i; induction l as [|a l IH]; intros [|i] H; cbn in *; try lia; try reflexivity.
  apply IH; lia.
Qed.

Lemma nth_store_other {A} (i j : nat) (v d : A) (l : list A) :
  i <> j -> nth j (store i v l) d = nth j l d.
Proof.
  revert i j; induction l as [|a l IH]; intros [|i] [|j] H; cbn; try reflexivity; try lia.
  apply IH; lia.
Qed.

Section Entries.
Variables (env : FrameEnv) (g : Globals).

Let step (pv : list XrCompositionLayerProjectionView) (i : nat) :=
  if view_completed env i then store i (populated_entry g i) pv else pv.

Lemma entries_length (l : list nat) pv : length (fold_left step l pv) = length pv.
Proof.
  revert pv; induction l as [|i l IH]; intros pv; cbn [fold_left]; [reflexivity|].
  rewrite IH. unfold step. destruct (view_completed env i); [apply store_length|reflexivity].
Qed.

Lemma entries_untouched (l : list nat) pv j d :
  ~ In j l -> nth j (fold_left step l pv) d = nth j pv d.
Proof.
  revert pv; induction l as [|i l IH]; intros pv Hj; cbn [fold_left]; [reflexivity|].
  rewrite IH by (intros H; apply Hj; now right).
  unfold step. destruct (view_completed env i); [|reflexivity].
  apply nth_store_other. intros ->. apply Hj. now left.
Qed.

Lemma entries_visited (l : list nat) pv j d :
  NoDup l -> In j l -> j < length pv ->
  nth j (fold_left step l pv) d
  = if view_completed env j then populated_entry g j else nth j pv d.
Proof.
  revert pv; induction l as [|i l IH]; intros pv Hnd Hin Hlen; [contradiction|].
  inversion Hnd as [|? ? Hni Hnd']; subst. cbn [fold_left].
  destruct Hin as [->|Hin].
  - rewrite entries_untouched by assumption. unfold step.
    destruct (view_completed env j); [now apply nth_store_same|reflexivity].
  - rewrite IH; try assumption.
    + destruct (view_completed env j); [reflexivity|].
      unfold step. destruct (view_completed env i); [|reflexivity].
      apply nth_store_other. intros ->. contradiction.
    + unfold step. destruct (view_completed env i); [now rewrite store_length|assumption].
Qed.
End Entries.

Lemma render_views_length env g : length (render_views env g) = viewCount g.
Proof. unfold render_views. rewrite entries_length. apply repeat_length. Qed.

Lemma render_views_nth env g i :
  i < viewCount g ->
  nth i (render_views env g) XrCompositionLayerProjectionView_zero
  = if view_completed env i then populated_entry g i
    else XrCompositionLayerProjectionView_zero.
Proof.
  intros Hi. unfold render_views.
  rewrite entries_visited.
  - destruct (view_completed env i); [reflexivity|].
    apply nth_repeat.
  - apply seq_NoDup.
  - apply in_seq. lia.
  - now rewrite repeat_length.
Qed.

(** ** Counting calls *)

Lemma count_app p t1 t2 : count p (t1 ++ t2) = count p t1 + count p t2.
Proof. unfold count. now rewrite filter_app, length_app. Qed.

Lemma count_cons p c t : count p (c :: t) = (if p c then 1 else 0) + count p t.
Proof. unfold count. cbn. destruct (p c); reflexivity. Qed.

Lemma count_nil p : count p [] = 0.
Proof. reflexivity. Qed.

Lemma count_none p t : Forall (fun c => p c = false) t -> count p t = 0.
Proof.
  induction 1 as [|c t Hc _ IH]; [reflexivity|].
  rewrite count_cons, Hc, IH. reflexivity.
Qed.

Lemma count_flat_map_seq p (f : nat -> list Call) (i c a n : nat) :
  (forall j, count p (f j) = if Nat.eqb i j then c else 0) ->
  count p (flat_map f (seq a n)) = if (a <=? i) && (i <? a + n) then c else 0.
Proof.
  intros Hf. revert a. induction n as [|n IH]; intros a.
  - cbn [seq flat_map]. rewrite count_nil.
    destruct (Nat.leb_spec a i), (Nat.ltb_spec i (a + 0)); cbn [andb];
      try reflexivity; lia.
  - cbn [seq flat_map]. rewrite count_app, Hf, IH.
    destruct (Nat.eqb_spec i a), (Nat.leb_spec (S a) i), (Nat.ltb_spec i (S a + n)),
      (Nat.leb_spec a i), (Nat.ltb_spec i (a + S n)); cbn [andb]; lia.
Qed.

(** ** Shape of the per-view trace *)

Lemma for_each_trace_Forall {A} (P : Call -> Prop) (body : A -> M unit) (l : list A) g :
  (forall a g', Forall P (trace_of (body a g'))) ->
  Forall P (trace_of (for_each l body g)).
Proof.
  intros Hbody. revert g. induction l as [|a l IH]; intros g; cbn [for_each]; run.
  - constructor.
  - apply Forall_app. split; [apply Hbody|apply IH].
Qed.

Lemma draw_cubes_trace (v p : Mat4) (g : Globals) :
  Forall (fun c => is_draw c = true) (trace_of (draw_cubes v p g)).
Proof.
  unfold draw_cubes. run.
  destruct (_ && _); run; [|constructor].
  apply for_each_trace_Forall. intros a g'. run. repeat constructor.
Qed.

Lemma view_trace_shape env g i :
  let h := swapchain (vrSwapchains_at g i) in
  let ve := nth i (per_view_image env) ViewEnv_default in
  view_trace env g i =
  xrAcquireSwapchainImage i h (acquire_result ve)
  :: if XR_FAILED (acquire_result ve) then []
     else xrWaitSwapchainImage i h (waitImage_result ve)
          :: if XR_FAILED (waitImage_result ve) then [xrReleaseSwapchainImage i h]
             else SDL_BeginGPURenderPass
                    (nth_error (images (vrSwapchains_at g i)) (acquire_imageIndex ve))
                  :: trace_of (draw_cubes
                                 (Mat4_FromXrPose (view_pose (xrViews_at g i)))
                                 (Mat4_Projection (view_fov (xrViews_at g i)) 0.05%R 100.0%R) g)
                  ++ [SDL_EndGPURenderPass; xrReleaseSwapchainImage i h].
Proof.
  unfold view_trace, RenderFrame_view. run.
  destruct (XR_FAILED (acquire_result _)); run; [reflexivity|].
  destruct (XR_FAILED (waitImage_result _)); run; [reflexivity|].
  reflexivity.
Qed.

(** A predicate that is false on draws is false on the whole draw loop. *)
Lemma count_draws p v pm g :
  (forall c, is_draw c = true -> p c = false) ->
  count p (trace_of (draw_cubes v pm g)) = 0.
Proof.
  intros Hp. apply count_none.
  eapply Forall_impl; [|apply draw_cubes_trace]. exact Hp.
Qed.

Ltac count_simpl :=
  repeat (rewrite ?count_cons, ?count_app, ?count_nil, ?count_draws
            by (intros []; cbn; congruence));
  cbn [is_acquire is_acquire_ok is_wait is_release is_xrEndFrame is_xrBeginFrame
       is_xrWaitFrame is_creation_call is_destroy is_draw].

Ltac count_view :=
  rewrite view_trace_shape; cbv zeta;
  repeat match goal with
         | |- context [XR_FAILED ?r] => let E := fresh "E" in destruct (XR_FAILED r) eqn:E
         end;
  count_simpl;
  repeat match goal with
         | E : XR_FAILED _ = _ |- _ => rewrite E
         end;
  rewrite ?Nat.eqb_refl;
  repeat match goal with
         | H : ?a <> ?b |- _ => rewrite (proj2 (Nat.eqb_neq a b) H)
         end;
  cbn [andb negb]; reflexivity.

Lemma view_trace_acquire env g i j :
  count (is_acquire i) (view_trace env g j) = if Nat.eqb i j then 1 else 0.
Proof. destruct (Nat.eqb_spec i j) as [->|Hne]; count_view. Qed.

Lemma view_trace_acquire_ok env g i j :
  count (is_acquire_ok i) (view_trace env g j)
  = if Nat.eqb i j
    then (if XR_FAILED (acquire_result (nth i (per_view_image env) ViewEnv_default))
          then 0 else 1)
    else 0.
Proof. destruct (Nat.eqb_spec i j) as [->|Hne]; count_view. Qed.

Lemma view_trace_wait env g i j :
  count (is_wait i) (view_trace env g j)
  = if Nat.eqb i j
    then (if XR_FAILED (acquire_result (nth i (per_view_image env) ViewEnv_default))
          then 0 else 1)
    else 0.
Proof. destruct (Nat.eqb_spec i j) as [->|Hne]; count_view. Qed.

Lemma view_trace_release env g i j :
  count (is_release i) (view_trace env g j)
  = if Nat.eqb i j
    then (if XR_FAILED (acquire_result (nth i (per_view_image env) ViewEnv_default))
          then 0 else 1)
    else 0.
Proof. destruct (Nat.eqb_spec i j) as [->|Hne]; count_view. Qed.

Lemma view_trace_no_end_frame env g j : count is_xrEndFrame (view_trace env g j) = 0.
Proof. count_view. Qed.

(** ** The tick, case by case *)

Lemma RenderFrame_cases env g :
  let fs := waitFrame_frameState env in
  let wait := xrWaitFrame (waitFrame_result env) in
  let begin := xrBeginFrame (beginFrame_result env) in
  let locate := xrLocateViews (predictedDisplayTime fs) (locateViews_result env) in
  let end_ n l :=
    xrEndFrame (mkEndInfo (predictedDisplayTime fs) XR_ENVIRONMENT_BLEND_MODE_OPAQUE n l) in
  RenderFrame env g =
  if negb (xrSessionRunning g) then (tt, g, [])
  else if XR_FAILED (waitFrame_result env) then (tt, g, [wait])
  else if XR_FAILED (beginFrame_result env) then (tt, g, [wait; begin])
  else if shouldRender fs && pool_exists g then
    let g1 := after_locate env g in
    if XR_FAILED (locateViews_result env) then
      (tt, g1, [wait; begin; locate; end_ 0 None])
    else
      (tt, g1,
       wait :: begin :: locate
         :: flat_map (view_trace env g1) (seq 0 (viewCount g1))
         ++ [SDL_SubmitGPUCommandBuffer;
             end_ 1 (Some (mkLayer (xrLocalSpace g1) (viewCount g1) (render_views env g1)))])
  else (tt, g, [wait; begin; end_ 0 None]).
Proof.
  cbv zeta. rewrite RenderFrame_run.
  destruct (negb (xrSessionRunning g)); [reflexivity|].
  destruct (XR_FAILED (waitFrame_result env)); [reflexivity|].
  destruct (XR_FAILED (beginFrame_result env)); [reflexivity|].
  cbv zeta. rewrite RenderFrame_layers_run.
  destruct (shouldRender _ && pool_exists g); [|reflexivity].
  cbv zeta. destruct (XR_FAILED (locateViews_result env)); [reflexivity|].
  cbn [value_of state_of trace_of fst snd app]. rewrite <- app_assoc. reflexivity.
Qed.

(** Splits a goal about [RenderFrame env g] into the six outcomes of the tick,
    keeping the equation of every test. *)
Ltac tick_cases env g :=
  rewrite (RenderFrame_cases env g); cbv zeta;
  let Hrun := fresh "Hrun" in
  let Hwait := fresh "Hwait" in
  let Hbegin := fresh "Hbegin" in
  let Hrender := fresh "Hrender" in
  let Hlocate := fresh "Hlocate" in
  destruct (xrSessionRunning g) eqn:Hrun; cbn [negb];
  [ destruct (XR_FAILED (waitFrame_result env)) eqn:Hwait;
    [ | destruct (XR_FAILED (beginFrame_result env)) eqn:Hbegin;
        [ | destruct (shouldRender (waitFrame_frameState env) && pool_exists g) eqn:Hrender;
            [ destruct (XR_FAILED (locateViews_result env)) eqn:Hlocate | ] ] ]
  | ];
  cbn [value_of state_of trace_of fst snd].

(** ** Image discipline *)

Lemma image_discipline_app s t1 t2 :
  image_discipline s (t1 ++ t2)
  = match image_discipline s t1 with
    | Some s' => image_discipline s' t2
    | None => None
    end.
Proof.
  revert s; induction t1 as [|c t1 IH]; intros s; cbn; [reflexivity|].
  destruct (image_step s c); [apply IH|reflexivity].
Qed.

Lemma same_image_refl i h : same_image i h i h = true.
Proof. unfold same_image. now rewrite Nat.eqb_refl, N.eqb_refl. Qed.

Lemma image_discipline_draws i h t :
  Forall (fun c => is_draw c = true) t ->
  image_discipline (InPass i h) t = Some (InPass i h).
Proof.
  induction 1 as [|c t Hc _ IH]; [reflexivity|].
  destruct c; try discriminate. cbn. exact IH.
Qed.

Lemma image_discipline_view env g i :
  image_discipline Free (view_trace env g i) = Some Free.
Proof.
  rewrite view_trace_shape; cbv zeta.
  cbn [image_discipline image_step].
  destruct (XR_FAILED (acquire_result _)); [reflexivity|].
  cbn [image_discipline image_step]. rewrite same_image_refl.
  destruct (XR_FAILED (waitImage_result _)).
  - cbn [image_discipline image_step]. now rewrite same_image_refl.
  - cbn [image_discipline image_step].
    rewrite image_discipline_app, image_discipline_draws by apply draw_cubes_trace.
    cbn [image_discipline image_step]. now rewrite same_image_refl.
Qed.

Lemma image_discipline_views env g l :
  image_discipline Free (flat_map (view_trace env g) l) = Some Free.
Proof.
  induction l as [|i l IH]; [reflexivity|].
  cbn [flat_map]. now rewrite image_discipline_app, image_discipline_view.
Qed.

(** Every swapchain-image call of the per-view loop is made on the swapchain
    of the pool entry of its view. *)
Lemma view_trace_on_pool env g i :
  Forall (fun c => on_view_swapchain g c = true) (view_trace env g i).
Proof.
  rewrite view_trace_shape; cbv zeta.
  constructor; [apply N.eqb_refl|].
  destruct (XR_FAILED (acquire_result _)); [constructor|].
  constructor; [apply N.eqb_refl|].
  destruct (XR_FAILED (waitImage_result _)).
  - constructor; [apply N.eqb_refl|constructor].
  - constructor; [reflexivity|].
    apply Forall_app. split.
    + eapply Forall_impl; [|apply draw_cubes_trace].
      intros [] H; try discriminate; reflexivity.
    + constructor; [reflexivity|]. constructor; [apply N.eqb_refl|constructor].
Qed.

Lemma views_on_pool env g l :
  Forall (fun c => on_view_swapchain g c = true) (flat_map (view_trace env g) l).
Proof.
  induction l as [|i l IH]; [constructor|].
  cbn [flat_map]. apply Forall_app. split; [apply view_trace_on_pool|exact IH].
Qed.

(** When the image reads of a frame are inside the image arrays, no render
    pass is begun on a texture read outside them. *)
Lemma view_trace_in_bounds env g i :
  view_reads_in_bounds env g i = true ->
  Forall (fun c => is_pass_out_of_bounds c = false) (view_trace env g i).
Proof.
  unfold view_reads_in_bounds, view_completed. intros H.
  rewrite view_trace_shape; cbv zeta.
  constructor; [reflexivity|].
  destruct (XR_FAILED (acquire_result _)); [constructor|].
  constructor; [reflexivity|].
  destruct (XR_FAILED (waitImage_result _)); [repeat constructor|].
  cbn [negb andb orb] in H. apply Nat.ltb_lt in H.
  constructor.
  - destruct (nth_error _ _) eqn:E; [reflexivity|].
    apply nth_error_None in E. lia.
  - apply Forall_app. split; [|repeat constructor].
    eapply Forall_impl; [|apply draw_cubes_trace].
    intros [] Hc; try discriminate; reflexivity.
Qed.

Lemma RenderFrame_in_bounds env g :
  frame_reads_in_bounds env g = true ->
  count is_pass_out_of_bounds (trace_of (RenderFrame env g)) = 0.
Proof.
  unfold frame_reads_in_bounds. intros H. apply count_none.
  tick_cases env g; repeat (constructor; [reflexivity|]); try constructor.
  apply Forall_app. split; [|repeat constructor].
  rewrite after_locate_viewCount.
  assert (Hall : forall j, In j (seq 0 (viewCount g)) ->
            view_reads_in_bounds env (after_locate env g) j = true).
  { intros j Hj. rewrite forallb_forall in H. specialize (H j Hj).
    unfold view_reads_in_bounds in *.
    replace (vrSwapchains_at (after_locate env g) j) with (vrSwapchains_at g j); [exact H|].
    unfold vrSwapchains_at, pool, after_locate. cbn. destruct (xrViews g); reflexivity. }
  clear H. revert Hall. generalize (seq 0 (viewCount g)).
  induction l as [|j l IH]; intros Hall; [constructor|].
  cbn [flat_map]. apply Forall_app. split.
  - apply view_trace_in_bounds, Hall. now left.
  - apply IH. intros j' Hj'. apply Hall. now right.
Qed.

Lemma on_view_swapchain_after_locate env g c :
  on_view_swapchain (after_locate env g) c = on_view_swapchain g c.
Proof.
  assert (H : forall i, vrSwapchains_at (after_locate env g) i = vrSwapchains_at g i).
  { intros i. unfold vrSwapchains_at, pool, after_locate. cbn.
    destruct (xrViews g); reflexivity. }
  destruct c; cbn [on_view_swapchain]; rewrite ?H; reflexivity.
Qed.

Lemma RenderFrame_on_pool env g :
  Forall (fun c => on_view_swapchain g c = true) (trace_of (RenderFrame env g)).
Proof.
  tick_cases env g; repeat (constructor; [reflexivity|]); try constructor.
  apply Forall_app. split; [|repeat constructor].
  eapply Forall_impl; [|apply views_on_pool].
  intros c Hc. cbv beta in Hc. now rewrite on_view_swapchain_after_locate in Hc.
Qed.

(** C1. In every tick, the swapchain-image calls obey the image discipline:
    a successful acquire on a swapchain is followed by a wait on that same
    swapchain, then either an immediate release of it when the wait failed or
    the rendering and then the release of it, all before the next view is
    acquired and before the frame ends; a failed acquire is followed by no
    wait and no release.  Every one of these calls is made on the swapchain
    of its view's entry of the pool.  And for every view index the tick makes
    at most one acquire, and exactly as many wait calls and exactly as many
    release calls as successful acquires. *)
Theorem acquire_release_paired (env : FrameEnv) (g : Globals) :
  let t := trace_of (RenderFrame env g) in
  image_discipline Free t = Some Free
  /\ Forall (fun c => on_view_swapchain g c = true) t
  /\ forall i,
       count (is_acquire i) t <= 1
       /\ count (is_wait i) t = count (is_acquire_ok i) t
       /\ count (is_release i) t = count (is_acquire_ok i) t.
Proof.
  cbv zeta. split; [|split].
  - tick_cases env g; try reflexivity.
    cbn [image_discipline image_step].
    rewrite image_discipline_app, image_discipline_views. reflexivity.
  - apply RenderFrame_on_pool.
  - intros i. tick_cases env g;
      try (cbn; repeat split; lia).
    set (g1 := after_locate env g).
    count_simpl.
    rewrite (count_flat_map_seq _ _ i 1 0 _ (view_trace_acquire env g1 i)).
    rewrite (count_flat_map_seq _ _ i _ 0 _ (view_trace_wait env g1 i)).
    rewrite (count_flat_map_seq _ _ i _ 0 _ (view_trace_release env g1 i)).
    rewrite (count_flat_map_seq _ _ i _ 0 _ (view_trace_acquire_ok env g1 i)).
    repeat split; try reflexivity.
    match goal with |- context [if ?b then _ else _] => destruct b end; lia.
Qed.

(** ** Aborted ticks *)

Lemma unit_run (r : unit * Globals * list Call) : r = (tt, state_of r, trace_of r).
Proof. destruct r as [[[] g] t]; reflexivity. Qed.

Lemma main_loop_cons (t : TickEnv) (rest : list TickEnv) (g : Globals) :
  xrShouldQuit g = false ->
  main_loop (t :: rest) g
  = (tt, state_of (main_loop rest (state_of (main_tick t g))),
     trace_of (main_tick t g) ++ trace_of (main_loop rest (state_of (main_tick t g)))).
Proof.
  intros Hq. rewrite (unit_run (main_loop (t :: rest) g)).
  cbn [main_loop]. run. rewrite Hq. run. reflexivity.
Qed.

Lemma main_loop_quit (ticks : list TickEnv) (g : Globals) :
  xrShouldQuit g = true -> main_loop ticks g = (tt, g, []).
Proof.
  intros Hq. destruct ticks as [|t rest]; [reflexivity|].
  rewrite (unit_run (main_loop (t :: rest) g)).
  cbn [main_loop]. run. rewrite Hq. run. reflexivity.
Qed.

Lemma main_tick_frame (f : FrameEnv) (g : Globals) :
  main_tick (frame_tick f) g = RenderFrame f g.
Proof.
  rewrite (unit_run (main_tick _ _)), (unit_run (RenderFrame f g)).
  unfold main_tick, frame_tick, HandleXREvents.
  cbn [sdl_quit xr_events frame_env for_each]. run. reflexivity.
Qed.

Lemma main_loop_frame_ticks_fail (fails : list FrameEnv) (g : Globals) :
  xrSessionRunning g = true -> xrShouldQuit g = false ->
  Forall (fun f => XR_FAILED (waitFrame_result f) = true) fails ->
  main_loop (map frame_tick fails) g
  = (tt, g, map (fun f => xrWaitFrame (waitFrame_result f)) fails).
Proof.
  intros Hrun Hquit Hall. induction Hall as [|f fails Hf _ IH]; [reflexivity|].
  cbn [map]. rewrite main_loop_cons by assumption.
  rewrite main_tick_frame, (RenderFrame_cases f g); cbv zeta.
  rewrite Hrun, Hf. cbn [negb state_of trace_of fst snd].
  rewrite IH. reflexivity.
Qed.

Lemma main_loop_app (ticks1 ticks2 : list TickEnv) (g : Globals) :
  xrShouldQuit (state_of (main_loop ticks1 g)) = false ->
  main_loop (ticks1 ++ ticks2) g
  = (tt, state_of (main_loop ticks2 (state_of (main_loop ticks1 g))),
     trace_of (main_loop ticks1 g)
       ++ trace_of (main_loop ticks2 (state_of (main_loop ticks1 g)))).
Proof.
  revert g. induction ticks1 as [|t ticks1 IH]; intros g Hq.
  - cbn [app main_loop]. run. apply unit_run.
  - cbn [app]. destruct (xrShouldQuit g) eqn:Hg.
    + rewrite (main_loop_quit (t :: ticks1) g Hg) in Hq. cbn in Hq. congruence.
    + rewrite main_loop_cons in Hq by assumption. cbn [state_of fst snd] in Hq.
      rewrite !main_loop_cons by assumption.
      rewrite (IH _ Hq). cbn [state_of trace_of fst snd].
      now rewrite app_assoc.
Qed.

(** C3. In the running state: a tick whose wait-frame fails makes that one
    call and nothing else, and leaves the globals as they were; a tick whose
    wait-frame succeeds and whose begin-frame fails makes those two calls and
    no end-frame.  Over any number of consecutive ticks whose wait-frame fails
    the trace consists of the wait-frame calls only (no begin-frame, no
    end-frame), and the next tick whose wait-frame and begin-frame succeed
    goes through wait-frame, begin-frame and ends with its single end-frame. *)
Theorem wait_or_begin_failure_aborts_tick
  (fails : list FrameEnv) (next : FrameEnv) (g : Globals) :
  xrSessionRunning g = true -> xrShouldQuit g = false ->
  Forall (fun f => XR_FAILED (waitFrame_result f) = true) fails ->
  XR_FAILED (waitFrame_result next) = false ->
  XR_FAILED (beginFrame_result next) = false ->
  (forall f, XR_FAILED (waitFrame_result f) = true ->
     RenderFrame f g = (tt, g, [xrWaitFrame (waitFrame_result f)]))
  /\ (forall f, XR_FAILED (waitFrame_result f) = false ->
        XR_FAILED (beginFrame_result f) = true ->
        RenderFrame f g
        = (tt, g, [xrWaitFrame (waitFrame_result f); xrBeginFrame (beginFrame_result f)]))
  /\ (let r := main_loop (map frame_tick fails) g in
      state_of r = g
      /\ trace_of r = map (fun f => xrWaitFrame (waitFrame_result f)) fails
      /\ count is_xrBeginFrame (trace_of r) = 0
      /\ count is_xrEndFrame (trace_of r) = 0)
  /\ (exists mid info,
        trace_of (main_loop (map frame_tick (fails ++ [next])) g)
        = map (fun f => xrWaitFrame (waitFrame_result f)) fails
          ++ xrWaitFrame (waitFrame_result next) :: xrBeginFrame (beginFrame_result next)
          :: mid ++ [xrEndFrame info]
        /\ count is_xrBeginFrame mid = 0 /\ count is_xrEndFrame mid = 0).
Proof.
  intros Hrun Hquit Hall Hwait Hbegin.
  pose proof (main_loop_frame_ticks_fail fails g Hrun Hquit Hall) as Hfails.
  split; [|split; [|split]].
  - intros f Hf. rewrite (RenderFrame_cases f g); cbv zeta.
    now rewrite Hrun, Hf.
  - intros f Hf Hb. rewrite (RenderFrame_cases f g); cbv zeta.
    now rewrite Hrun, Hf, Hb.
  - cbv zeta. rewrite Hfails. cbn [state_of trace_of fst snd].
    repeat split; apply count_none; apply Forall_map, Forall_forall; reflexivity.
  - rewrite map_app, main_loop_app; rewrite Hfails; cbn [state_of trace_of fst snd];
      [|assumption].
    cbn [map]. rewrite main_loop_cons by assumption.
    cbn [main_loop]. run. rewrite main_tick_frame.
    rewrite (RenderFrame_cases next g); cbv zeta.
    rewrite Hrun, Hwait, Hbegin. cbn [negb].
    destruct (shouldRender _ && pool_exists g);
      [destruct (XR_FAILED (locateViews_result next))|];
      cbn [trace_of snd].
    + exists [xrLocateViews (predictedDisplayTime (waitFrame_frameState next))
                (locateViews_result next)].
      eexists. split; [reflexivity|]. split; reflexivity.
    + exists (xrLocateViews (predictedDisplayTime (waitFrame_frameState next))
                (locateViews_result next)
              :: flat_map (view_trace next (after_locate next g))
                   (seq 0 (viewCount (after_locate next g)))
              ++ [SDL_SubmitGPUCommandBuffer]).
      eexists. split.
      * cbn [app]. rewrite <- !app_assoc. cbn [app]. reflexivity.
      * assert (Hv : forall p, (forall j, count p (view_trace next (after_locate next g) j) = 0) ->
                     count p (flat_map (view_trace next (after_locate next g))
                                (seq 0 (viewCount (after_locate next g)))) = 0).
        { intros p Hp.
          rewrite (count_flat_map_seq p _ 0 0 0); [now destruct (_ && _)|].
          intros j. rewrite Hp. now destruct (Nat.eqb 0 j). }
        split; count_simpl; rewrite Hv; try reflexivity; intros j; count_view.
    + exists []. eexists. split; [reflexivity|]. split; reflexivity.
Qed.

Lemma count_views_none p env g n :
  (forall j, count p (view_trace env g j) = 0) ->
  count p (flat_map (view_trace env g) (seq 0 n)) = 0.
Proof.
  intros Hp. rewrite (count_flat_map_seq p _ 0 0 0); [now destruct (_ && _)|].
  intros j. rewrite Hp. now destruct (Nat.eqb 0 j).
Qed.

(** C4. Once begin-frame has succeeded, the tick makes exactly one end-frame
    call, as its last call, with the predicted display time of the frame
    state and the opaque blend mode; when the should-render flag is false, or
    there is no view or no swapchain array, or the view-locate call fails, it
    is submitted with zero composition layers. *)
Theorem end_frame_after_begin (env : FrameEnv) (g : Globals) :
  xrSessionRunning g = true ->
  XR_FAILED (waitFrame_result env) = false ->
  XR_FAILED (beginFrame_result env) = false ->
  let t := trace_of (RenderFrame env g) in
  let fs := waitFrame_frameState env in
  count is_xrEndFrame t = 1
  /\ exists body n l,
       t = xrWaitFrame (waitFrame_result env) :: xrBeginFrame (beginFrame_result env)
           :: body
           ++ [xrEndFrame (mkEndInfo (predictedDisplayTime fs)
                                     XR_ENVIRONMENT_BLEND_MODE_OPAQUE n l)]
       /\ (shouldRender fs = false \/ viewCount g = 0 \/ vrSwapchains g = None
           \/ XR_FAILED (locateViews_result env) = true ->
           n = 0 /\ l = None).
Proof.
  intros Hrun Hwait Hbegin. cbv zeta.
  rewrite (RenderFrame_cases env g); cbv zeta.
  rewrite Hrun, Hwait, Hbegin. cbn [negb].
  destruct (shouldRender _ && pool_exists g) eqn:Hrender;
    [destruct (XR_FAILED (locateViews_result env)) eqn:Hlocate|];
    cbn [trace_of snd].
  - split; [reflexivity|].
    exists [xrLocateViews (predictedDisplayTime (waitFrame_frameState env))
              (locateViews_result env)], 0, None.
    split; [reflexivity|]. intros _. split; reflexivity.
  - split.
    + count_simpl. rewrite count_views_none; [reflexivity|]. intros j. count_view.
    + exists (xrLocateViews (predictedDisplayTime (waitFrame_frameState env))
                (locateViews_result env)
              :: flat_map (view_trace env (after_locate env g))
                   (seq 0 (viewCount (after_locate env g)))
              ++ [SDL_SubmitGPUCommandBuffer]), 1,
        (Some (mkLayer (xrLocalSpace (after_locate env g)) (viewCount (after_locate env g))
                       (render_views env (after_locate env g)))).
      split; [cbn [app]; rewrite <- !app_assoc; reflexivity|].
      apply andb_true_iff in Hrender. destruct Hrender as [Hsr Hpool].
      unfold pool_exists in Hpool. apply andb_true_iff in Hpool.
      destruct Hpool as [Hvc Hsc]. apply Nat.ltb_lt in Hvc.
      intros [H|[H|[H|H]]]; try congruence; try lia.
      rewrite H in Hsc. discriminate.
  - split; [reflexivity|].
    exists [], 0, None. split; [reflexivity|]. intros _. split; reflexivity.
Qed.

(** C6. In a tick that reaches the per-view loop, every view gets its acquire
    call whatever happened to the other views, the frame is ended by the
    single end-frame call, which submits one projection layer, and entry [i]
    of that layer's view array is the entry filled in for view [i] when view
    [i] completed acquire and wait, and is left zero-initialised when it did
    not. *)
Theorem view_failure_is_per_view (env : FrameEnv) (g : Globals) :
  xrSessionRunning g = true ->
  XR_FAILED (waitFrame_result env) = false ->
  XR_FAILED (beginFrame_result env) = false ->
  shouldRender (waitFrame_frameState env) = true ->
  pool_exists g = true ->
  XR_FAILED (locateViews_result env) = false ->
  let t := trace_of (RenderFrame env g) in
  let g1 := after_locate env g in
  (forall i, i < viewCount g -> count (is_acquire i) t = 1)
  /\ count is_xrEndFrame t = 1
  /\ exists body views,
       t = body
           ++ [xrEndFrame (mkEndInfo (predictedDisplayTime (waitFrame_frameState env))
                             XR_ENVIRONMENT_BLEND_MODE_OPAQUE 1
                             (Some (mkLayer (xrLocalSpace g) (viewCount g) views)))]
       /\ length views = viewCount g
       /\ forall i, i < viewCount g ->
            nth i views XrCompositionLayerProjectionView_zero
            = if view_completed env i then populated_entry g1 i
              else XrCompositionLayerProjectionView_zero.
Proof.
  intros Hrun Hwait Hbegin Hsr Hpool Hlocate. cbv zeta.
  rewrite (RenderFrame_cases env g); cbv zeta.
  rewrite Hrun, Hwait, Hbegin, Hsr, Hpool, Hlocate. cbn [negb andb trace_of snd].
  rewrite after_locate_viewCount, after_locate_xrLocalSpace.
  split; [|split].
  - intros i Hi. count_simpl.
    rewrite (count_flat_map_seq _ _ i 1 0 _ (view_trace_acquire env _ i)).
    replace (i <? 0 + viewCount g) with true by (symmetry; apply Nat.ltb_lt; lia).
    reflexivity.
  - count_simpl. rewrite count_views_none; [reflexivity|]. intros j. count_view.
  - exists (xrWaitFrame (waitFrame_result env) :: xrBeginFrame (beginFrame_result env)
            :: xrLocateViews (predictedDisplayTime (waitFrame_frameState env))
                 (locateViews_result env)
            :: flat_map (view_trace env (after_locate env g)) (seq 0 (viewCount g))
            ++ [SDL_SubmitGPUCommandBuffer]),
      (render_views env (after_locate env g)).
    split; [cbn [app]; rewrite <- !app_assoc; reflexivity|].
    split.
    + rewrite render_views_length. apply after_locate_viewCount.
    + intros i Hi. apply render_views_nth. now rewrite after_locate_viewCount.
Qed.

(** ** The animation clock *)

Lemma RenderFrame_animTime (env : FrameEnv) (g : Globals) :
  animTime (state_of (RenderFrame env g))
  = if clock_advances env g then F32.fadd (animTime g) F32.anim_step else animTime g.
Proof.
  unfold clock_advances.
  tick_cases env g; cbn [negb andb]; rewrite ?after_locate_animTime;
    try reflexivity.
  - apply andb_true_iff in Hrender. destruct Hrender as [-> ->]. reflexivity.
  - apply andb_true_iff in Hrender. destruct Hrender as [-> ->]. reflexivity.
  - destruct (shouldRender _); cbn [andb] in *; [now rewrite Hrender|reflexivity].
Qed.

(** ** What pool creation leaves alone *)

Section Preserved.
Context {T : Type} (f : Globals -> T).
Hypothesis f_viewCount : forall n g, f (set_viewCount n g) = f g.
Hypothesis f_vrSwapchains : forall p g, f (set_vrSwapchains p g) = f g.
Hypothesis f_xrViews : forall p g, f (set_xrViews p g) = f g.
Hypothesis f_pipeline : forall h g, f (set_pipeline h g) = f g.
Hypothesis f_vertexBuffer : forall h g, f (set_vertexBuffer h g) = f g.
Hypothesis f_indexBuffer : forall h g, f (set_indexBuffer h g) = f g.

Lemma update_swapchain_preserves i u g : f (update_swapchain i u g) = f g.
Proof. unfold update_swapchain. destruct (vrSwapchains g); [apply f_vrSwapchains|reflexivity]. Qed.

Lemma update_view_preserves i u g : f (update_view i u g) = f g.
Proof. unfold update_view. destruct (xrViews g); [apply f_xrViews|reflexivity]. Qed.

Lemma CreateSwapchains_view_preserves env cfgs i g :
  f (state_of (CreateSwapchains_view env cfgs i g)) = f g.
Proof.
  unfold CreateSwapchains_view. run.
  destruct (XR_FAILED (create_result _)); run.
  - now rewrite update_swapchain_preserves, update_view_preserves.
  - destruct (XR_FAILED (enumerate_result _)); run;
      now rewrite !update_swapchain_preserves, update_view_preserves.
Qed.

Lemma CreateSwapchains_loop_preserves env cfgs l g :
  f (state_of (CreateSwapchains_loop env cfgs l g)) = f g.
Proof.
  revert g. induction l as [|i l IH]; intros g; [reflexivity|].
  cbn [CreateSwapchains_loop]. run.
  destruct (value_of (CreateSwapchains_view env cfgs i g)); run.
  - apply CreateSwapchains_view_preserves.
  - rewrite IH. apply CreateSwapchains_view_preserves.
Qed.

Lemma CreatePipeline_preserves env fmt g :
  f (state_of (CreatePipeline env fmt g)) = f g.
Proof.
  unfold CreatePipeline. destruct (negb (shaders_loaded env)); run; [reflexivity|].
  destruct (is_null _); run; apply f_pipeline.
Qed.

Lemma CreateCubeBuffers_preserves env g :
  f (state_of (CreateCubeBuffers env g)) = f g.
Proof.
  unfold CreateCubeBuffers. run.
  destruct (_ || _); run; now rewrite f_indexBuffer, f_vertexBuffer.
Qed.

Lemma CreateSwapchains_preserves env g :
  f (state_of (CreateSwapchains env g)) = f g.
Proof.
  unfold CreateSwapchains. run.
  destruct (XR_FAILED (count_result env)); run; [apply f_viewCount|].
  destruct (XR_FAILED (fill_result env)); run; [now rewrite !f_viewCount|].
  match goal with
  | |- context [CreateSwapchains_loop ?e ?c ?l ?g0] =>
      pose proof (CreateSwapchains_loop_preserves e c l g0) as Hloop;
      set (L := CreateSwapchains_loop e c l g0) in *
  end.
  rewrite f_xrViews, f_vrSwapchains, !f_viewCount in Hloop.
  destruct (value_of L); run; [exact Hloop|].
  destruct (_ && _); run; [|exact Hloop].
  match goal with
  | |- context [CreatePipeline ?e ?c ?g0] =>
      pose proof (CreatePipeline_preserves e c g0) as Hpipe;
      set (P := CreatePipeline e c g0) in *
  end.
  destruct (negb (value_of P =? 0)%Z); run; [congruence|].
  match goal with
  | |- context [CreateCubeBuffers ?e ?g0] =>
      pose proof (CreateCubeBuffers_preserves e g0) as Hbuf;
      set (Bf := CreateCubeBuffers e g0) in *
  end.
  destruct (negb (value_of Bf =? 0)%Z); run; congruence.
Qed.
End Preserved.

Lemma CreateSwapchains_animTime env g :
  animTime (state_of (CreateSwapchains env g)) = animTime g.
Proof. apply CreateSwapchains_preserves; reflexivity. Qed.

Lemma CreateSwapchains_xrSessionRunning env g :
  xrSessionRunning (state_of (CreateSwapchains env g)) = xrSessionRunning g.
Proof. apply CreateSwapchains_preserves; reflexivity. Qed.

Lemma CreateSwapchains_xrShouldQuit env g :
  xrShouldQuit (state_of (CreateSwapchains env g)) = xrShouldQuit g.
Proof. apply CreateSwapchains_preserves; reflexivity. Qed.

Lemma handle_event_animTime e g : animTime (state_of (handle_event e g)) = animTime g.
Proof.
  unfold handle_event.
  destruct (event e) as [[]| |]; run; try reflexivity.
  destruct (XR_SUCCEEDED _); run; [|reflexivity].
  destruct (negb _); run; cbn [animTime set_xrShouldQuit];
    now rewrite CreateSwapchains_animTime.
Qed.

Lemma HandleXREvents_animTime polled g :
  animTime (state_of (HandleXREvents polled g)) = animTime g.
Proof.
  unfold HandleXREvents. revert g.
  induction polled as [|e l IH]; intros g; [reflexivity|].
  cbn [for_each]. run. rewrite IH. apply handle_event_animTime.
Qed.

(** C10. The animation clock is a [float]; a tick replaces it by the
    [float] sum of itself and the constant [0.011f], rounded to nearest,
    exactly when the session is running, wait-frame and begin-frame both
    succeed, the frame state asks to render and the pool exists (a failing
    view-locate call afterwards does not undo it), and leaves the clock as it
    was in every other case; the event handling of the tick never touches the
    clock, so the update happens at most once per tick.  The constant
    [0.011f] is the [float] [11811160 * 2^-30]. *)
Theorem clock_advance_rule (t : TickEnv) (g : Globals) :
  let g0 := state_of (HandleXREvents (xr_events t)
                        (if sdl_quit t then set_xrShouldQuit true g else g)) in
  let g' := state_of (main_tick t g) in
  animTime g0 = animTime g
  /\ animTime g' = (if clock_advances (frame_env t) g0
                    then F32.fadd (animTime g) F32.anim_step else animTime g)
  /\ (clock_advances (frame_env t) g0 = true ->
      XR_FAILED (locateViews_result (frame_env t)) = true ->
      animTime g' = F32.fadd (animTime g) F32.anim_step)
  /\ F32.anim_step = SpecFloat.S754_finite false 11811160 (-30).
Proof.
  cbv zeta.
  set (g0 := state_of (HandleXREvents (xr_events t)
                         (if sdl_quit t then set_xrShouldQuit true g else g))).
  assert (H0 : animTime g0 = animTime g).
  { unfold g0. rewrite HandleXREvents_animTime. now destruct (sdl_quit t). }
  assert (Hg' : state_of (main_tick t g) = state_of (RenderFrame (frame_env t) g0)).
  { unfold main_tick, g0. run. destruct (sdl_quit t); run; reflexivity. }
  rewrite Hg', RenderFrame_animTime, H0.
  split; [reflexivity|]. split; [reflexivity|]. split.
  - intros -> _. reflexivity.
  - vm_compute. reflexivity.
Qed.

(** ** The alphabets of the two halves of a tick *)

Lemma CreateSwapchains_view_calls env cfgs i g :
  Forall (fun c => is_setup_call c = true)
         (trace_of (CreateSwapchains_view env cfgs i g)).
Proof.
  unfold CreateSwapchains_view. run.
  destruct (XR_FAILED (create_result _)); run; [repeat constructor|].
  destruct (XR_FAILED (enumerate_result _)); run; repeat constructor.
Qed.

Lemma CreateSwapchains_loop_calls env cfgs l g :
  Forall (fun c => is_setup_call c = true)
         (trace_of (CreateSwapchains_loop env cfgs l g)).
Proof.
  revert g. induction l as [|i l IH]; intros g; [constructor|].
  cbn [CreateSwapchains_loop]. run.
  destruct (value_of (CreateSwapchains_view env cfgs i g)); run.
  - apply CreateSwapchains_view_calls.
  - apply Forall_app. split; [apply CreateSwapchains_view_calls|apply IH].
Qed.

Lemma CreatePipeline_calls env fmt g :
  Forall (fun c => is_setup_call c = true) (trace_of (CreatePipeline env fmt g)).
Proof.
  unfold CreatePipeline. destruct (negb (shaders_loaded env)); run; [constructor|].
  destruct (is_null _); run; repeat constructor.
Qed.

Lemma CreateCubeBuffers_calls env g :
  Forall (fun c => is_setup_call c = true) (trace_of (CreateCubeBuffers env g)).
Proof.
  unfold CreateCubeBuffers. run. destruct (_ || _); run; repeat constructor.
Qed.

Lemma CreateSwapchains_calls env g :
  Forall (fun c => is_setup_call c = true) (trace_of (CreateSwapchains env g)).
Proof.
  unfold CreateSwapchains. run.
  destruct (XR_FAILED (count_result env)); run; [repeat constructor|].
  destruct (XR_FAILED (fill_result env)); run; [repeat constructor|].
  constructor; [reflexivity|]. constructor; [reflexivity|].
  match goal with
  | |- context [CreateSwapchains_loop ?e ?c ?l ?g0] =>
      pose proof (CreateSwapchains_loop_calls e c l g0) as Hloop;
      set (L := CreateSwapchains_loop e c l g0) in *
  end.
  apply Forall_app. split; [exact Hloop|].
  destruct (value_of L); run; [constructor|].
  destruct (_ && _); run; [|constructor].
  apply Forall_app. split; [apply CreatePipeline_calls|].
  destruct (negb (_ =? 0)%Z); run; [constructor|].
  apply Forall_app. split; [apply CreateCubeBuffers_calls|].
  destruct (negb (_ =? 0)%Z); run; constructor.
Qed.

Lemma view_trace_neutral env g i :
  Forall (fun c => session_neutral c = true /\ is_pool_setup_call c = false)
         (view_trace env g i).
Proof.
  rewrite view_trace_shape; cbv zeta.
  constructor; [split; reflexivity|].
  destruct (XR_FAILED (acquire_result _)); [constructor|].
  constructor; [split; reflexivity|].
  destruct (XR_FAILED (waitImage_result _)); [repeat constructor|].
  constructor; [split; reflexivity|].
  apply Forall_app. split; [|repeat constructor].
  eapply Forall_impl; [|apply draw_cubes_trace].
  intros [] H; try discriminate. split; reflexivity.
Qed.

Lemma views_neutral env g l :
  Forall (fun c => session_neutral c = true /\ is_pool_setup_call c = false)
         (flat_map (view_trace env g) l).
Proof.
  induction l as [|i l IH]; [constructor|].
  cbn [flat_map]. apply Forall_app. split; [apply view_trace_neutral|exact IH].
Qed.

(** A tick's frame half: nothing when the session is not running, else a
    wait-frame followed by calls that are neither session nor pool calls. *)
Lemma RenderFrame_trace_form env g :
  if xrSessionRunning g then
    exists t, trace_of (RenderFrame env g) = xrWaitFrame (waitFrame_result env) :: t
              /\ Forall (fun c => session_neutral c = true /\ is_pool_setup_call c = false) t
  else RenderFrame env g = (tt, g, []).
Proof.
  tick_cases env g; try reflexivity.
  - exists []. split; [reflexivity|constructor].
  - eexists. split; [reflexivity|repeat constructor].
  - eexists. split; [reflexivity|repeat constructor].
  - eexists. split; [reflexivity|].
    constructor; [split; reflexivity|]. constructor; [split; reflexivity|].
    apply Forall_app. split; [apply views_neutral|repeat constructor].
  - eexists. split; [reflexivity|repeat constructor].
Qed.

Lemma after_locate_session env g :
  xrSessionRunning (after_locate env g) = xrSessionRunning g
  /\ xrShouldQuit (after_locate env g) = xrShouldQuit g
  /\ vrSwapchains (after_locate env g) = vrSwapchains g.
Proof. unfold after_locate. cbn. destruct (xrViews g); repeat split; reflexivity. Qed.

(** The frame half of a tick only ever writes the clock and the located
    views. *)
Lemma RenderFrame_state env g :
  state_of (RenderFrame env g) = g
  \/ state_of (RenderFrame env g) = after_locate env g.
Proof. tick_cases env g; auto. Qed.

Lemma RenderFrame_xrSessionRunning env g :
  xrSessionRunning (state_of (RenderFrame env g)) = xrSessionRunning g.
Proof.
  destruct (RenderFrame_state env g) as [-> | ->]; [reflexivity|].
  apply after_locate_session.
Qed.

Lemma RenderFrame_xrShouldQuit env g :
  xrShouldQuit (state_of (RenderFrame env g)) = xrShouldQuit g.
Proof.
  destruct (RenderFrame_state env g) as [-> | ->]; [reflexivity|].
  apply after_locate_session.
Qed.

Lemma RenderFrame_pool env g :
  vrSwapchains (state_of (RenderFrame env g)) = vrSwapchains g
  /\ viewCount (state_of (RenderFrame env g)) = viewCount g.
Proof.
  destruct (RenderFrame_state env g) as [-> | ->]; [split; reflexivity|].
  split; [apply after_locate_session|apply after_locate_viewCount].
Qed.

(** ** Session discipline *)

Lemma session_discipline_neutral begun running t rest :
  Forall (fun c => session_neutral c = true) t ->
  session_discipline begun running (t ++ rest) = session_discipline begun running rest.
Proof.
  induction 1 as [|c t Hc _ IH]; [reflexivity|].
  destruct c; try discriminate; exact IH.
Qed.

Lemma session_discipline_frame env g begun rest :
  session_discipline begun (xrSessionRunning g) (trace_of (RenderFrame env g) ++ rest)
  = session_discipline begun (xrSessionRunning g) rest.
Proof.
  pose proof (RenderFrame_trace_form env g) as H.
  destruct (xrSessionRunning g).
  - destruct H as (t & -> & Ht). cbn [app session_discipline andb].
    apply session_discipline_neutral.
    eapply Forall_impl; [|exact Ht]. now intros c [].
  - rewrite H. reflexivity.
Qed.

Lemma pool_setup_neutral t :
  Forall (fun c => is_setup_call c = true) t ->
  Forall (fun c => session_neutral c = true) t.
Proof. apply Forall_impl. intros [] H; try discriminate; reflexivity. Qed.

Lemma session_discipline_event e s begun g rest :
  session_inv s begun g ->
  lifecycle_valid s [event e] = true ->
  exists begun',
    session_inv (lifecycle_after s [event e]) begun' (state_of (handle_event e g))
    /\ session_discipline begun (xrSessionRunning g)
         (trace_of (handle_event e g) ++ rest)
       = session_discipline begun' (xrSessionRunning (state_of (handle_event e g))) rest.
Proof.
  intros [Hrun Hs] Hvalid. unfold handle_event.
  destruct (event e) as [s'| |]; cbn [lifecycle_valid lifecycle_after] in *.
  2,3: exists begun; run; split; [split; assumption|reflexivity].
  rewrite andb_true_r in Hvalid.
  destruct s'; run.
  all: try (exists begun; split; [split; [assumption|]|reflexivity];
            destruct s; try discriminate; try exact I; assumption).
  - (* READY *)
    assert (Hb : begun = false) by (destruct s; try discriminate; assumption).
    assert (Hr : xrSessionRunning g = false).
    { destruct (xrSessionRunning g); [|reflexivity]. rewrite Hrun in Hb by reflexivity.
      discriminate. }
    subst begun. exists true. rewrite Hr.
    destruct (XR_SUCCEEDED (beginSession_result e)) eqn:Hok; run.
    + split.
      * split; [reflexivity|exact I].
      * cbn [session_discipline negb andb]. rewrite Hok.
        rewrite <- app_assoc, session_discipline_neutral
          by (apply pool_setup_neutral, CreateSwapchains_calls).
        destruct (negb _); run; cbn [xrSessionRunning set_xrShouldQuit];
          rewrite CreateSwapchains_xrSessionRunning; reflexivity.
    + split.
      * split; [reflexivity|exact I].
      * cbn [session_discipline negb andb]. now rewrite Hok, Hr.
  - (* STOPPING *)
    exists false. split; [split; [discriminate|reflexivity]|reflexivity].
Qed.

Lemma lifecycle_valid_app s l1 l2 :
  lifecycle_valid s (l1 ++ l2)
  = lifecycle_valid s l1 && lifecycle_valid (lifecycle_after s l1) l2.
Proof.
  revert s; induction l1 as [|e l1 IH]; intros s; [reflexivity|].
  destruct e as [s'| |]; cbn [app lifecycle_valid lifecycle_after]; rewrite IH;
    [now rewrite andb_assoc|reflexivity|reflexivity].
Qed.

Lemma lifecycle_after_app s l1 l2 :
  lifecycle_after s (l1 ++ l2) = lifecycle_after (lifecycle_after s l1) l2.
Proof.
  revert s; induction l1 as [|e l1 IH]; intros s; [reflexivity|].
  destruct e as [s'| |]; cbn [app lifecycle_after]; apply IH.
Qed.

Lemma session_discipline_events polled s begun g rest :
  session_inv s begun g ->
  lifecycle_valid s (map event polled) = true ->
  exists begun',
    session_inv (lifecycle_after s (map event polled)) begun'
                (state_of (HandleXREvents polled g))
    /\ session_discipline begun (xrSessionRunning g)
         (trace_of (HandleXREvents polled g) ++ rest)
       = session_discipline begun'
           (xrSessionRunning (state_of (HandleXREvents polled g))) rest.
Proof.
  unfold HandleXREvents. revert s begun g rest.
  induction polled as [|e l IH]; intros s begun g rest Hinv Hvalid.
  - exists begun. split; [exact Hinv|reflexivity].
  - change (map event (e :: l)) with ([event e] ++ map event l) in *.
    rewrite lifecycle_valid_app in Hvalid. apply andb_true_iff in Hvalid.
    destruct Hvalid as [Hv1 Hv2]. rewrite lifecycle_after_app.
    cbn [for_each]. run.
    destruct (session_discipline_event e s begun g
                (trace_of (for_each l handle_event (state_of (handle_event e g))) ++ rest)
                Hinv Hv1) as (b1 & Hinv1 & Heq1).
    destruct (IH _ b1 (state_of (handle_event e g)) rest Hinv1 Hv2) as (b2 & Hinv2 & Heq2).
    exists b2. split; [exact Hinv2|].
    rewrite <- app_assoc, Heq1. exact Heq2.
Qed.

Lemma session_discipline_main_loop ticks s begun g :
  session_inv s begun g ->
  lifecycle_valid s (events_of ticks) = true ->
  session_discipline begun (xrSessionRunning g) (trace_of (main_loop ticks g)) = true.
Proof.
  revert s begun g. induction ticks as [|t ticks IH]; intros s begun g Hinv Hvalid;
    [reflexivity|].
  destruct (xrShouldQuit g) eqn:Hq.
  - now rewrite main_loop_quit.
  - rewrite main_loop_cons by assumption. cbn [trace_of snd].
    unfold events_of in Hvalid. cbn [flat_map] in Hvalid.
    rewrite lifecycle_valid_app in Hvalid. apply andb_true_iff in Hvalid.
    destruct Hvalid as [Hv1 Hv2].
    set (g0 := if sdl_quit t then set_xrShouldQuit true g else g).
    assert (Hinv0 : session_inv s begun g0) by (unfold g0; now destruct (sdl_quit t)).
    assert (Hr0 : xrSessionRunning g0 = xrSessionRunning g)
      by (unfold g0; now destruct (sdl_quit t)).
    assert (Htick : main_tick t g
                    = (tt, state_of (RenderFrame (frame_env t)
                                       (state_of (HandleXREvents (xr_events t) g0))),
                       trace_of (HandleXREvents (xr_events t) g0)
                       ++ trace_of (RenderFrame (frame_env t)
                                      (state_of (HandleXREvents (xr_events t) g0))))).
    { rewrite (unit_run (main_tick t g)). unfold main_tick, g0.
      run. destruct (sdl_quit t); run; reflexivity. }
    rewrite Htick. cbn [state_of trace_of fst snd].
    set (g1 := state_of (HandleXREvents (xr_events t) g0)) in *.
    set (g2 := state_of (RenderFrame (frame_env t) g1)) in *.
    rewrite <- app_assoc, <- Hr0.
    destruct (session_discipline_events (xr_events t) s begun g0
                (trace_of (RenderFrame (frame_env t) g1) ++ trace_of (main_loop ticks g2))
                Hinv0 Hv1) as (b1 & Hinv1 & Heq1).
    fold g1 in Hinv1, Heq1. rewrite Heq1, session_discipline_frame.
    assert (Hr2 : xrSessionRunning g2 = xrSessionRunning g1)
      by apply RenderFrame_xrSessionRunning.
    rewrite <- Hr2. apply (IH (lifecycle_after s (map event (xr_events t)))); [|exact Hv2].
    destruct Hinv1 as [H1 H2]. split; [now rewrite Hr2|exact H2].
Qed.

(** C2. For every sequence of ticks whose compositor events follow the
    session lifecycle, the trace of the main loop started from the initial
    globals never contains a session-begin issued while an earlier one has not
    been followed by a session-end, and never contains a wait-frame issued
    while no successfully begun session is outstanding; and whenever the
    running flag is false the frame routine returns at once, with no call at
    all. *)
Theorem session_begin_end_discipline (ticks : list TickEnv) (localSpace : handle) :
  lifecycle_valid XR_SESSION_STATE_UNKNOWN (events_of ticks) = true ->
  session_discipline false false
    (trace_of (main_loop ticks (initial_globals localSpace))) = true
  /\ forall env g, xrSessionRunning g = false -> RenderFrame env g = (tt, g, []).
Proof.
  intros Hvalid. split.
  - apply (session_discipline_main_loop ticks XR_SESSION_STATE_UNKNOWN false
             (initial_globals localSpace)); [|exact Hvalid].
    split; [discriminate|reflexivity].
  - intros env g Hg. pose proof (RenderFrame_trace_form env g) as H.
    now rewrite Hg in H.
Qed.

(** The lifecycle hypothesis is needed: two READY events in a row, which no
    conforming runtime sends, make the handler issue two session-begins with
    no session-end in between. *)
Example ready_twice_begins_twice :
  let polled := [Scenario.second_ready; Scenario.second_ready] in
  lifecycle_valid XR_SESSION_STATE_UNKNOWN (map event polled) = false
  /\ session_discipline false false
       (trace_of (HandleXREvents polled Scenario.start)) = false.
Proof. split; reflexivity. Qed.

(** ** The pool array through pool creation *)

Lemma update_swapchain_pool i u g :
  vrSwapchains (update_swapchain i u g)
  = option_map (fun l => store i (u (nth i l VRSwapchain_zero)) l) (vrSwapchains g).
Proof. unfold update_swapchain. destruct (vrSwapchains g) eqn:E; [reflexivity|now rewrite E]. Qed.

Lemma update_view_pool i u g : vrSwapchains (update_view i u g) = vrSwapchains g.
Proof. unfold update_view. destruct (xrViews g); reflexivity. Qed.

Lemma store_store {A} (i : nat) (v w : A) (l : list A) :
  store i w (store i v l) = store i w l.
Proof.
  revert i; induction l as [|a l IH]; intros [|i]; cbn; try reflexivity.
  now rewrite IH.
Qed.

Lemma nth_store {A} (i : nat) (v d : A) (l : list A) :
  nth i (store i v l) d = if i <? length l then v else d.
Proof.
  revert i; induction l as [|a l IH]; intros [|i]; cbn [store nth length]; try reflexivity.
  rewrite IH. reflexivity.
Qed.

Lemma CreateSwapchains_view_pool env cfgs i g :
  vrSwapchains (state_of (CreateSwapchains_view env cfgs i g))
  = option_map (fun l => store i (view_entry env cfgs i (nth i l VRSwapchain_zero)) l)
               (vrSwapchains g)
  /\ value_of (CreateSwapchains_view env cfgs i g) = view_fails env i.
Proof.
  unfold CreateSwapchains_view, view_entry, view_fails. run.
  destruct (XR_FAILED (create_result _)); run.
  - split; [|reflexivity].
    rewrite update_swapchain_pool, update_view_pool. reflexivity.
  - split; [|reflexivity].
    destruct (XR_FAILED (enumerate_result _)); run;
      rewrite !update_swapchain_pool, update_view_pool;
      destruct (vrSwapchains g) as [l|]; cbn [option_map]; try reflexivity;
      rewrite ?store_store, ?nth_store;
      destruct (i <? length l) eqn:Hi; rewrite ?store_length, ?Hi; cbn;
      try reflexivity.
    all: apply Nat.ltb_ge in Hi.
    all: assert (Hst : forall v, store i v l = l)
           by (clear - Hi; revert i Hi; induction l as [|a l IH]; intros [|i] Hi v;
               cbn in *; try reflexivity; try lia; f_equal; apply IH; lia).
    all: rewrite !Hst; reflexivity.
Qed.

Lemma CreateSwapchains_loop_pool env cfgs views g :
  vrSwapchains (state_of (CreateSwapchains_loop env cfgs views g))
  = option_map (loop_pool env cfgs views) (vrSwapchains g)
  /\ value_of (CreateSwapchains_loop env cfgs views g) = existsb (view_fails env) views.
Proof.
  revert g. induction views as [|i rest IH]; intros g.
  - cbn. split; [now destruct (vrSwapchains g)|reflexivity].
  - cbn [CreateSwapchains_loop loop_pool existsb]. run.
    destruct (CreateSwapchains_view_pool env cfgs i g) as [Hp Hv]. rewrite Hv.
    destruct (view_fails env i); run; cbn [orb].
    + split; [|reflexivity]. rewrite Hp. now destruct (vrSwapchains g).
    + destruct (IH (state_of (CreateSwapchains_view env cfgs i g))) as [Hp' Hv'].
      split; [|exact Hv']. rewrite Hp', Hp. now destruct (vrSwapchains g).
Qed.

(** When both view enumerations succeed, the pool array after
    [CreateSwapchains] is a fresh array filled by the loop: it does not
    depend on the array there was before, and the view count is the one the
    second enumeration reported. *)
Lemma CreateSwapchains_pool env g :
  XR_FAILED (count_result env) = false ->
  XR_FAILED (fill_result env) = false ->
  vrSwapchains (state_of (CreateSwapchains env g))
  = Some (loop_pool env (fill_viewConfigs env) (seq 0 (fill_viewCount env))
            (repeat VRSwapchain_zero (fill_viewCount env)))
  /\ viewCount (state_of (CreateSwapchains env g)) = fill_viewCount env
  /\ (existsb (view_fails env) (seq 0 (fill_viewCount env)) = true ->
      value_of (CreateSwapchains env g) = 1%Z).
Proof.
  intros Hc Hf. unfold CreateSwapchains. run. rewrite Hc. run. rewrite Hf. run.
  cbn [viewCount set_viewCount set_vrSwapchains set_xrViews].
  match goal with
  | |- context [CreateSwapchains_loop ?e ?c ?l ?g0] =>
      destruct (CreateSwapchains_loop_pool e c l g0) as [Hp Hv];
      pose proof (CreateSwapchains_loop_preserves viewCount
                    ltac:(reflexivity) ltac:(reflexivity) e c l g0) as Hn;
      set (L := CreateSwapchains_loop e c l g0) in *
  end.
  cbn in Hp, Hn. rewrite Hv.
  destruct (existsb _ _); run.
  - repeat split; assumption.
  - destruct (_ && _); run; [|repeat split; try assumption; discriminate].
    match goal with
    | |- context [CreatePipeline ?e ?c ?g0] =>
        pose proof (CreatePipeline_preserves vrSwapchains ltac:(reflexivity) e c g0) as Hp1;
        pose proof (CreatePipeline_preserves viewCount ltac:(reflexivity) e c g0) as Hn1;
        set (P := CreatePipeline e c g0) in *
    end.
    destruct (negb (value_of P =? 0)%Z); run;
      [repeat split; try congruence; discriminate|].
    match goal with
    | |- context [CreateCubeBuffers ?e ?g0] =>
        pose proof (CreateCubeBuffers_preserves vrSwapchains
                      ltac:(reflexivity) ltac:(reflexivity) e g0) as Hp2;
        pose proof (CreateCubeBuffers_preserves viewCount
                      ltac:(reflexivity) ltac:(reflexivity) e g0) as Hn2;
        set (Bf := CreateCubeBuffers e g0) in *
    end.
    destruct (negb (value_of Bf =? 0)%Z); run; repeat split; try congruence; discriminate.
Qed.

Lemma CreateSwapchains_first_call env g :
  exists t, trace_of (CreateSwapchains env g)
            = xrEnumerateViewConfigurationViews 0 (count_result env) :: t.
Proof.
  unfold CreateSwapchains. run. eexists. reflexivity.
Qed.

Lemma handle_event_ready e g :
  ready_begun e = true ->
  handle_event e g
  = (tt,
     (let g1 := state_of (CreateSwapchains (createSwapchains_env e)
                            (set_xrSessionRunning true g)) in
      if negb (value_of (CreateSwapchains (createSwapchains_env e)
                           (set_xrSessionRunning true g)) =? 0)%Z
      then set_xrShouldQuit true g1 else g1),
     xrBeginSession (beginSession_result e)
       :: trace_of (CreateSwapchains (createSwapchains_env e)
                      (set_xrSessionRunning true g))).
Proof.
  unfold ready_begun, handle_event. intros H.
  destruct (event e) as [[]| |]; try discriminate. rewrite H.
  apply run_ext; run.
  - now destruct (value_of _).
  - destruct (negb _); run; reflexivity.
  - destruct (negb _); run; reflexivity.
Qed.

Lemma handle_event_not_ready e g :
  ready_begun e = false ->
  Forall (fun c => is_pool_setup_call c = false) (trace_of (handle_event e g))
  /\ vrSwapchains (state_of (handle_event e g)) = vrSwapchains g
  /\ viewCount (state_of (handle_event e g)) = viewCount g.
Proof.
  unfold ready_begun, handle_event. intros H.
  destruct (event e) as [[]| |]; rewrite ?H; run;
    (split; [repeat constructor|split; reflexivity]).
Qed.

Lemma count_creation_of_setup t :
  Forall (fun c => is_pool_setup_call c = false) t -> count is_creation_call t = 0.
Proof.
  intros H. apply count_none. eapply Forall_impl; [|exact H].
  intros [] Hc; try discriminate; reflexivity.
Qed.

(** Pool creation is run exactly when the handler meets a session-state
    change to READY whose session-begin call succeeds, whether or not a pool
    exists: the handler's trace is then the session-begin call followed by
    the whole of [CreateSwapchains], and once both view enumerations succeed
    the pool array is a freshly filled one that owes nothing to the array
    there was before.  Any other event, and the frame half of any tick, makes
    no creation call and leaves the pool array and the view count as they
    were. *)
Lemma pool_created_on_every_ready (e : EventEnv) (g : Globals) :
  let r := handle_event e g in
  let env := createSwapchains_env e in
  (if ready_begun e then
     trace_of r = xrBeginSession (beginSession_result e)
                  :: trace_of (CreateSwapchains env (set_xrSessionRunning true g))
     /\ 1 <= count is_creation_call (trace_of r)
     /\ (XR_FAILED (count_result env) = false -> XR_FAILED (fill_result env) = false ->
         forall g', vrSwapchains (state_of r)
                    = vrSwapchains (state_of (CreateSwapchains env g')))
   else
     count is_creation_call (trace_of r) = 0
     /\ vrSwapchains (state_of r) = vrSwapchains g
     /\ viewCount (state_of r) = viewCount g)
  /\ forall fenv,
       count is_creation_call (trace_of (RenderFrame fenv g)) = 0
       /\ vrSwapchains (state_of (RenderFrame fenv g)) = vrSwapchains g
       /\ viewCount (state_of (RenderFrame fenv g)) = viewCount g.
Proof.
  cbv zeta. split.
  - destruct (ready_begun e) eqn:Hr.
    + rewrite (handle_event_ready e g Hr). cbn [state_of trace_of fst snd].
      split; [reflexivity|]. split.
      * destruct (CreateSwapchains_first_call (createSwapchains_env e)
                    (set_xrSessionRunning true g)) as (t & ->).
        rewrite !count_cons. cbn [is_creation_call]. lia.
      * intros Hc Hf g'.
        destruct (CreateSwapchains_pool (createSwapchains_env e) g' Hc Hf) as (-> & _).
        destruct (CreateSwapchains_pool (createSwapchains_env e)
                    (set_xrSessionRunning true g) Hc Hf) as (Hp & _).
        destruct (negb _); cbn [vrSwapchains set_xrShouldQuit]; exact Hp.
    + destruct (handle_event_not_ready e g Hr) as (Ht & Hp & Hn).
      split; [now apply count_creation_of_setup|]. split; assumption.
  - intros fenv. split; [|apply RenderFrame_pool].
    pose proof (RenderFrame_trace_form fenv g) as H.
    destruct (xrSessionRunning g).
    + destruct H as (t & -> & Ht). rewrite count_cons. cbn [is_creation_call].
      apply count_creation_of_setup. eapply Forall_impl; [|exact Ht]. now intros c [].
    + rewrite H. reflexivity.
Qed.

(** The calls the second READY of the scenario below makes, with a pool
    already in place. *)
Example second_ready_trace :
  trace_of (handle_event Scenario.second_ready
              (state_of (HandleXREvents Scenario.first_round Scenario.start)))
  = [ xrBeginSession 0%Z;
      xrEnumerateViewConfigurationViews 0 0%Z;
      xrEnumerateViewConfigurationViews 2 0%Z;
      SDL_CreateGPUXRSwapchain 0 0%Z 30%N;
      xrEnumerateSwapchainImages 30%N 0%Z;
      SDL_CreateGPUXRSwapchain 1 0%Z 40%N;
      xrEnumerateSwapchainImages 40%N 0%Z ].
Proof. reflexivity. Qed.

(** No event handler destroys a swapchain. *)
Lemma handle_event_no_destroy e g :
  count is_destroy (trace_of (handle_event e g)) = 0.
Proof.
  apply count_none.
  destruct (ready_begun e) eqn:Hr.
  - rewrite (handle_event_ready e g Hr). cbn [trace_of snd].
    constructor; [reflexivity|].
    eapply Forall_impl; [|apply CreateSwapchains_calls].
    intros [] H; try discriminate; reflexivity.
  - unfold ready_begun in Hr. unfold handle_event.
    destruct (event e) as [[]| |]; rewrite ?Hr; run; repeat constructor.
Qed.

(** C7. The events IDLE, READY, SYNCHRONIZED, STOPPING, IDLE, READY, a valid
    sequence, handled from the initial state and followed by [Cleanup].
    When the second READY arrives, a pool of two swapchains (handles 10 and
    20) and the pipeline exist.  The handler runs pool creation again: six
    creation calls and no destroy call, the pipeline creation alone being
    skipped since the pipeline exists; the pool array now holds the handles
    30 and 40.  Of the four swapchains created, [Cleanup] destroys 30 and 40
    only: 10 and 20 are never destroyed. *)
Theorem second_ready_creates_second_pool :
  let events := Scenario.first_round ++ [Scenario.second_ready] in
  let g1 := state_of (HandleXREvents Scenario.first_round Scenario.start) in
  let r := handle_event Scenario.second_ready g1 in
  let g2 := state_of (HandleXREvents events Scenario.start) in
  let whole := trace_of (HandleXREvents events Scenario.start) ++ trace_of (Cleanup g2) in
  lifecycle_valid XR_SESSION_STATE_UNKNOWN (map event events) = true
  /\ map swapchain (pool g1) = [10%N; 20%N]
  /\ is_null (pipeline g1) = false
  /\ count is_creation_call (trace_of r) = 6
  /\ count is_destroy (trace_of r) = 0
  /\ count is_create_pipeline (trace_of (HandleXREvents Scenario.first_round Scenario.start)) = 1
  /\ count is_create_pipeline (trace_of r) = 0
  /\ map swapchain (pool (state_of r)) = [30%N; 40%N]
  /\ map swapchain (pool g2) = [30%N; 40%N]
  /\ vrSwapchains (state_of r) <> vrSwapchains g1
  /\ created_handles whole = [10%N; 20%N; 30%N; 40%N]
  /\ destroyed_handles whole = [30%N; 40%N].
Proof.
  cbv zeta.
  do 9 (split; [reflexivity|]).
  split; [|split; reflexivity].
  intros H. apply (f_equal (fun p => match p with
                                     | Some l => map swapchain l
                                     | None => []
                                     end)) in H.
  discriminate H.
Qed.

(** ** A pool creation that fails at view [k] *)

Lemma loop_pool_length env cfgs views l :
  length (loop_pool env cfgs views l) = length l.
Proof.
  revert l; induction views as [|i rest IH]; intros l; cbn [loop_pool]; [reflexivity|].
  destruct (view_fails env i); [|rewrite IH]; apply store_length.
Qed.

Lemma loop_pool_first_failure env cfgs n : forall a k l,
  a <= k < a + n -> a + n <= length l ->
  (forall i, a <= i < k -> view_fails env i = false) ->
  view_fails env k = true ->
  existsb (view_fails env) (seq a n) = true
  /\ (forall j, j < a \/ k < j ->
        nth j (loop_pool env cfgs (seq a n) l) VRSwapchain_zero = nth j l VRSwapchain_zero)
  /\ (forall j, a <= j <= k ->
        nth j (loop_pool env cfgs (seq a n) l) VRSwapchain_zero
        = view_entry env cfgs j (nth j l VRSwapchain_zero)).
Proof.
  induction n as [|n IH]; intros a k l Hk Hlen Hok Hfail; [lia|].
  cbn [seq loop_pool existsb].
  destruct (Nat.eq_dec a k) as [->|Hne].
  - rewrite Hfail. cbn [orb]. split; [reflexivity|]. split.
    + intros j Hj. apply nth_store_other. lia.
    + intros j Hj. assert (j = k) as -> by lia. apply nth_store_same. lia.
  - rewrite (Hok a) by lia. cbn [orb].
    set (l' := store a (view_entry env cfgs a (nth a l VRSwapchain_zero)) l).
    destruct (IH (S a) k l') as (He & Hout & Hin); try assumption; try lia.
    + unfold l'. rewrite store_length. lia.
    + intros i Hi. apply Hok. lia.
    + split; [exact He|]. split.
      * intros j Hj. rewrite Hout by lia. apply nth_store_other. lia.
      * intros j Hj. destruct (Nat.eq_dec j a) as [->|Hja].
        -- rewrite Hout by lia. apply nth_store_same. lia.
        -- rewrite Hin by lia. f_equal. apply nth_store_other. lia.
Qed.

Lemma view_entry_swapchain env cfgs i old :
  swapchain (view_entry env cfgs i old)
  = create_swapchain (nth i (per_view env) SwapchainEnv_default).
Proof. unfold view_entry. now destruct (XR_FAILED _). Qed.

(** The creation calls of the loop: one per view up to the first failure. *)
Lemma CreateSwapchains_view_create env cfgs j g i :
  count (is_create_swapchain i) (trace_of (CreateSwapchains_view env cfgs j g))
  = if Nat.eqb i j then 1 else 0.
Proof.
  unfold CreateSwapchains_view. run.
  destruct (XR_FAILED (create_result _)); run;
    [|destruct (XR_FAILED (enumerate_result _)); run];
    rewrite ?count_cons, ?count_nil; cbn [is_create_swapchain];
    destruct (Nat.eqb i j); reflexivity.
Qed.

Lemma CreateSwapchains_loop_create env cfgs n : forall a k g i,
  a <= k < a + n ->
  (forall j, a <= j < k -> view_fails env j = false) ->
  view_fails env k = true ->
  count (is_create_swapchain i) (trace_of (CreateSwapchains_loop env cfgs (seq a n) g))
  = if (a <=? i) && (i <=? k) then 1 else 0.
Proof.
  induction n as [|n IH]; intros a k g i Hk Hok Hfail; [lia|].
  cbn [seq CreateSwapchains_loop]. run.
  rewrite count_app, CreateSwapchains_view_create.
  rewrite (proj2 (CreateSwapchains_view_pool env cfgs a g)).
  destruct (Nat.eq_dec a k) as [->|Hne].
  - rewrite Hfail. run. rewrite count_nil.
    destruct (Nat.eqb_spec i k), (Nat.leb_spec k i), (Nat.leb_spec i k); cbn [andb]; lia.
  - rewrite (Hok a) by lia.
    rewrite (IH (S a) k) by (try assumption; try lia; intros j Hj; apply Hok; lia).
    destruct (Nat.eqb_spec i a), (Nat.leb_spec (S a) i), (Nat.leb_spec a i),
      (Nat.leb_spec i k); cbn [andb]; lia.
Qed.

Lemma CreateSwapchains_create env g k i :
  XR_FAILED (count_result env) = false ->
  XR_FAILED (fill_result env) = false ->
  k < fill_viewCount env ->
  (forall j, j < k -> view_fails env j = false) ->
  view_fails env k = true ->
  count (is_create_swapchain i) (trace_of (CreateSwapchains env g))
  = if i <=? k then 1 else 0.
Proof.
  intros Hc Hf Hk Hok Hfail. unfold CreateSwapchains. run. rewrite Hc. run.
  rewrite Hf. run. cbn [viewCount set_viewCount set_vrSwapchains set_xrViews].
  rewrite !count_cons, count_app. cbn [is_create_swapchain].
  rewrite (CreateSwapchains_loop_create env _ (fill_viewCount env) 0 k)
    by (try assumption; try lia; intros j Hj; apply Hok; lia).
  rewrite (proj2 (CreateSwapchains_loop_pool env _ _ _)).
  rewrite (proj1 (loop_pool_first_failure env (fill_viewConfigs env) (fill_viewCount env) 0 k
                    (repeat VRSwapchain_zero (fill_viewCount env))
                    ltac:(lia) ltac:(rewrite repeat_length; lia)
                    ltac:(intros; apply Hok; lia) Hfail)).
  run. rewrite count_nil. cbn [Nat.leb andb]. lia.
Qed.

(** ** Shutdown *)

Lemma for_each_trace {A} (body : A -> M unit) (l : list A) (g : Globals) :
  (forall a g', state_of (body a g') = g') ->
  trace_of (for_each l body g) = flat_map (fun a => trace_of (body a g)) l.
Proof.
  intros Hbody. induction l as [|a l IH]; [reflexivity|].
  cbn [for_each flat_map]. run. now rewrite Hbody, IH.
Qed.

Lemma flat_map_of_map {A B C} (f : A -> B) (h : B -> list C) (l : list A) :
  flat_map h (map f l) = flat_map (fun a => h (f a)) l.
Proof. induction l as [|a l IH]; [reflexivity|]. cbn. now rewrite IH. Qed.

Lemma Cleanup_trace g :
  trace_of (Cleanup g)
  = match vrSwapchains g with
    | Some l => destroy_calls (map (fun i => swapchain (nth i l VRSwapchain_zero))
                                   (seq 0 (viewCount g)))
    | None => []
    end.
Proof.
  unfold Cleanup. run.
  cbn [vrSwapchains viewCount set_pipeline set_vertexBuffer set_indexBuffer].
  destruct (vrSwapchains g) as [l|] eqn:Hl; run; [|reflexivity].
  rewrite for_each_trace by (intros a g'; run; destruct (negb _); reflexivity).
  unfold destroy_calls. rewrite flat_map_of_map.
  apply flat_map_ext. intros i. run.
  unfold vrSwapchains_at, pool.
  cbn [vrSwapchains set_pipeline set_vertexBuffer set_indexBuffer]. rewrite Hl.
  destruct (is_null _); reflexivity.
Qed.

Lemma destroy_calls_app l1 l2 :
  destroy_calls (l1 ++ l2) = destroy_calls l1 ++ destroy_calls l2.
Proof. unfold destroy_calls. apply flat_map_app. Qed.

Lemma destroy_calls_null l :
  Forall (fun h => h = XR_NULL_HANDLE) l -> destroy_calls l = [].
Proof.
  induction 1 as [|h l -> _ IH]; [reflexivity|]. exact IH.
Qed.

(** ** Quitting *)

Lemma handle_event_keeps_quit e g :
  xrShouldQuit g = true -> xrShouldQuit (state_of (handle_event e g)) = true.
Proof.
  intros Hq. destruct (ready_begun e) eqn:Hr.
  - rewrite (handle_event_ready e g Hr). cbn [state_of fst snd].
    destruct (negb _); [reflexivity|].
    now rewrite CreateSwapchains_xrShouldQuit.
  - unfold ready_begun in Hr. unfold handle_event.
    destruct (event e) as [[]| |]; rewrite ?Hr; run; try assumption; reflexivity.
Qed.

Lemma HandleXREvents_keeps_quit polled g :
  xrShouldQuit g = true -> xrShouldQuit (state_of (HandleXREvents polled g)) = true.
Proof.
  unfold HandleXREvents. revert g.
  induction polled as [|e l IH]; intros g Hq; [exact Hq|].
  cbn [for_each]. run. apply IH. now apply handle_event_keeps_quit.
Qed.

(** C5. When pool creation, run for a READY event whose session-begin
    succeeded, fails at view [k] after the views before it succeeded: no
    swapchain is requested for a later view; the session state machine sets
    the should-quit flag, and the events handled after it in the same batch
    leave it set, so that once the frame routine of that iteration has
    returned (its image reads being inside the image arrays) the main loop
    makes no further iteration; the pool array is not discarded but stays in
    place, holding the swapchains created for the views up to [k] and zeroed
    entries after it; and [Cleanup], run on a state that holds this array,
    destroys every non-null handle those creation calls returned. *)
Theorem failed_pool_creation_quits (e : EventEnv) (g : Globals) (k : nat) :
  let env := createSwapchains_env e in
  let answer i := nth i (per_view env) SwapchainEnv_default in
  ready_begun e = true ->
  XR_FAILED (count_result env) = false ->
  XR_FAILED (fill_result env) = false ->
  k < fill_viewCount env ->
  (forall i, i < k -> view_fails env i = false) ->
  view_fails env k = true ->
  let r := handle_event e g in
  let g' := state_of r in
  xrShouldQuit g' = true
  /\ viewCount g' = fill_viewCount env
  /\ (exists l, vrSwapchains g' = Some l
                /\ length l = fill_viewCount env
                /\ (forall i, i <= k ->
                      swapchain (nth i l VRSwapchain_zero) = create_swapchain (answer i))
                /\ (forall i, k < i -> nth i l VRSwapchain_zero = VRSwapchain_zero))
  /\ (forall i, count (is_create_swapchain i) (trace_of r) = if i <=? k then 1 else 0)
  /\ (forall post fenv ticks,
        let g1 := state_of (HandleXREvents post g') in
        xrShouldQuit g1 = true
        /\ (frame_reads_in_bounds fenv g1 = true ->
            let g2 := state_of (RenderFrame fenv g1) in
            main_loop ticks g2 = (tt, g2, [])))
  /\ (forall g2, vrSwapchains g2 = vrSwapchains g' -> viewCount g2 = viewCount g' ->
        trace_of (Cleanup g2)
        = destroy_calls (map (fun i => create_swapchain (answer i)) (seq 0 (S k)))).
Proof.
  intros env answer Hready Hc Hf Hk Hok Hfail r g'.
  subst r g'. rewrite (handle_event_ready e g Hready). cbn [state_of trace_of fst snd].
  fold env.
  set (g1 := set_xrSessionRunning true g).
  destruct (CreateSwapchains_pool env g1 Hc Hf) as (Hp & Hn & Hv).
  destruct (loop_pool_first_failure env (fill_viewConfigs env) (fill_viewCount env) 0 k
              (repeat VRSwapchain_zero (fill_viewCount env)))
    as (He & Hout & Hin); try assumption; try lia.
  { rewrite repeat_length. lia. }
  { intros i Hi. apply Hok. lia. }
  rewrite (Hv He). cbn [Z.eqb negb].
  set (l := loop_pool env (fill_viewConfigs env) (seq 0 (fill_viewCount env))
              (repeat VRSwapchain_zero (fill_viewCount env))) in *.
  assert (Hlen : length l = fill_viewCount env)
    by (unfold l; rewrite loop_pool_length; apply repeat_length).
  assert (Hhead : forall i, i <= k ->
            swapchain (nth i l VRSwapchain_zero) = create_swapchain (answer i)).
  { intros i Hi. rewrite Hin by lia. apply view_entry_swapchain. }
  assert (Htail : forall i, k < i -> nth i l VRSwapchain_zero = VRSwapchain_zero).
  { intros i Hi. rewrite Hout by lia. apply nth_repeat. }
  split; [reflexivity|]. split; [exact Hn|]. split; [|split; [|split]].
  - exists l. repeat split; assumption.
  - intros i. rewrite count_cons. cbn [is_create_swapchain].
    now rewrite (CreateSwapchains_create env g1 k i).
  - intros post fenv ticks. cbv zeta.
    assert (Hq : xrShouldQuit
                   (state_of (HandleXREvents post
                      (set_xrShouldQuit true (state_of (CreateSwapchains env g1))))) = true)
      by (now apply HandleXREvents_keeps_quit).
    split; [exact Hq|]. intros _.
    apply main_loop_quit. now rewrite RenderFrame_xrShouldQuit.
  - intros g2 Hpool Hcount.
    rewrite Cleanup_trace, Hpool, Hcount.
    cbn [vrSwapchains viewCount set_xrShouldQuit].
    rewrite Hp, Hn.
    replace (fill_viewCount env) with (S k + (fill_viewCount env - S k)) by lia.
    rewrite seq_app, map_app, destroy_calls_app.
    rewrite (destroy_calls_null (map _ (seq (0 + S k) _))).
    + rewrite app_nil_r. f_equal. apply map_ext_in.
      intros i Hi. apply in_seq in Hi. apply Hhead. lia.
    + apply Forall_map, Forall_forall. intros i Hi. apply in_seq in Hi.
      rewrite Htail by lia. reflexivity.
Qed.

(** The calls of the scenario below: the second creation call fails and no
    further call is made. *)
Example failing_ready_trace :
  trace_of (handle_event Scenario.failing_ready Scenario.start)
  = [ xrBeginSession 0%Z;
      xrEnumerateViewConfigurationViews 0 0%Z;
      xrEnumerateViewConfigurationViews 2 0%Z;
      SDL_CreateGPUXRSwapchain 0 0%Z 10%N;
      xrEnumerateSwapchainImages 10%N 0%Z;
      SDL_CreateGPUXRSwapchain 1 (-2)%Z 0%N ].
Proof. reflexivity. Qed.

(** On the first READY of a session, with two views and the second view's
    swapchain failing, the should-quit flag is set but the pool is not
    discarded: the array is kept, with the first view's swapchain (handle 10)
    in it and the view count at two, and the running flag is set.  The frame
    routine called next, answered by a runtime that refuses to acquire on the
    null swapchain of the second view, is not a no-op: it goes through
    wait-frame, acquires an image of the first view and renders into it. *)
Lemma partial_pool_is_retained :
  let g' := state_of (handle_event Scenario.failing_ready Scenario.start) in
  let fenv := Scenario.frame_right_eye_fails in
  xrShouldQuit g' = true
  /\ vrSwapchains g' <> None
  /\ map swapchain (pool g') = [10%N; 0%N]
  /\ viewCount g' = 2
  /\ xrSessionRunning g' = true
  /\ frame_reads_in_bounds fenv g' = true
  /\ RenderFrame fenv g' <> (tt, g', [])
  /\ count (is_acquire 0) (trace_of (RenderFrame fenv g')) = 1
  /\ count is_begin_pass (trace_of (RenderFrame fenv g')) = 1.
Proof.
  cbv zeta.
  split; [reflexivity|]. split; [discriminate|]. split; [reflexivity|].
  split; [reflexivity|]. split; [reflexivity|]. split; [reflexivity|].
  set (g' := state_of (handle_event Scenario.failing_ready Scenario.start)).
  assert (Hrun : xrSessionRunning g' = true) by reflexivity.
  assert (Hpool : pool_exists g' = true) by reflexivity.
  rewrite (RenderFrame_cases Scenario.frame_right_eye_fails g'); cbv zeta.
  rewrite Hrun, Hpool. cbn [negb andb Scenario.frame_right_eye_fails waitFrame_result
    beginFrame_result locateViews_result waitFrame_frameState shouldRender XR_FAILED
    XR_SUCCESS Z.ltb Z.compare].
  split; [discriminate|].
  cbn [trace_of snd]. rewrite !count_cons, !count_app. cbn [is_acquire is_begin_pass].
  rewrite (count_flat_map_seq _ _ 0 1 0 _ (view_trace_acquire _ _ 0)).
  rewrite after_locate_viewCount. split; [reflexivity|].
  replace (viewCount g') with 2 by reflexivity. cbn [seq flat_map].
  rewrite !count_app, !view_trace_shape; cbv zeta.
  reflexivity.
Qed.

(** ** The theorems at concrete inputs *)

(** C2 on three ticks of a session that is readied and synchronised. *)
Lemma session_begin_end_discipline_witness :
  lifecycle_valid XR_SESSION_STATE_UNKNOWN (events_of Scenario.three_ticks) = true
  /\ session_discipline false false
       (trace_of (main_loop Scenario.three_ticks (initial_globals 1%N))) = true.
Proof.
  split; [reflexivity|].
  exact (proj1 (session_begin_end_discipline Scenario.three_ticks 1%N eq_refl)).
Defined.

(** C3 on three ticks whose wait-frame fails, in a running session. *)
Lemma wait_or_begin_failure_aborts_tick_witness :
  let fails := [Scenario.frame_wait_fails; Scenario.frame_wait_fails;
                Scenario.frame_wait_fails] in
  xrSessionRunning Scenario.running = true
  /\ xrShouldQuit Scenario.running = false
  /\ Forall (fun f => XR_FAILED (waitFrame_result f) = true) fails
  /\ XR_FAILED (waitFrame_result Scenario.frame_ok) = false
  /\ XR_FAILED (beginFrame_result Scenario.frame_ok) = false
  /\ count is_xrBeginFrame
       (trace_of (main_loop (map frame_tick fails) Scenario.running)) = 0
  /\ count is_xrEndFrame
       (trace_of (main_loop (map frame_tick fails) Scenario.running)) = 0.
Proof.
  cbv zeta.
  assert (Hall : Forall (fun f => XR_FAILED (waitFrame_result f) = true)
                   [Scenario.frame_wait_fails; Scenario.frame_wait_fails;
                    Scenario.frame_wait_fails])
    by (repeat constructor).
  repeat (split; [first [reflexivity | assumption]|]).
  pose proof (wait_or_begin_failure_aborts_tick _ Scenario.frame_ok Scenario.running
                eq_refl eq_refl Hall eq_refl eq_refl) as (_ & _ & (_ & _ & Hb & He) & _).
  split; assumption.
Defined.

(** C4 on a tick whose view-locate call fails. *)
Lemma end_frame_after_begin_witness :
  xrSessionRunning Scenario.running = true
  /\ XR_FAILED (waitFrame_result Scenario.frame_locate_fails) = false
  /\ XR_FAILED (beginFrame_result Scenario.frame_locate_fails) = false
  /\ count is_xrEndFrame
       (trace_of (RenderFrame Scenario.frame_locate_fails Scenario.running)) = 1.
Proof.
  repeat (split; [reflexivity|]).
  exact (proj1 (end_frame_after_begin Scenario.frame_locate_fails Scenario.running
                  eq_refl eq_refl eq_refl)).
Defined.

(** C6 on a tick whose first view fails to acquire: the second view is still
    acquired. *)
Lemma view_failure_is_per_view_witness :
  xrSessionRunning Scenario.running = true
  /\ XR_FAILED (waitFrame_result Scenario.frame_left_eye_fails) = false
  /\ XR_FAILED (beginFrame_result Scenario.frame_left_eye_fails) = false
  /\ shouldRender (waitFrame_frameState Scenario.frame_left_eye_fails) = true
  /\ pool_exists Scenario.running = true
  /\ XR_FAILED (locateViews_result Scenario.frame_left_eye_fails) = false
  /\ count (is_acquire 1)
       (trace_of (RenderFrame Scenario.frame_left_eye_fails Scenario.running)) = 1.
Proof.
  repeat (split; [reflexivity|]).
  exact (proj1 (view_failure_is_per_view Scenario.frame_left_eye_fails Scenario.running
                  eq_refl eq_refl eq_refl eq_refl eq_refl eq_refl) 1 (le_n 2)).
Defined.

(** C5 on a creation that fails at the second of two views, followed by a
    frame whose second view fails to acquire. *)
Lemma failed_pool_creation_quits_witness :
  let env := createSwapchains_env Scenario.failing_ready in
  let g' := state_of (handle_event Scenario.failing_ready Scenario.start) in
  let g2 := state_of (RenderFrame Scenario.frame_right_eye_fails g') in
  ready_begun Scenario.failing_ready = true
  /\ XR_FAILED (count_result env) = false
  /\ XR_FAILED (fill_result env) = false
  /\ 1 < fill_viewCount env
  /\ (forall i, i < 1 -> view_fails env i = false)
  /\ view_fails env 1 = true
  /\ xrShouldQuit g' = true
  /\ frame_reads_in_bounds Scenario.frame_right_eye_fails g' = true
  /\ main_loop Scenario.three_ticks g2 = (tt, g2, [])
  /\ trace_of (Cleanup g2) = [SDL_DestroyGPUXRSwapchain 10%N].
Proof.
  cbv zeta.
  assert (Hok : forall i, i < 1 ->
                  view_fails (createSwapchains_env Scenario.failing_ready) i = false).
  { intros i Hi. assert (i = 0) as -> by lia. reflexivity. }
  split; [reflexivity|]. split; [reflexivity|]. split; [reflexivity|].
  split; [exact (le_n 2)|]. split; [exact Hok|]. split; [reflexivity|].
  destruct (failed_pool_creation_quits Scenario.failing_ready Scenario.start 1
              eq_refl eq_refl eq_refl (le_n 2) Hok eq_refl)
    as (Hq & _ & _ & _ & Hloop & Hclean).
  split; [exact Hq|]. split; [reflexivity|]. split.
  - exact (proj2 (Hloop [] Scenario.frame_right_eye_fails Scenario.three_ticks) eq_refl).
  - exact (Hclean _ (proj1 (RenderFrame_pool _ _)) (proj2 (RenderFrame_pool _ _))).
Defined.

(** ** Further properties of the transform library *)

Local Open Scope R_scope.

Lemma Mat4_Multiply_entries (a b : Mat4) :
  Mat4_Multiply a b
  = mkMat4
      [ 0 + a.[0]*b.[0] + a.[1]*b.[4] + a.[2]*b.[8] + a.[3]*b.[12];
        0 + a.[0]*b.[1] + a.[1]*b.[5] + a.[2]*b.[9] + a.[3]*b.[13];
        0 + a.[0]*b.[2] + a.[1]*b.[6] + a.[2]*b.[10] + a.[3]*b.[14];
        0 + a.[0]*b.[3] + a.[1]*b.[7] + a.[2]*b.[11] + a.[3]*b.[15];
        0 + a.[4]*b.[0] + a.[5]*b.[4] + a.[6]*b.[8] + a.[7]*b.[12];
        0 + a.[4]*b.[1] + a.[5]*b.[5] + a.[6]*b.[9] + a.[7]*b.[13];
        0 + a.[4]*b.[2] + a.[5]*b.[6] + a.[6]*b.[10] + a.[7]*b.[14];
        0 + a.[4]*b.[3] + a.[5]*b.[7] + a.[6]*b.[11] + a.[7]*b.[15];
        0 + a.[8]*b.[0] + a.[9]*b.[4] + a.[10]*b.[8] + a.[11]*b.[12];
        0 + a.[8]*b.[1] + a.[9]*b.[5] + a.[10]*b.[9] + a.[11]*b.[13];
        0 + a.[8]*b.[2] + a.[9]*b.[6] + a.[10]*b.[10] + a.[11]*b.[14];
        0 + a.[8]*b.[3] + a.[9]*b.[7] + a.[10]*b.[11] + a.[11]*b.[15];
        0 + a.[12]*b.[0] + a.[13]*b.[4] + a.[14]*b.[8] + a.[15]*b.[12];
        0 + a.[12]*b.[1] + a.[13]*b.[5] + a.[14]*b.[9] + a.[15]*b.[13];
        0 + a.[12]*b.[2] + a.[13]*b.[6] + a.[14]*b.[10] + a.[15]*b.[14];
        0 + a.[12]*b.[3] + a.[13]*b.[7] + a.[14]*b.[11] + a.[15]*b.[15] ].
Proof.
  cbv [Mat4_Multiply Mat4_Multiply_entry flat_map map seq fold_left app Nat.mul Nat.add].
  reflexivity.
Qed.

(** Names the entries of the matrices that are variables, so that unfolding
    the entry access only acts on the explicit arrays. *)
Ltac name_entries :=
  repeat match goal with
         | |- context [at_ ?a ?i] =>
             is_var a; let v := fresh "e" in set (v := at_ a i) in *
         end.

(** Two explicit arrays of sixteen ring expressions are equal. *)
Ltac mat4_ring :=
  name_entries; cbv [at_ m nth]; apply f_equal;
  repeat (apply f_equal2; [ring|]); reflexivity.


Lemma Mat4_mul_identity (a : Mat4) :
  length (m a) = 16%nat ->
  Mat4_Multiply Mat4_Identity a = a /\ Mat4_Multiply a Mat4_Identity = a.
Proof.
  destruct a as [l]. cbn [m]. intros H.
  do 16 (destruct l as [|? l]; [discriminate H|]).
  destruct l; [|discriminate H].
  rewrite !Mat4_Multiply_entries. unfold Mat4_Identity.
  split; cbv [at_ m nth]; apply f_equal;
    repeat (apply f_equal2; [ring|]); reflexivity.
Qed.

(** X2. [Mat4_Identity] is a left and right unit of [Mat4_Multiply] on every
    matrix of sixteen entries. *)
Theorem Mat4_Multiply_identity (a : Mat4) :
  length (m a) = 16%nat ->
  Mat4_Multiply Mat4_Identity a = a /\ Mat4_Multiply a Mat4_Identity = a.
Proof. apply Mat4_mul_identity. Qed.

Lemma Mat4_Multiply_identity_witness :
  length (m (Mat4_Translation 1 2 3)) = 16%nat
  /\ Mat4_Multiply Mat4_Identity (Mat4_Translation 1 2 3) = Mat4_Translation 1 2 3.
Proof.
  split; [reflexivity|].
  exact (proj1 (Mat4_Multiply_identity (Mat4_Translation 1 2 3) eq_refl)).
Defined.

Lemma Mat4_Multiply_length (a b : Mat4) : length (m (Mat4_Multiply a b)) = 16%nat.
Proof. rewrite Mat4_Multiply_entries. reflexivity. Qed.

(** X3. The matrix builders compose as the transformations they stand for: two
    translations multiply to the translation by the sum of the offsets, two
    uniform scales to the scale by the product; and the rotation by zero,
    the scale by one and the translation by zero are the identity. *)
Theorem transform_builders_compose (a b : R) (u v : Vec3) :
  Mat4_Multiply (Mat4_Translation u.(x) u.(y) u.(z)) (Mat4_Translation v.(x) v.(y) v.(z))
  = Mat4_Translation (u.(x) + v.(x)) (u.(y) + v.(y)) (u.(z) + v.(z))
  /\ Mat4_Multiply (Mat4_Scale a) (Mat4_Scale b) = Mat4_Scale (a * b)
  /\ Mat4_RotationY 0 = Mat4_Identity /\ Mat4_RotationX 0 = Mat4_Identity
  /\ Mat4_Scale 1 = Mat4_Identity /\ Mat4_Translation 0 0 0 = Mat4_Identity.
Proof.
  rewrite !Mat4_Multiply_entries.
  unfold Mat4_RotationY, Mat4_RotationX, Mat4_Translation, Mat4_Scale, Mat4_Identity.
  rewrite cos_0, sin_0.
  repeat split; try mat4_ring.
  all: cbv [at_ m nth]; apply f_equal; repeat (apply f_equal2; [ring|]); reflexivity.
Qed.







Local Close Scope R_scope.

(** ** Further properties of the main loop *)

Lemma main_tick_run (t : TickEnv) (g : Globals) :
  let g0 := if sdl_quit t then set_xrShouldQuit true g else g in
  let g1 := state_of (HandleXREvents (xr_events t) g0) in
  main_tick t g
  = (tt, state_of (RenderFrame (frame_env t) g1),
     trace_of (HandleXREvents (xr_events t) g0) ++ trace_of (RenderFrame (frame_env t) g1)).
Proof.
  cbv zeta. rewrite (unit_run (main_tick t g)). unfold main_tick.
  run. destruct (sdl_quit t); run; reflexivity.
Qed.

(** Every call of the event handler is a session or pool call. *)
Lemma handle_event_calls e g :
  Forall (fun c => frame_step Outside c = Some Outside /\ image_step Free c = Some Free)
         (trace_of (handle_event e g)).
Proof.
  assert (Hsetup : forall t, Forall (fun c => is_setup_call c = true) t ->
            Forall (fun c => frame_step Outside c = Some Outside
                             /\ image_step Free c = Some Free) t).
  { intros t. apply Forall_impl. intros [] H; try discriminate; split; reflexivity. }
  destruct (ready_begun e) eqn:Hr.
  - rewrite (handle_event_ready e g Hr). cbn [trace_of snd].
    constructor; [split; reflexivity|]. apply Hsetup, CreateSwapchains_calls.
  - unfold ready_begun in Hr. unfold handle_event.
    destruct (event e) as [[]| |]; rewrite ?Hr; run; repeat constructor.
Qed.

Lemma HandleXREvents_calls polled g :
  Forall (fun c => frame_step Outside c = Some Outside /\ image_step Free c = Some Free)
         (trace_of (HandleXREvents polled g)).
Proof.
  unfold HandleXREvents. revert g.
  induction polled as [|e l IH]; intros g; cbn [for_each]; run; [constructor|].
  apply Forall_app. split; [apply handle_event_calls|apply IH].
Qed.

Lemma frame_discipline_app s t1 t2 :
  frame_discipline s (t1 ++ t2)
  = match frame_discipline s t1 with
    | Some s' => frame_discipline s' t2
    | None => None
    end.
Proof.
  revert s; induction t1 as [|c t1 IH]; intros s; cbn; [reflexivity|].
  destruct (frame_step s c); [apply IH|reflexivity].
Qed.

Lemma frame_discipline_stays s t :
  Forall (fun c => frame_step s c = Some s) t -> frame_discipline s t = Some s.
Proof.
  induction 1 as [|c t Hc _ IH]; [reflexivity|]. cbn. now rewrite Hc.
Qed.

Lemma image_discipline_stays t :
  Forall (fun c => image_step Free c = Some Free) t -> image_discipline Free t = Some Free.
Proof.
  induction 1 as [|c t Hc _ IH]; [reflexivity|]. cbn. now rewrite Hc.
Qed.

Lemma views_in_frame env g l :
  Forall (fun c => frame_step Begun c = Some Begun) (flat_map (view_trace env g) l).
Proof.
  induction l as [|i l IH]; [constructor|].
  cbn [flat_map]. apply Forall_app. split; [|exact IH].
  rewrite view_trace_shape; cbv zeta.
  constructor; [reflexivity|].
  destruct (XR_FAILED (acquire_result _)); [constructor|].
  constructor; [reflexivity|].
  destruct (XR_FAILED (waitImage_result _)); [repeat constructor|].
  constructor; [reflexivity|].
  apply Forall_app. split; [|repeat constructor].
  eapply Forall_impl; [|apply draw_cubes_trace].
  intros [] H; try discriminate. reflexivity.
Qed.

Lemma RenderFrame_frame_discipline env g :
  frame_discipline Outside (trace_of (RenderFrame env g)) = Some Outside.
Proof.
  tick_cases env g; cbn [frame_discipline frame_step]; rewrite ?Hwait, ?Hbegin;
    try reflexivity.
  rewrite frame_discipline_app, (frame_discipline_stays Begun) by apply views_in_frame.
  reflexivity.
Qed.

Lemma RenderFrame_end_count env g :
  count is_xrEndFrame (trace_of (RenderFrame env g))
  = count is_xrBeginFrame_ok (trace_of (RenderFrame env g)).
Proof.
  tick_cases env g; rewrite ?count_cons, ?count_app, ?count_nil;
    cbn [is_xrEndFrame is_xrBeginFrame_ok]; rewrite ?Hbegin; try reflexivity.
  rewrite !count_views_none by (intros j; count_view).
  reflexivity.
Qed.

(** A trace of session and pool calls has no frame or swapchain-image call. *)
Lemma count_between_frames p t :
  (forall c, frame_step Outside c = Some Outside -> p c = false) ->
  Forall (fun c => frame_step Outside c = Some Outside /\ image_step Free c = Some Free) t ->
  count p t = 0.
Proof.
  intros Hp H. apply count_none. eapply Forall_impl; [|exact H].
  intros c [Hc _]. now apply Hp.
Qed.

Lemma between_frames_no_end c :
  frame_step Outside c = Some Outside -> is_xrEndFrame c = false.
Proof. destruct c; try reflexivity; discriminate. Qed.

Lemma between_frames_no_begin c :
  frame_step Outside c = Some Outside -> is_xrBeginFrame_ok c = false.
Proof. destruct c; try reflexivity; discriminate. Qed.

(** X6. The frame protocol holds along the whole main loop: wait-frame is only
    called between frames, begin-frame only after a successful wait-frame,
    view location, swapchain-image calls and render passes only inside a
    begun frame, session and pool creation calls only between frames, and a
    command buffer is submitted inside a begun frame or, for the upload of
    the cube buffers, between frames, never between a wait-frame and its
    begin-frame; every begun frame is ended, so the trace has as many
    end-frame calls as successful begin-frame calls. *)
Theorem main_loop_frame_discipline (ticks : list TickEnv) (g : Globals) :
  let t := trace_of (main_loop ticks g) in
  frame_discipline Outside t = Some Outside
  /\ count is_xrEndFrame t = count is_xrBeginFrame_ok t.
Proof.
  cbv zeta. revert g. induction ticks as [|tk ticks IH]; intros g; [split; reflexivity|].
  destruct (xrShouldQuit g) eqn:Hq.
  - rewrite main_loop_quit by assumption. split; reflexivity.
  - rewrite main_loop_cons by assumption. cbn [trace_of snd].
    rewrite (main_tick_run tk g); cbv zeta. cbn [state_of trace_of fst snd].
    set (g0 := if sdl_quit tk then set_xrShouldQuit true g else g).
    set (g1 := state_of (HandleXREvents (xr_events tk) g0)).
    destruct (IH (state_of (RenderFrame (frame_env tk) g1))) as [IH1 IH2].
    pose proof (HandleXREvents_calls (xr_events tk) g0) as Hev.
    split.
    + rewrite !frame_discipline_app.
      rewrite (frame_discipline_stays Outside)
        by (eapply Forall_impl; [|exact Hev]; now intros c []).
      rewrite RenderFrame_frame_discipline. exact IH1.
    + rewrite !count_app, IH2, RenderFrame_end_count.
      rewrite (count_between_frames is_xrEndFrame _ between_frames_no_end Hev).
      rewrite (count_between_frames is_xrBeginFrame_ok _ between_frames_no_begin Hev).
      reflexivity.
Qed.

(** One tick: the image discipline and the release count, from the case
    analysis of the tick. *)
Lemma loop_acquires_released (env : FrameEnv) (g : Globals) :
  image_discipline Free (trace_of (RenderFrame env g)) = Some Free
  /\ forall i, count (is_release i) (trace_of (RenderFrame env g))
               = count (is_acquire_ok i) (trace_of (RenderFrame env g)).
Proof.
  split.
  - tick_cases env g; try reflexivity.
    cbn [image_discipline image_step].
    rewrite image_discipline_app, image_discipline_views. reflexivity.
  - intros i. tick_cases env g; try reflexivity.
    count_simpl.
    rewrite (count_flat_map_seq _ _ i _ 0 _ (view_trace_release env _ i)).
    rewrite (count_flat_map_seq _ _ i _ 0 _ (view_trace_acquire_ok env _ i)).
    reflexivity.
Qed.

Lemma free_calls_no_release i c :
  image_step Free c = Some Free -> is_release i c = false.
Proof. destruct c; try reflexivity; discriminate. Qed.

Lemma session_calls_no_acquire i c :
  frame_step Outside c = Some Outside -> is_acquire_ok i c = false.
Proof. destruct c; try reflexivity; discriminate. Qed.

(** X7. The swapchain-image discipline holds along the whole main loop, whatever
    events arrive between the frames: an image acquired on a swapchain is
    waited for and released on that same swapchain before the next acquire
    and before the frame ends, no image is held when a tick ends, and for
    every view the trace has as many release calls as successful acquires;
    and in every tick of the loop the swapchain-image calls of the frame are
    made on the swapchains the pool holds for their views when the frame
    routine is entered, also after an event of that tick has replaced the
    pool. *)
Theorem main_loop_image_discipline (ticks : list TickEnv) (g : Globals) :
  let t := trace_of (main_loop ticks g) in
  image_discipline Free t = Some Free
  /\ (forall i, count (is_release i) t = count (is_acquire_ok i) t)
  /\ (forall pre tk post, ticks = pre ++ tk :: post ->
       let g0 := state_of (main_loop pre g) in
       let g1 := state_of (HandleXREvents (xr_events tk)
                             (if sdl_quit tk then set_xrShouldQuit true g0 else g0)) in
       Forall (fun c => on_view_swapchain g1 c = true)
              (trace_of (RenderFrame (frame_env tk) g1))).
Proof.
  cbv zeta. split; [|split]; [| |intros; apply RenderFrame_on_pool].
  all: revert g; induction ticks as [|tk ticks IH]; intros g; [reflexivity|].
  all: destruct (xrShouldQuit g) eqn:Hq;
    [rewrite main_loop_quit by assumption; reflexivity|].
  all: rewrite main_loop_cons by assumption; cbn [trace_of snd].
  all: rewrite (main_tick_run tk g); cbv zeta; cbn [state_of trace_of fst snd].
  all: set (g0 := if sdl_quit tk then set_xrShouldQuit true g else g).
  all: set (g1 := state_of (HandleXREvents (xr_events tk) g0)).
  all: pose proof (HandleXREvents_calls (xr_events tk) g0) as Hev.
  all: destruct (loop_acquires_released (frame_env tk) g1) as [Hd Hc].
  - rewrite !image_discipline_app.
    rewrite image_discipline_stays
      by (eapply Forall_impl; [|exact Hev]; now intros c []).
    rewrite Hd. apply IH.
  - intros i. rewrite !count_app, IH, Hc.
    rewrite (count_none (is_release i) (trace_of (HandleXREvents (xr_events tk) g0)))
      by (eapply Forall_impl; [|exact Hev]; intros c [_ H];
          now apply free_calls_no_release).
    rewrite (count_none (is_acquire_ok i) (trace_of (HandleXREvents (xr_events tk) g0)))
      by (eapply Forall_impl; [|exact Hev]; intros c [H _];
          now apply session_calls_no_acquire).
    reflexivity.
Qed.

(** ** Further properties of the frame orchestrator *)







(** X9. The frame routine writes nothing but the animation clock and the array of
    located views: the session flags, the pool, the view count and the GPU
    resources are left as they were, so a frame can neither stop the session
    nor ask the process to quit. *)
Theorem RenderFrame_only_writes_clock_and_views (env : FrameEnv) (g : Globals) :
  let g' := state_of (RenderFrame env g) in
  xrLocalSpace g' = xrLocalSpace g
  /\ xrSessionRunning g' = xrSessionRunning g
  /\ xrShouldQuit g' = xrShouldQuit g
  /\ vrSwapchains g' = vrSwapchains g
  /\ viewCount g' = viewCount g
  /\ pipeline g' = pipeline g
  /\ vertexBuffer g' = vertexBuffer g
  /\ indexBuffer g' = indexBuffer g.
Proof.
  cbv zeta. destruct (RenderFrame_state env g) as [-> | ->].
  - repeat split.
  - unfold after_locate. cbn. destruct (xrViews g); repeat split.
Qed.

(** ** Quitting *)

Lemma handle_event_quits e g :
  is_quit_event e = true -> handle_event e g = (tt, set_xrShouldQuit true g, []).
Proof.
  unfold is_quit_event, handle_event.
  destruct (event e) as [[]| |]; try discriminate; reflexivity.
Qed.

Lemma HandleXREvents_quits polled g :
  (exists e, In e polled /\ is_quit_event e = true) ->
  xrShouldQuit (state_of (HandleXREvents polled g)) = true.
Proof.
  unfold HandleXREvents. revert g.
  induction polled as [|e l IH]; intros g (e' & Hin & He'); [contradiction|].
  cbn [for_each]. run. destruct Hin as [->|Hin].
  - apply (HandleXREvents_keeps_quit l). now rewrite handle_event_quits.
  - apply IH. now exists e'.
Qed.

(** X10. A quit request, whether [SDL_EVENT_QUIT] or a compositor event that asks
    to quit, takes effect at the next loop test: the tick in which it arrives
    still handles its remaining events and runs its frame, the flag stays set
    through both, and no later tick is run. *)
Theorem quit_request_ends_loop (t : TickEnv) (rest : list TickEnv) (g : Globals) :
  xrShouldQuit g = false ->
  sdl_quit t = true \/ (exists e, In e (xr_events t) /\ is_quit_event e = true) ->
  xrShouldQuit (state_of (main_tick t g)) = true
  /\ main_loop (t :: rest) g = main_tick t g.
Proof.
  intros Hq Hreq.
  assert (Hset : xrShouldQuit (state_of (main_tick t g)) = true).
  { rewrite (main_tick_run t g); cbv zeta. cbn [state_of fst snd].
    rewrite RenderFrame_xrShouldQuit.
    destruct Hreq as [Hs|He].
    - rewrite Hs. now apply HandleXREvents_keeps_quit.
    - now apply HandleXREvents_quits. }
  split; [exact Hset|].
  rewrite main_loop_cons by assumption.
  rewrite (main_loop_quit rest _ Hset). cbn [state_of trace_of fst snd].
  rewrite app_nil_r. symmetry. apply unit_run.
Qed.

Lemma quit_request_ends_loop_witness :
  let t := mkTickEnv true [] Scenario.frame_ok in
  xrShouldQuit Scenario.running = false
  /\ (sdl_quit t = true \/ (exists e, In e (xr_events t) /\ is_quit_event e = true))
  /\ main_loop [t; frame_tick Scenario.frame_ok] Scenario.running
     = main_tick t Scenario.running.
Proof.
  cbv zeta. split; [reflexivity|]. split; [left; reflexivity|].
  exact (proj2 (quit_request_ends_loop (mkTickEnv true [] Scenario.frame_ok)
                  [frame_tick Scenario.frame_ok] Scenario.running
                  eq_refl (or_introl eq_refl))).
Defined.

(** ** The animation clock over a run of frames *)

Lemma RenderFrame_keeps_session (env : FrameEnv) (g : Globals) :
  xrSessionRunning (state_of (RenderFrame env g)) = xrSessionRunning g
  /\ xrShouldQuit (state_of (RenderFrame env g)) = xrShouldQuit g
  /\ pool_exists (state_of (RenderFrame env g)) = pool_exists g.
Proof.
  split; [apply RenderFrame_xrSessionRunning|]. split; [apply RenderFrame_xrShouldQuit|].
  unfold pool_exists. destruct (RenderFrame_pool env g) as [-> ->]. reflexivity.
Qed.

Lemma main_loop_frames_session (fs : list FrameEnv) (g : Globals) :
  let g' := state_of (main_loop (map frame_tick fs) g) in
  xrSessionRunning g' = xrSessionRunning g
  /\ xrShouldQuit g' = xrShouldQuit g
  /\ pool_exists g' = pool_exists g.
Proof.
  cbv zeta. revert g. induction fs as [|f fs IH]; intros g; [repeat split|].
  cbn [map]. destruct (xrShouldQuit g) eqn:Hq.
  - rewrite main_loop_quit by assumption. cbn [state_of fst snd]. now rewrite Hq.
  - rewrite main_loop_cons by assumption. cbn [state_of fst snd].
    rewrite main_tick_frame.
    destruct (RenderFrame_keeps_session f g) as (Hr & Hq' & Hp).
    destruct (IH (state_of (RenderFrame f g))) as (-> & -> & ->).
    rewrite Hr, Hq', Hp, Hq. repeat split.
Qed.

Lemma main_loop_frames_animTime (fs : list FrameEnv) (g : Globals) :
  xrSessionRunning g = true -> xrShouldQuit g = false -> pool_exists g = true ->
  animTime (state_of (main_loop (map frame_tick fs) g))
  = Nat.iter (length (filter frame_renders fs))
             (fun a => F32.fadd a F32.anim_step) (animTime g).
Proof.
  revert g. induction fs as [|f fs IH]; intros g Hrun Hquit Hpool.
  - reflexivity.
  - cbn [map]. rewrite main_loop_cons by assumption. cbn [state_of fst snd].
    rewrite main_tick_frame.
    destruct (RenderFrame_keeps_session f g) as (Hr & Hq & Hp).
    rewrite IH by congruence.
    rewrite RenderFrame_animTime. unfold clock_advances. rewrite Hrun, Hpool.
    rewrite andb_true_r. cbn [andb filter]. fold (frame_renders f).
    destruct (frame_renders f); cbn [length].
    + rewrite Nat.iter_succ_r. reflexivity.
    + reflexivity.
Qed.

(** X11. In a running session with a pool, over any run of ticks that deliver no
    event, the animation clock ends at the value obtained from its initial
    value by one rounded [float] addition of [0.011f] for every tick whose
    wait-frame and begin-frame succeeded with the should-render flag set, in
    order; the other ticks contribute nothing. *)
Theorem clock_after_frames (fs : list FrameEnv) (g : Globals) :
  xrSessionRunning g = true -> xrShouldQuit g = false -> pool_exists g = true ->
  animTime (state_of (main_loop (map frame_tick fs) g))
  = Nat.iter (length (filter frame_renders fs))
             (fun a => F32.fadd a F32.anim_step) (animTime g).
Proof. apply main_loop_frames_animTime. Qed.

Lemma clock_after_frames_witness :
  let fs := [Scenario.frame_ok; Scenario.frame_wait_fails; Scenario.frame_ok] in
  xrSessionRunning Scenario.running = true
  /\ xrShouldQuit Scenario.running = false
  /\ pool_exists Scenario.running = true
  /\ animTime (state_of (main_loop (map frame_tick fs) Scenario.running))
     = SpecFloat.S754_finite false 11811160 (-29).
Proof.
  cbv zeta. repeat (split; [reflexivity|]).
  rewrite (clock_after_frames
             [Scenario.frame_ok; Scenario.frame_wait_fails; Scenario.frame_ok]
             Scenario.running eq_refl eq_refl eq_refl).
  vm_compute. reflexivity.
Defined.

(** The clock is not advanced by [0.011] on every tick that meets the
    conditions.  With the clock at [262144.0f], a tick in which wait-frame
    and begin-frame succeed, the frame is to be rendered and the pool exists
    leaves the clock at [262144.0f]: the sum with [0.011f] rounds back to
    it, and the clock is not advanced at all.  And on the thirteenth rendered
    frame of a session, with the clock at [12 * 0.011f], the rounded sum
    differs from the clock plus [0.011f], and from the clock plus [0.011]. *)
Lemma saturated_clock_is_not_advanced :
  let t := frame_tick Scenario.frame_ok in
  XR_FAILED (waitFrame_result (frame_env t)) = false
  /\ XR_FAILED (beginFrame_result (frame_env t)) = false
  /\ shouldRender (waitFrame_frameState (frame_env t)) = true
  /\ (let g := Scenario.running_late in
      let g' := state_of (main_tick t g) in
      animTime g = F32.of_Z 262144
      /\ xrSessionRunning g = true
      /\ pool_exists g = true
      /\ animTime g' = animTime g
      /\ (F32.to_R (animTime g') <> F32.to_R (animTime g) + 0.011)%R)
  /\ (let g := state_of (main_loop (map frame_tick (repeat Scenario.frame_ok 12))
                           Scenario.running) in
      let g' := state_of (main_tick t g) in
      xrSessionRunning g = true
      /\ pool_exists g = true
      /\ animTime g = SpecFloat.S754_finite false 8858370 (-26)
      /\ animTime g' = SpecFloat.S754_finite false 9596568 (-26)
      /\ (F32.to_R (animTime g') <> F32.to_R (animTime g) + F32.to_R F32.anim_step)%R
      /\ (F32.to_R (animTime g') <> F32.to_R (animTime g) + 0.011)%R).
Proof.
  cbv zeta.
  do 3 (split; [reflexivity|]). split.
  - assert (H : animTime (state_of (main_tick (frame_tick Scenario.frame_ok)
                                      Scenario.running_late))
                = animTime Scenario.running_late).
    { rewrite main_tick_frame, RenderFrame_animTime. vm_compute. reflexivity. }
    do 3 (split; [vm_compute; reflexivity|]).
    split; [exact H|]. rewrite H. intros E. lra.
  - set (fs := repeat Scenario.frame_ok 12).
    destruct (main_loop_frames_session fs Scenario.running) as (Hr & Hq & Hp).
    cbv zeta in Hr, Hq, Hp.
    assert (H12 : animTime (state_of (main_loop (map frame_tick fs) Scenario.running))
                  = SpecFloat.S754_finite false 8858370 (-26)).
    { unfold fs. rewrite main_loop_frames_animTime by reflexivity.
      vm_compute. reflexivity. }
    assert (H13 : animTime (state_of (main_tick (frame_tick Scenario.frame_ok)
                     (state_of (main_loop (map frame_tick fs) Scenario.running))))
                  = SpecFloat.S754_finite false 9596568 (-26)).
    { rewrite main_tick_frame, RenderFrame_animTime. unfold clock_advances.
      rewrite Hr, Hp, H12. vm_compute. reflexivity. }
    split; [rewrite Hr; reflexivity|]. split; [rewrite Hp; reflexivity|].
    split; [exact H12|]. split; [exact H13|].
    rewrite H12, H13.
    replace F32.anim_step with (SpecFloat.S754_finite false 11811160 (-30))
      by (vm_compute; reflexivity).
    unfold F32.to_R. cbn [powerRZ].
    replace (Pos.to_nat 26) with 26 by reflexivity.
    replace (Pos.to_nat 30) with 30 by reflexivity.
    cbn [pow]. split; intros E; lra.
Qed.

(** ** Further properties of pool creation *)

Lemma CreatePipeline_run env fmt g :
  CreatePipeline env fmt g
  = if negb (shaders_loaded env) then (1%Z, g, [])
    else ((if is_null (created_pipeline env) then 1%Z else 0%Z),
          set_pipeline (created_pipeline env) g,
          [SDL_CreateGPUGraphicsPipeline (created_pipeline env)]).
Proof.
  unfold CreatePipeline. destruct (negb (shaders_loaded env)); [reflexivity|].
  apply run_ext; run; cbn [pipeline set_pipeline];
    destruct (is_null (created_pipeline env)); reflexivity.
Qed.

Lemma CreateCubeBuffers_run env g :
  CreateCubeBuffers env g
  = ((if is_null (created_vertexBuffer env) || is_null (created_indexBuffer env)
      then 1%Z else 0%Z),
     set_indexBuffer (created_indexBuffer env)
       (set_vertexBuffer (created_vertexBuffer env) g),
     SDL_CreateGPUBuffer (created_vertexBuffer env)
     :: SDL_CreateGPUBuffer (created_indexBuffer env)
     :: (if is_null (created_vertexBuffer env) || is_null (created_indexBuffer env)
         then [] else [SDL_SubmitGPUCommandBuffer])).
Proof.
  unfold CreateCubeBuffers.
  apply run_ext; run; cbn [vertexBuffer indexBuffer set_indexBuffer set_vertexBuffer];
    destruct (_ || _); reflexivity.
Qed.

(** The state and trace of [CreateSwapchains] once both enumerations have
    succeeded, in terms of the loop. *)
Lemma CreateSwapchains_run env g :
  XR_FAILED (count_result env) = false ->
  XR_FAILED (fill_result env) = false ->
  let g0 := set_xrViews (Some (repeat XrView_zero (fill_viewCount env)))
              (set_vrSwapchains (Some (repeat VRSwapchain_zero (fill_viewCount env)))
                 (set_viewCount (fill_viewCount env)
                    (set_viewCount (count_viewCount env) g))) in
  let L := CreateSwapchains_loop env (fill_viewConfigs env)
             (seq 0 (fill_viewCount env)) g0 in
  let g1 := state_of L in
  let head := [ xrEnumerateViewConfigurationViews 0 (count_result env);
                xrEnumerateViewConfigurationViews (count_viewCount env) (fill_result env) ] in
  CreateSwapchains env g
  = if value_of L then (1%Z, g1, head ++ trace_of L)
    else if (0 <? viewCount g1) && is_null (pipeline g1) then
      let P := CreatePipeline env (format (vrSwapchains_at g1 0)) g1 in
      if negb (value_of P =? 0)%Z then (1%Z, state_of P, head ++ trace_of L ++ trace_of P)
      else
        let B := CreateCubeBuffers env (state_of P) in
        ((if negb (value_of B =? 0)%Z then 1%Z else 0%Z), state_of B,
         head ++ trace_of L ++ trace_of P ++ trace_of B)
    else (0%Z, g1, head ++ trace_of L).
Proof.
  intros Hc Hf. cbv zeta. unfold CreateSwapchains.
  rewrite (run_eta (bind _ _ _)). run. rewrite Hc. run. rewrite Hf. run.
  cbn [viewCount set_viewCount set_vrSwapchains set_xrViews].
  match goal with
  | |- context [CreateSwapchains_loop ?e ?c ?l ?g0] =>
      set (L := CreateSwapchains_loop e c l g0)
  end.
  destruct (value_of L); run; [reflexivity|].
  destruct (_ && _); run; [|reflexivity].
  match goal with
  | |- context [CreatePipeline ?e ?c ?g0] => set (P := CreatePipeline e c g0)
  end.
  destruct (negb (value_of P =? 0)%Z); run; [reflexivity|].
  match goal with
  | |- context [CreateCubeBuffers ?e ?g0] => set (B := CreateCubeBuffers e g0)
  end.
  destruct (negb (value_of B =? 0)%Z); run; reflexivity.
Qed.

Lemma CreateSwapchains_loop_keeps env cfgs l g :
  viewCount (state_of (CreateSwapchains_loop env cfgs l g)) = viewCount g
  /\ pipeline (state_of (CreateSwapchains_loop env cfgs l g)) = pipeline g
  /\ vertexBuffer (state_of (CreateSwapchains_loop env cfgs l g)) = vertexBuffer g
  /\ indexBuffer (state_of (CreateSwapchains_loop env cfgs l g)) = indexBuffer g.
Proof.
  repeat split; apply CreateSwapchains_loop_preserves; reflexivity.
Qed.

Lemma CreateSwapchains_value (env : CreateSwapchainsEnv) (g : Globals) :
  value_of (CreateSwapchains env g) = if creation_succeeds env g then 0%Z else 1%Z.
Proof.
  unfold creation_succeeds, creates_resources.
  destruct (XR_FAILED (count_result env)) eqn:Hc.
  { unfold CreateSwapchains. run. rewrite Hc. run. reflexivity. }
  destruct (XR_FAILED (fill_result env)) eqn:Hf.
  { unfold CreateSwapchains. run. rewrite Hc. run. rewrite Hf. run. reflexivity. }
  rewrite (CreateSwapchains_run env g Hc Hf); cbv zeta. cbn [negb andb].
  match goal with
  | |- context [CreateSwapchains_loop ?e ?c ?l ?g0] =>
      destruct (CreateSwapchains_loop_pool e c l g0) as [_ Hv];
      destruct (CreateSwapchains_loop_keeps e c l g0) as (Hn & Hp & _);
      set (L := CreateSwapchains_loop e c l g0) in *
  end.
  cbn [viewCount pipeline set_viewCount set_vrSwapchains set_xrViews] in Hn, Hp.
  rewrite Hv. destruct (existsb _ _); cbn [negb value_of fst]; [reflexivity|].
  rewrite Hn, Hp.
  destruct ((0 <? fill_viewCount env) && is_null (pipeline g)); [|reflexivity].
  rewrite CreatePipeline_run.
  destruct (shaders_loaded env); cbn [negb andb value_of state_of fst snd]; [|reflexivity].
  destruct (is_null (created_pipeline env)); cbn [negb andb Z.eqb value_of fst];
    [reflexivity|].
  rewrite CreateCubeBuffers_run. cbn [value_of fst].
  destruct (is_null (created_vertexBuffer env)), (is_null (created_indexBuffer env));
    reflexivity.
Qed.

(** X12. The return value of [CreateSwapchains] is [0] when every test it makes
    came out well (both view enumerations, the swapchain of every view and,
    when they get created, the shaders, the pipeline and both buffers), and
    [1] otherwise; a failed image enumeration does not make it fail. *)
Theorem CreateSwapchains_return_value (env : CreateSwapchainsEnv) (g : Globals) :
  value_of (CreateSwapchains env g) = if creation_succeeds env g then 0%Z else 1%Z.
Proof. apply CreateSwapchains_value. Qed.

Lemma loop_pool_untouched env cfgs n : forall a l j,
  j < a \/ a + n <= j ->
  nth j (loop_pool env cfgs (seq a n) l) VRSwapchain_zero = nth j l VRSwapchain_zero.
Proof.
  induction n as [|n IH]; intros a l j Hj; [reflexivity|].
  cbn [seq loop_pool]. destruct (view_fails env a).
  - apply nth_store_other. lia.
  - rewrite IH by lia. apply nth_store_other. lia.
Qed.

Lemma loop_pool_no_failure env cfgs n : forall a l j,
  existsb (view_fails env) (seq a n) = false ->
  a + n <= length l -> a <= j < a + n ->
  nth j (loop_pool env cfgs (seq a n) l) VRSwapchain_zero
  = view_entry env cfgs j (nth j l VRSwapchain_zero).
Proof.
  induction n as [|n IH]; intros a l j He Hlen Hj; [lia|].
  cbn [seq loop_pool existsb] in *. apply orb_false_iff in He. destruct He as [Ha He].
  rewrite Ha. destruct (Nat.eq_dec j a) as [->|Hne].
  - rewrite loop_pool_untouched by lia. apply nth_store_same. lia.
  - rewrite IH; try assumption; try lia.
    + f_equal. apply nth_store_other. lia.
    + rewrite store_length. lia.
Qed.

Lemma to_int32_small (n : N) : (n < 2 ^ 31)%N -> to_int32 n = Z.of_N n.
Proof.
  intros H. unfold to_int32.
  assert (0 <= Z.of_N n < 2 ^ 31)%Z.
  { split; [apply N2Z.is_nonneg|]. change (2 ^ 31)%Z with (Z.of_N (2 ^ 31)). lia. }
  rewrite Z.mod_small; lia.
Qed.

(** X13. After a successful [CreateSwapchains] the pool has one entry per view the
    runtime reported, each holding what the runtime stored for that view, the
    recommended size of the view (unchanged by the cast while below [2^31])
    and the reported image count, or [3] when the image-count query failed;
    and when this call had to create the pipeline and the cube buffers, all
    three exist afterwards, so the draw loop is enabled. *)
Theorem successful_creation_pool (env : CreateSwapchainsEnv) (g : Globals) :
  creation_succeeds env g = true ->
  let g' := state_of (CreateSwapchains env g) in
  let n := fill_viewCount env in
  viewCount g' = n
  /\ (exists l,
        vrSwapchains g' = Some l /\ length l = n
        /\ forall i, i < n ->
             let a := nth i (per_view env) SwapchainEnv_default in
             let cfg := nth i (fill_viewConfigs env) XrViewConfigurationView_zero in
             nth i l VRSwapchain_zero
             = mkVRSwapchain (create_swapchain a) (create_images a)
                 (mkExtent (to_int32 (recommendedImageRectWidth cfg))
                           (to_int32 (recommendedImageRectHeight cfg)))
                 (create_format a)
                 (if XR_FAILED (enumerate_result a) then 3 else enumerate_imageCount a))
  /\ (forall w, (w < 2 ^ 31)%N -> to_int32 w = Z.of_N w)
  /\ (creates_resources env g = true -> can_draw g' = true).
Proof.
  unfold creation_succeeds. intros H. cbv zeta.
  apply andb_true_iff in H. destruct H as [H Hres].
  apply andb_true_iff in H. destruct H as [H Hviews].
  apply andb_true_iff in H. destruct H as [Hc Hf].
  apply negb_true_iff in Hc, Hf, Hviews.
  destruct (CreateSwapchains_pool env g Hc Hf) as (Hp & Hn & _).
  split; [exact Hn|]. split; [|split; [exact to_int32_small|]].
  - eexists. split; [exact Hp|]. split.
    + rewrite loop_pool_length. apply repeat_length.
    + intros i Hi. cbv zeta.
      rewrite loop_pool_no_failure; try assumption; try lia.
      * rewrite nth_repeat. unfold view_entry.
        assert (Hi' : view_fails env i = false).
        { rewrite <- not_true_iff_false. intros Hv.
          assert (existsb (view_fails env) (seq 0 (fill_viewCount env)) = true).
          { apply existsb_exists. exists i. split; [apply in_seq; lia|exact Hv]. }
          congruence. }
        unfold view_fails in Hi'. rewrite Hi'. reflexivity.
      * rewrite repeat_length. lia.
  - intros Hcr. rewrite Hcr in Hres.
    apply andb_true_iff in Hres. destruct Hres as [Hres Hib].
    apply andb_true_iff in Hres. destruct Hres as [Hres Hvb].
    apply andb_true_iff in Hres. destruct Hres as [Hsh Hpl].
    apply negb_true_iff in Hib, Hvb, Hpl.
    unfold creates_resources in Hcr.
    rewrite (CreateSwapchains_run env g Hc Hf); cbv zeta.
    match goal with
    | |- context [CreateSwapchains_loop ?e ?c ?l ?g0] =>
        destruct (CreateSwapchains_loop_pool e c l g0) as [_ Hv];
        destruct (CreateSwapchains_loop_keeps e c l g0) as (Hn' & Hp' & _);
        set (L := CreateSwapchains_loop e c l g0) in *
    end.
    cbn [viewCount pipeline set_viewCount set_vrSwapchains set_xrViews] in Hn', Hp'.
    rewrite Hv, Hviews, Hn', Hp', Hcr, CreatePipeline_run, Hsh.
    cbn [negb value_of state_of fst snd]. rewrite Hpl. cbn [Z.eqb negb].
    rewrite CreateCubeBuffers_run. rewrite Hvb, Hib.
    cbn [orb Z.eqb negb value_of state_of fst snd].
    unfold can_draw.
    cbn [pipeline vertexBuffer indexBuffer set_indexBuffer set_vertexBuffer set_pipeline].
    now rewrite Hpl, Hvb, Hib.
Qed.

Lemma successful_creation_pool_witness :
  creation_succeeds (Scenario.both_ok 10%N) Scenario.start = true
  /\ viewCount (state_of (CreateSwapchains (Scenario.both_ok 10%N) Scenario.start)) = 2.
Proof.
  split; [reflexivity|].
  exact (proj1 (successful_creation_pool (Scenario.both_ok 10%N) Scenario.start eq_refl)).
Defined.

(** ** Shutdown after pool creation *)

Lemma destroyed_of_destroy_calls hs :
  destroyed_handles (destroy_calls hs) = filter (fun h => negb (is_null h)) hs.
Proof.
  induction hs as [|h hs IH]; [reflexivity|].
  unfold destroyed_handles, destroy_calls in *. cbn [flat_map filter].
  rewrite flat_map_app, IH. now destruct (is_null h).
Qed.

Lemma created_handles_app t1 t2 :
  created_handles (t1 ++ t2) = created_handles t1 ++ created_handles t2.
Proof. apply flat_map_app. Qed.

Lemma CreateSwapchains_view_created env cfgs i g :
  created_handles (trace_of (CreateSwapchains_view env cfgs i g))
  = [create_swapchain (nth i (per_view env) SwapchainEnv_default)].
Proof.
  unfold CreateSwapchains_view. run.
  destruct (XR_FAILED (create_result _)); run;
    [|destruct (XR_FAILED (enumerate_result _)); run]; reflexivity.
Qed.

Lemma CreatePipeline_created env fmt g :
  created_handles (trace_of (CreatePipeline env fmt g)) = [].
Proof. rewrite CreatePipeline_run. now destruct (negb (shaders_loaded env)). Qed.

Lemma filter_all_null {A} (f : A -> handle) (l : list A) :
  (forall i, In i l -> f i = XR_NULL_HANDLE) ->
  filter (fun h => negb (is_null h)) (map f l) = [].
Proof.
  induction l as [|a l IH]; intros H; [reflexivity|].
  cbn [map filter]. rewrite (H a) by (left; reflexivity).
  cbn. apply IH. intros i Hi. apply H. now right.
Qed.

(** The non-null handles in the part [a .. a+n-1] of the pool after the loop
    are the non-null handles its creation calls returned. *)
Lemma loop_handles env cfgs n : forall a l g,
  a + n <= length l ->
  (forall j, a <= j -> swapchain (nth j l VRSwapchain_zero) = XR_NULL_HANDLE) ->
  filter (fun h => negb (is_null h))
    (map (fun i => swapchain (nth i (loop_pool env cfgs (seq a n) l) VRSwapchain_zero))
         (seq a n))
  = filter (fun h => negb (is_null h))
      (created_handles (trace_of (CreateSwapchains_loop env cfgs (seq a n) g))).
Proof.
  induction n as [|n IH]; intros a l g Hlen Hnull; [reflexivity|].
  cbn [seq CreateSwapchains_loop loop_pool map]. run.
  rewrite created_handles_app, CreateSwapchains_view_created.
  rewrite (proj2 (CreateSwapchains_view_pool env cfgs a g)).
  cbn [app filter].
  destruct (view_fails env a) eqn:Hfail; run.
  - rewrite nth_store_same, view_entry_swapchain by lia.
    rewrite filter_all_null; [reflexivity|].
    intros i Hi. apply in_seq in Hi.
    rewrite nth_store_other by lia. apply Hnull. lia.
  - rewrite loop_pool_untouched by lia.
    rewrite nth_store_same, view_entry_swapchain by lia.
    rewrite (IH (S a) _ (state_of (CreateSwapchains_view env cfgs a g))).
    + reflexivity.
    + rewrite store_length. lia.
    + intros j Hj. rewrite nth_store_other by lia. apply Hnull. lia.
Qed.

(** X14. [Cleanup], run on the globals a pool creation left, destroys exactly the
    non-null swapchain handles that creation's calls returned, in view order,
    whether the creation succeeded or stopped at a failing view; it makes no
    other call, and leaves no pipeline and no buffer behind. *)
Theorem cleanup_destroys_created_swapchains (env : CreateSwapchainsEnv) (g : Globals) :
  XR_FAILED (count_result env) = false ->
  XR_FAILED (fill_result env) = false ->
  let made := trace_of (CreateSwapchains env g) in
  let shutdown := Cleanup (state_of (CreateSwapchains env g)) in
  destroyed_handles (trace_of shutdown)
  = filter (fun h => negb (is_null h)) (created_handles made)
  /\ Forall (fun c => is_destroy c = true) (trace_of shutdown)
  /\ can_draw (state_of shutdown) = false.
Proof.
  intros Hc Hf. cbv zeta.
  destruct (CreateSwapchains_pool env g Hc Hf) as (Hp & Hn & _).
  split; [|split].
  - rewrite Cleanup_trace, Hp, Hn, destroyed_of_destroy_calls.
    set (g0 := set_xrViews (Some (repeat XrView_zero (fill_viewCount env)))
                 (set_vrSwapchains (Some (repeat VRSwapchain_zero (fill_viewCount env)))
                    (set_viewCount (fill_viewCount env)
                       (set_viewCount (count_viewCount env) g)))).
    rewrite (loop_handles env (fill_viewConfigs env) (fill_viewCount env) 0 _ g0).
    + rewrite (CreateSwapchains_run env g Hc Hf); cbv zeta. fold g0.
      set (L := CreateSwapchains_loop env (fill_viewConfigs env)
                  (seq 0 (fill_viewCount env)) g0).
      pose proof (CreatePipeline_created env (format (vrSwapchains_at (state_of L) 0))
                    (state_of L)) as HP.
      set (P := CreatePipeline env _ _) in *.
      rewrite CreateCubeBuffers_run.
      destruct (value_of L); [|destruct (_ && _); [destruct (negb (value_of P =? 0)%Z)|]];
        cbn [trace_of snd]; rewrite ?created_handles_app, ?HP;
        try destruct (is_null _ || is_null _);
        cbn [created_handles flat_map app]; rewrite ?app_nil_r; reflexivity.
    + rewrite repeat_length. lia.
    + intros j _. rewrite nth_repeat. reflexivity.
  - rewrite Cleanup_trace, Hp. unfold destroy_calls.
    apply Forall_flat_map, Forall_forall. intros h _.
    destruct (is_null h); repeat constructor.
  - unfold Cleanup. run.
    cbn [vrSwapchains viewCount set_pipeline set_vertexBuffer set_indexBuffer].
    destruct (vrSwapchains _); run.
    + rewrite for_each_state by (intros a g'; run; destruct (negb _); reflexivity).
      reflexivity.
    + reflexivity.
Qed.

Lemma cleanup_destroys_created_swapchains_witness :
  destroyed_handles
    (trace_of (Cleanup (state_of (CreateSwapchains Scenario.second_fails
                                    Scenario.start))))
  = [10%N].
Proof.
  rewrite (proj1 (cleanup_destroys_created_swapchains Scenario.second_fails
                    Scenario.start eq_refl eq_refl)).
  reflexivity.
Defined.

(** ** The pipeline is created once *)

Lemma CreateSwapchains_view_no_pipeline env cfgs i g :
  count is_pipeline_created (trace_of (CreateSwapchains_view env cfgs i g)) = 0.
Proof.
  unfold CreateSwapchains_view. run.
  destruct (XR_FAILED (create_result _)); run;
    [|destruct (XR_FAILED (enumerate_result _)); run]; reflexivity.
Qed.

Lemma CreateSwapchains_loop_no_pipeline env cfgs l g :
  count is_pipeline_created (trace_of (CreateSwapchains_loop env cfgs l g)) = 0.
Proof.
  revert g. induction l as [|i l IH]; intros g; [reflexivity|].
  cbn [CreateSwapchains_loop]. run.
  destruct (value_of (CreateSwapchains_view env cfgs i g)); run;
    rewrite ?count_app, ?IH, CreateSwapchains_view_no_pipeline; reflexivity.
Qed.

Lemma CreateSwapchains_pipeline_balance env g :
  count is_pipeline_created (trace_of (CreateSwapchains env g)) + pipelines_held g
  = pipelines_held (state_of (CreateSwapchains env g)).
Proof.
  destruct (XR_FAILED (count_result env)) eqn:Hc.
  { unfold CreateSwapchains. run. rewrite Hc. run. reflexivity. }
  destruct (XR_FAILED (fill_result env)) eqn:Hf.
  { unfold CreateSwapchains. run. rewrite Hc. run. rewrite Hf. run. reflexivity. }
  rewrite (CreateSwapchains_run env g Hc Hf); cbv zeta.
  match goal with
  | |- context [CreateSwapchains_loop ?e ?c ?l ?g0] =>
      pose proof (CreateSwapchains_loop_no_pipeline e c l g0) as Ht;
      destruct (CreateSwapchains_loop_keeps e c l g0) as (_ & Hp & _);
      set (L := CreateSwapchains_loop e c l g0) in *
  end.
  cbn [pipeline set_viewCount set_vrSwapchains set_xrViews] in Hp.
  assert (Hheld : pipelines_held (state_of L) = pipelines_held g)
    by (unfold pipelines_held; now rewrite Hp).
  rewrite CreatePipeline_run, CreateCubeBuffers_run.
  destruct (value_of L); cbn [state_of trace_of fst snd app].
  { rewrite !count_cons, Ht, Hheld. reflexivity. }
  destruct (0 <? viewCount (state_of L)); cbn [andb];
    [|cbn [state_of trace_of fst snd app]; rewrite !count_cons, Ht, Hheld; reflexivity].
  destruct (is_null (pipeline (state_of L))) eqn:Hnull;
    [|cbn [state_of trace_of fst snd app]; rewrite !count_cons, Ht, Hheld; reflexivity].
  assert (H0 : pipelines_held g = 0)
    by (rewrite <- Hheld; unfold pipelines_held; now rewrite Hnull).
  rewrite H0.
  destruct (negb (shaders_loaded env)); cbn [value_of state_of trace_of fst snd Z.eqb negb app].
  { rewrite !count_cons, count_app, Ht, count_nil. rewrite <- Hheld in H0.
    rewrite H0. reflexivity. }
  destruct (is_null (created_pipeline env)) eqn:Hcp;
    cbn [value_of state_of trace_of fst snd Z.eqb negb app];
    rewrite ?count_cons, ?count_app, ?count_cons, ?count_app, ?count_cons, ?count_nil, Ht;
    unfold pipelines_held;
    cbn [is_pipeline_created pipeline set_pipeline set_vertexBuffer set_indexBuffer];
    rewrite Hcp; try destruct (is_null _ || is_null _); reflexivity.
Qed.

Lemma handle_event_pipeline_balance e g :
  count is_pipeline_created (trace_of (handle_event e g)) + pipelines_held g
  = pipelines_held (state_of (handle_event e g)).
Proof.
  destruct (ready_begun e) eqn:Hr.
  - rewrite (handle_event_ready e g Hr). cbn [state_of trace_of fst snd].
    rewrite count_cons. cbn [is_pipeline_created].
    pose proof (CreateSwapchains_pipeline_balance (createSwapchains_env e)
                  (set_xrSessionRunning true g)) as H.
    destruct (negb _); exact H.
  - unfold ready_begun in Hr. unfold handle_event.
    destruct (event e) as [[]| |]; rewrite ?Hr; run; reflexivity.
Qed.

Lemma HandleXREvents_pipeline_balance polled g :
  count is_pipeline_created (trace_of (HandleXREvents polled g)) + pipelines_held g
  = pipelines_held (state_of (HandleXREvents polled g)).
Proof.
  unfold HandleXREvents. revert g.
  induction polled as [|e l IH]; intros g; [reflexivity|].
  cbn [for_each]. run. rewrite count_app, <- IH, <- handle_event_pipeline_balance. lia.
Qed.

Lemma RenderFrame_pipeline_balance env g :
  count is_pipeline_created (trace_of (RenderFrame env g)) + pipelines_held g
  = pipelines_held (state_of (RenderFrame env g)).
Proof.
  assert (Hp : pipeline (state_of (RenderFrame env g)) = pipeline g).
  { destruct (RenderFrame_state env g) as [-> | ->]; [reflexivity|].
    unfold after_locate. cbn. now destruct (xrViews g). }
  unfold pipelines_held. rewrite Hp.
  pose proof (RenderFrame_trace_form env g) as H.
  destruct (xrSessionRunning g).
  - destruct H as (t & -> & Ht). rewrite count_cons. cbn [is_pipeline_created].
    rewrite count_none; [reflexivity|].
    eapply Forall_impl; [|exact Ht]. intros [] [_ Hc]; try discriminate; reflexivity.
  - rewrite H. reflexivity.
Qed.

Lemma main_loop_pipeline_balance ticks : forall g,
  count is_pipeline_created (trace_of (main_loop ticks g)) + pipelines_held g
  = pipelines_held (state_of (main_loop ticks g)).
Proof.
  induction ticks as [|t rest IH]; intros g; [reflexivity|].
  destruct (xrShouldQuit g) eqn:Hq.
  - rewrite (main_loop_quit _ _ Hq). reflexivity.
  - rewrite main_loop_cons by assumption. cbn [state_of trace_of fst snd].
    rewrite count_app, <- IH. rewrite main_tick_run; cbv zeta.
    cbn [state_of trace_of fst snd].
    rewrite count_app, <- RenderFrame_pipeline_balance,
      <- HandleXREvents_pipeline_balance.
    destruct (sdl_quit t); unfold pipelines_held; cbn [pipeline set_xrShouldQuit]; lia.
Qed.

(** X15. Over any run of the main loop the graphics pipeline is created at most
    once, however many READY events arrive (the swapchain pool, by contrast,
    is rebuilt on each): the number of pipeline-creation calls that returned a
    pipeline, plus one if a pipeline was held at the start, is one if a
    pipeline is held at the end and zero otherwise. *)
Theorem pipeline_created_at_most_once (ticks : list TickEnv) (g : Globals) :
  let t := trace_of (main_loop ticks g) in
  count is_pipeline_created t + pipelines_held g
  = pipelines_held (state_of (main_loop ticks g))
  /\ count is_pipeline_created t <= 1
  /\ (is_null (pipeline g) = false -> count is_pipeline_created t = 0).
Proof.
  cbv zeta. pose proof (main_loop_pipeline_balance ticks g) as H.
  split; [exact H|].
  unfold pipelines_held in *.
  destruct (is_null (pipeline (state_of (main_loop ticks g)))); split; try lia;
    intros Hg; rewrite Hg in H; lia.
Qed.

Lemma pipeline_created_at_most_once_witness :
  let ticks := [mkTickEnv false [Scenario.second_ready] Scenario.frame_ok] in
  is_null (pipeline Scenario.running) = false
  /\ count is_pipeline_created (trace_of (main_loop ticks Scenario.running)) = 0.
Proof.
  cbv zeta. split; [reflexivity|].
  exact (proj2 (proj2 (pipeline_created_at_most_once
                         [mkTickEnv false [Scenario.second_ready] Scenario.frame_ok]
                         Scenario.running)) eq_refl).
Defined.

(** ** The READY event *)

Lemma creation_succeeds_running env b g :
  creation_succeeds env (set_xrSessionRunning b g) = creation_succeeds env g.
Proof. reflexivity. Qed.

(** X16. A session-state change to READY always issues one session-begin call.
    When that call fails the handler does nothing more: the globals are as
    before and the session stays not running.  When it succeeds the running
    flag is set and pool creation is run; the should-quit flag is then raised
    exactly when pool creation did not succeed, and is never lowered. *)
Theorem ready_event_outcome (e : EventEnv) (g : Globals) :
  event e = XrEventDataSessionStateChanged XR_SESSION_STATE_READY ->
  let r := beginSession_result e in
  let g' := state_of (handle_event e g) in
  (XR_SUCCEEDED r = false -> handle_event e g = (tt, g, [xrBeginSession r]))
  /\ (XR_SUCCEEDED r = true ->
        xrSessionRunning g' = true
        /\ xrShouldQuit g'
           = xrShouldQuit g || negb (creation_succeeds (createSwapchains_env e) g)
        /\ trace_of (handle_event e g)
           = xrBeginSession r
               :: trace_of (CreateSwapchains (createSwapchains_env e)
                              (set_xrSessionRunning true g))).
Proof.
  intros He. cbv zeta. split; intros Hr.
  - unfold handle_event. rewrite He, Hr. apply run_ext; run; reflexivity.
  - assert (Hb : ready_begun e = true) by (unfold ready_begun; now rewrite He).
    rewrite (handle_event_ready e g Hb). cbn [state_of trace_of fst snd].
    rewrite CreateSwapchains_value, creation_succeeds_running.
    destruct (creation_succeeds (createSwapchains_env e) g); cbn [Z.eqb negb];
      rewrite ?CreateSwapchains_xrSessionRunning, ?CreateSwapchains_xrShouldQuit;
      cbn [xrSessionRunning xrShouldQuit set_xrShouldQuit set_xrSessionRunning];
      rewrite ?CreateSwapchains_xrSessionRunning, ?CreateSwapchains_xrShouldQuit;
      cbn [xrSessionRunning xrShouldQuit set_xrShouldQuit set_xrSessionRunning];
      rewrite ?orb_true_r, ?orb_false_r; repeat split; reflexivity.
Qed.

Lemma ready_event_outcome_witness :
  xrShouldQuit (state_of (handle_event Scenario.failing_ready Scenario.start)) = true.
Proof.
  exact (proj1 (proj2 (proj2 (ready_event_outcome Scenario.failing_ready Scenario.start
                                eq_refl) eq_refl))).
Defined.

(** * Controller input layer: properties *)

Import Input.
Local Open Scope input_scope.

Lemma wbind_value {A B} (c : W A) (k : A -> W B) :
  fst (wbind c k) = fst (k (fst c)).
Proof. reflexivity. Qed.

Lemma wbind_trace {A B} (c : W A) (k : A -> W B) :
  snd (wbind c k) = snd c ++ snd (k (fst c)).
Proof. reflexivity. Qed.

Lemma wfold_cons {A S} (a : A) (l : list A) (body : A -> S -> W S) (s : S) :
  wfold (a :: l) body s = wbind (body a s) (fun s' => wfold l body s').
Proof. reflexivity. Qed.

(** ** Button queries *)

(** X17. The three button queries are consistent with each other for every state,
    controller pointer and button: a press edge and a release edge are never
    reported together, a press edge is only reported for a button reported
    pressed and a release edge only for one reported not pressed; and a button
    outside the enumeration reads as not pressed, with no edge. *)
Theorem button_edges_exclusive (state : XR_InputState) (controller : option nat)
  (button k : nat) :
  XR_Input_GetButtonDown state controller button
    && XR_Input_GetButtonUp state controller button = false
  /\ XR_Input_GetButtonDown state controller button
       && negb (XR_Input_GetButton state controller button) = false
  /\ XR_Input_GetButtonUp state controller button
       && XR_Input_GetButton state controller button = false
  /\ XR_Input_GetButton state controller (XR_BUTTON_COUNT + k) = false
  /\ XR_Input_GetButtonDown state controller (XR_BUTTON_COUNT + k) = false
  /\ XR_Input_GetButtonUp state controller (XR_BUTTON_COUNT + k) = false.
Proof.
  unfold XR_Input_GetButtonDown, XR_Input_GetButtonUp, XR_Input_GetButton.
  destruct controller as [slot|]; [|repeat split; reflexivity].
  cbv zeta.
  assert (Hk : (XR_BUTTON_COUNT <=? XR_BUTTON_COUNT + k) = true)
    by (apply Nat.leb_le; lia).
  rewrite Hk, orb_true_r.
  destruct (negb (_state (controllers state slot)) || (XR_BUTTON_COUNT <=? button));
    [repeat split; reflexivity|].
  destruct (currButtons state (hand (controllers state slot)) button),
    (prevButtons state (hand (controllers state slot)) button); repeat split; reflexivity.
Qed.

(** ** Sync *)

(** X18. When [xrSyncActions] returns anything but [XR_SUCCESS] (an error, or a
    qualified success such as [XR_SESSION_NOT_FOCUSED]), [XR_Input_Sync]
    returns [false] after that one call and queries nothing; the cached button
    values stay as they were, but the previous-frame copy has already been
    overwritten with them, so no controller reports a press or release edge
    until the next successful sync. *)
Theorem failed_sync_clears_edges (env : SyncEnv) (state : XR_InputState) :
  sync_result env <> XR_SUCCESS ->
  exists state',
    XR_Input_Sync env (Some state)
    = ((false, Some state'), [xrSyncActions (sync_result env)])
    /\ forall controller button,
         XR_Input_GetButtonDown state' controller button = false
         /\ XR_Input_GetButtonUp state' controller button = false
         /\ XR_Input_GetButton state' controller button
            = XR_Input_GetButton state controller button.
Proof.
  intros Hr. exists (set_prevButtons (currButtons state) state). split.
  - unfold XR_Input_Sync. apply Z.eqb_neq in Hr. cbv zeta.
    unfold wbind, wcall, wret. cbn [fst snd]. rewrite Hr. reflexivity.
  - intros [slot|] button; [|repeat split; reflexivity].
    unfold XR_Input_GetButtonDown, XR_Input_GetButtonUp, XR_Input_GetButton.
    cbn [controllers currButtons prevButtons set_prevButtons]. cbv zeta.
    destruct (negb _ || _); [repeat split; reflexivity|].
    destruct (currButtons state _ button); repeat split; reflexivity.
Qed.

Lemma failed_sync_clears_edges_witness :
  exists state',
    XR_Input_Sync InputScenario.sync_not_focused (Some InputScenario.state)
    = ((false, Some state'), [xrSyncActions InputScenario.XR_SESSION_NOT_FOCUSED])
    /\ XR_Input_GetButtonDown state' (Some XR_HAND_LEFT) XR_BUTTON_A = false
    /\ XR_Input_GetButton state' (Some XR_HAND_LEFT) XR_BUTTON_A = true.
Proof.
  destruct (failed_sync_clears_edges InputScenario.sync_not_focused InputScenario.state
              ltac:(discriminate)) as (state' & Hrun & Hq).
  exists state'. split; [exact Hrun|].
  destruct (Hq (Some XR_HAND_LEFT) XR_BUTTON_A) as (Hd & _ & Hb).
  split; [exact Hd|]. rewrite Hb. reflexivity.
Defined.

(** ** Poses *)

Lemma required_flags_bits (flags : Z) :
  (Z.land flags (Z.lor XR_SPACE_LOCATION_POSITION_VALID_BIT
                       XR_SPACE_LOCATION_ORIENTATION_VALID_BIT)
   =? Z.lor XR_SPACE_LOCATION_POSITION_VALID_BIT XR_SPACE_LOCATION_ORIENTATION_VALID_BIT)%Z
  = Z.testbit flags 0 && Z.testbit flags 1.
Proof.
  change (Z.lor XR_SPACE_LOCATION_POSITION_VALID_BIT
                XR_SPACE_LOCATION_ORIENTATION_VALID_BIT) with 3%Z.
  destruct (Z.testbit flags 0) eqn:H0, (Z.testbit flags 1) eqn:H1; cbn [andb].
  - apply Z.eqb_eq. apply Z.bits_inj'. intros n Hn. rewrite Z.land_spec.
    destruct (Z.eq_dec n 0) as [->|]; [now rewrite H0|].
    destruct (Z.eq_dec n 1) as [->|]; [now rewrite H1|].
    rewrite (Z.bits_above_log2 3 n) by (cbn; lia). apply andb_false_r.
  - apply Z.eqb_neq. intros H.
    assert (Hb : Z.testbit (Z.land flags 3) 1 = Z.testbit 3 1) by now rewrite H.
    rewrite Z.land_spec, H1 in Hb. discriminate.
  - apply Z.eqb_neq. intros H.
    assert (Hb : Z.testbit (Z.land flags 3) 0 = Z.testbit 3 0) by now rewrite H.
    rewrite Z.land_spec, H0 in Hb. discriminate.
  - apply Z.eqb_neq. intros H.
    assert (Hb : Z.testbit (Z.land flags 3) 0 = Z.testbit 3 0) by now rewrite H.
    rewrite Z.land_spec, H0 in Hb. discriminate.
Qed.

(** X19. [XR_Input_LocatePose] returns [true] exactly when the controller and the
    output pointer are given, the pose type has a non-null space, the runtime
    call returned [XR_SUCCESS] and both the orientation-valid and the
    position-valid bit of the location flags are set, whatever the other bits
    are.  The pose is stored exactly when it returns [true]; the runtime is
    called exactly when the first three conditions hold; and the palm pose is
    served by the grip space. *)
Theorem locate_pose_valid_iff (env : LocateEnv) (state : XR_InputState)
  (controller : option nat) (poseType : Z) (baseSpace : handle) (time : Z)
  (outPose outVelocity : bool) :
  let space := XR_Input_GetSpace state controller poseType in
  let asked := is_some controller && outPose && negb (is_null space) in
  let r := XR_Input_LocatePose env state controller poseType baseSpace time
             outPose outVelocity in
  fst (fst r)
  = asked && (locate_result env =? XR_SUCCESS)%Z
    && Z.testbit (locationFlags env) 0 && Z.testbit (locationFlags env) 1
  /\ snd (fst r) = (if fst (fst r) then Some (location_pose env) else None)
  /\ snd r = (if asked
              then [xrLocateSpace space baseSpace time outVelocity (locate_result env)]
              else [])
  /\ XR_Input_GetSpace state controller XR_POSE_PALM
     = XR_Input_GetSpace state controller XR_POSE_GRIP.
Proof.
  cbv zeta. unfold XR_Input_LocatePose.
  destruct controller as [slot|]; [|repeat split; reflexivity].
  cbn [is_some andb]. destruct outPose; cbn [negb andb]; [|repeat split; reflexivity].
  destruct (is_null (XR_Input_GetSpace state (Some slot) poseType));
    cbn [negb andb]; [repeat split; reflexivity|].
  unfold wbind, wcall, wret. cbn [fst snd app].
  destruct (locate_result env =? XR_SUCCESS)%Z; cbn [negb andb fst snd];
    [|repeat split; reflexivity].
  rewrite required_flags_bits.
  destruct (Z.testbit (locationFlags env) 0), (Z.testbit (locationFlags env) 1);
    cbn [negb andb fst snd]; repeat split; reflexivity.
Qed.

(** ** A successful sync *)

Lemma sync_button_run env h b s :
  sync_button env h b s
  = (set_currButtons (upd2 h b (cached_button env s h b) (currButtons s)) s,
     if is_null (buttonActions s b) then []
     else [xrGetActionStateBoolean (buttonActions s b) (handPaths s h)
             (boolean_result env h b)]).
Proof.
  unfold sync_button, cached_button.
  destruct (is_null (buttonActions s b)); [reflexivity|].
  unfold wbind, wcall, wret. cbn [fst snd app].
  destruct (boolean_result env h b =? XR_SUCCESS)%Z; reflexivity.
Qed.

Lemma upd_same {A} (i : nat) (v : A) (a : nat -> A) : upd i v a i = v.
Proof. unfold upd. now rewrite Nat.eqb_refl. Qed.

Lemma upd_other {A} (i k : nat) (v : A) (a : nat -> A) : k <> i -> upd i v a k = a k.
Proof. unfold upd. intros H. apply Nat.eqb_neq in H. now rewrite H. Qed.

Lemma upd2_spec {A} (i j : nat) (v : A) (a : nat -> nat -> A) (h b : nat) :
  upd2 i j v a h b = if Nat.eqb h i && Nat.eqb b j then v else a h b.
Proof.
  unfold upd2, upd.
  destruct (Nat.eqb_spec h i) as [->|]; [|reflexivity].
  destruct (Nat.eqb b j); reflexivity.
Qed.

(** The button actions with a non-null handle, among the buttons of [l]. *)
Lemma sync_buttons_run env h n : forall a s,
  exists f,
    fst (wfold (seq a n) (sync_button env h) s) = set_currButtons f s
    /\ (forall h' b',
          f h' b' = if Nat.eqb h' h && (a <=? b') && (b' <? a + n)
                    then cached_button env s h b' else currButtons s h' b')
    /\ length (filter is_boolean_query (snd (wfold (seq a n) (sync_button env h) s)))
       = length (filter (fun b => negb (is_null (buttonActions s b))) (seq a n)).
Proof.
  induction n as [|n IH]; intros a s.
  - exists (currButtons s). split; [now destruct s|]. split; [|reflexivity].
    intros h' b'. destruct (Nat.eqb h' h), (Nat.leb_spec a b'), (Nat.ltb_spec b' (a + 0));
      cbn [andb]; try reflexivity; lia.
  - cbn [seq]. rewrite wfold_cons, wbind_value, wbind_trace, sync_button_run.
    cbn [fst snd].
    destruct (IH (S a) (set_currButtons
                          (upd2 h a (cached_button env s h a) (currButtons s)) s))
      as (f & Hs & Hf & Hc).
    exists f. split; [exact Hs|]. split.
    + intros h' b'. rewrite Hf. cbn [currButtons set_currButtons]. rewrite upd2_spec.
      change (cached_button env (set_currButtons _ s) h b') with (cached_button env s h b').
      destruct (Nat.eqb_spec h' h), (Nat.leb_spec (S a) b'), (Nat.leb_spec a b'),
        (Nat.ltb_spec b' (S a + n)), (Nat.ltb_spec b' (a + S n)), (Nat.eqb_spec b' a);
        cbn [andb]; try reflexivity; try lia; subst; reflexivity.
    + rewrite filter_app, length_app, Hc. cbn [filter buttonActions set_currButtons].
      destruct (is_null (buttonActions s a)); reflexivity.
Qed.

Lemma sync_hand_run env h s :
  exists f,
    fst (sync_hand env h s)
    = set_currButtons f
        (set_controllers (upd h (set_active (pose_isActive env h) (controllers s h))
                              (controllers s)) s)
    /\ (forall h' b',
          f h' b' = if Nat.eqb h' h && (b' <? XR_BUTTON_COUNT)
                    then cached_button env s h b' else currButtons s h' b')
    /\ length (filter is_boolean_query (snd (sync_hand env h s)))
       = length (filter (fun b => negb (is_null (buttonActions s b)))
                        (seq 0 XR_BUTTON_COUNT)).
Proof.
  unfold sync_hand. rewrite wbind_value, wbind_trace. cbn [wcall fst snd].
  set (s1 := set_controllers _ s).
  destruct (sync_buttons_run env h XR_BUTTON_COUNT 0 s1) as (f & Hs & Hf & Hc).
  exists f. split; [exact Hs|]. split.
  - intros h' b'. rewrite Hf. cbn [Nat.leb andb Nat.add]. now rewrite andb_true_r.
  - cbn [app filter is_boolean_query]. exact Hc.
Qed.

(** What a successful sync leaves in the state. *)
Lemma sync_success env s :
  sync_result env = XR_SUCCESS ->
  exists s',
    fst (XR_Input_Sync env (Some s)) = (true, Some s')
    /\ (forall h b, h < XR_HAND_COUNT -> b < XR_BUTTON_COUNT ->
          currButtons s' h b = cached_button env s h b)
    /\ (forall h b, prevButtons s' h b = currButtons s h b)
    /\ (forall h, h < XR_HAND_COUNT ->
          controllers s' h = set_active (pose_isActive env h) (controllers s h))
    /\ buttonActions s' = buttonActions s
    /\ length (filter is_boolean_query (snd (XR_Input_Sync env (Some s))))
       = XR_HAND_COUNT
         * length (filter (fun b => negb (is_null (buttonActions s b)))
                          (seq 0 XR_BUTTON_COUNT)).
Proof.
  intros Hr. unfold XR_Input_Sync. cbv zeta.
  rewrite wbind_value, wbind_trace. cbn [wcall fst snd]. rewrite Hr.
  cbn [Z.eqb XR_SUCCESS negb]. rewrite wbind_value, wbind_trace.
  set (s0 := set_prevButtons (currButtons s) s).
  change (seq 0 XR_HAND_COUNT) with [0; 1].
  rewrite wfold_cons, wbind_value, wbind_trace.
  destruct (sync_hand_run env 0 s0) as (f0 & Hs0 & Hf0 & Hc0).
  rewrite Hs0. set (s1 := set_currButtons f0 _).
  rewrite wfold_cons, wbind_value, wbind_trace.
  destruct (sync_hand_run env 1 s1) as (f1 & Hs1 & Hf1 & Hc1).
  rewrite Hs1. cbn [wfold wret fst snd].
  eexists. split; [reflexivity|].
  cbn [currButtons prevButtons controllers buttonActions set_currButtons set_controllers
       set_prevButtons s0 s1].
  split; [|split; [|split; [|split]]].
  - intros h b Hh Hb. rewrite Hf1. cbn [currButtons set_currButtons s1].
    rewrite Hf0. cbn [currButtons s0 set_prevButtons].
    apply Nat.ltb_lt in Hb. rewrite Hb.
    change (cached_button env s1 1 b) with (cached_button env s 1 b).
    change (cached_button env s0 0 b) with (cached_button env s 0 b).
    unfold XR_HAND_COUNT in Hh.
    destruct h as [|[|h]]; cbn [Nat.eqb andb]; try reflexivity. lia.
  - reflexivity.
  - intros h Hh. unfold XR_HAND_COUNT in Hh.
    destruct h as [|[|h]]; try lia; reflexivity.
  - reflexivity.
  - cbn [app filter is_boolean_query]. rewrite !filter_app, !length_app.
    rewrite Hc0, Hc1. cbn [filter length app]. subst s1 s0.
    cbn [buttonActions set_currButtons set_controllers set_prevButtons].
    unfold XR_HAND_COUNT. lia.
Qed.

(** X20. After a sync whose [xrSyncActions] returned [XR_SUCCESS], every slot of
    the button cache holds what the runtime reported for that hand and
    button ([false] for an action that was never created, for a failed query
    and for an inactive action), the previous-frame copy holds the cache as it
    was before the sync, and each controller's [active] flag is the grip
    pose's.  The runtime is queried once per hand for each button action that
    exists.  So a controller handed out by the library reports a press edge
    exactly for a button that is now pressed and was not, and a release edge
    for one that was pressed and is not. *)
Theorem sync_caches_buttons (env : SyncEnv) (state : XR_InputState) :
  sync_result env = XR_SUCCESS ->
  exists state',
    fst (XR_Input_Sync env (Some state)) = (true, Some state')
    /\ (forall h, h < XR_HAND_COUNT ->
          controllers state' h = set_active (pose_isActive env h) (controllers state h))
    /\ length (filter is_boolean_query (snd (XR_Input_Sync env (Some state))))
       = XR_HAND_COUNT
         * length (filter (fun b => negb (is_null (buttonActions state b)))
                          (seq 0 XR_BUTTON_COUNT))
    /\ forall slot button,
         slot < XR_HAND_COUNT -> button < XR_BUTTON_COUNT ->
         slot_ready state slot = true ->
         let now := cached_button env state slot button in
         let before := currButtons state slot button in
         XR_Input_GetButton state' (Some slot) button = now
         /\ XR_Input_GetButtonDown state' (Some slot) button = now && negb before
         /\ XR_Input_GetButtonUp state' (Some slot) button = negb now && before.
Proof.
  intros Hr. destruct (sync_success env state Hr) as (s' & Hs & Hcur & Hprev & Hctl & _ & Hn).
  exists s'. split; [exact Hs|]. split; [exact Hctl|]. split; [exact Hn|].
  intros slot button Hslot Hbutton Hready. cbv zeta.
  unfold XR_Input_GetButton, XR_Input_GetButtonDown, XR_Input_GetButtonUp. cbv zeta.
  rewrite (Hctl slot Hslot). cbn [_state hand set_active].
  unfold slot_ready in Hready. apply andb_true_iff in Hready.
  destruct Hready as [Hst Hhand]. apply Nat.eqb_eq in Hhand.
  rewrite Hst, Hhand. apply Nat.leb_gt in Hbutton. rewrite Hbutton. cbn [negb orb].
  apply Nat.leb_gt in Hbutton.
  rewrite (Hcur slot button Hslot Hbutton), Hprev. repeat split; reflexivity.
Qed.

Lemma sync_caches_buttons_witness :
  exists state',
    fst (XR_Input_Sync InputScenario.sync_trigger_held (Some InputScenario.state))
    = (true, Some state')
    /\ XR_Input_GetButtonDown state' (Some XR_HAND_RIGHT) XR_BUTTON_TRIGGER = true
    /\ XR_Input_GetButtonUp state' (Some XR_HAND_LEFT) XR_BUTTON_A = true.
Proof.
  destruct (sync_caches_buttons InputScenario.sync_trigger_held InputScenario.state
              eq_refl) as (state' & Hs & _ & _ & Hq).
  exists state'. split; [exact Hs|]. split.
  - exact (proj1 (proj2 (Hq XR_HAND_RIGHT XR_BUTTON_TRIGGER
                           ltac:(unfold XR_HAND_RIGHT, XR_HAND_COUNT; lia)
                           ltac:(unfold XR_BUTTON_TRIGGER, XR_BUTTON_COUNT; lia)
                           eq_refl))).
  - exact (proj2 (proj2 (Hq XR_HAND_LEFT XR_BUTTON_A
                           ltac:(unfold XR_HAND_LEFT, XR_HAND_COUNT; lia)
                           ltac:(unfold XR_BUTTON_A, XR_BUTTON_COUNT; lia)
                           eq_refl))).
Defined.

(** X21. An edge is reported for one sync only.  When two successive syncs succeed
    and the runtime reports the same value for a button in both, the
    controller reports neither a press nor a release edge for that button
    after the second, and still reports its value. *)
Theorem edge_lasts_one_sync (env1 env2 : SyncEnv) (state state1 state2 : XR_InputState)
  (slot button : nat) :
  sync_result env1 = XR_SUCCESS -> sync_result env2 = XR_SUCCESS ->
  slot < XR_HAND_COUNT -> button < XR_BUTTON_COUNT ->
  slot_ready state slot = true ->
  fst (XR_Input_Sync env1 (Some state)) = (true, Some state1) ->
  fst (XR_Input_Sync env2 (Some state1)) = (true, Some state2) ->
  cached_button env2 state slot button = cached_button env1 state slot button ->
  XR_Input_GetButtonDown state2 (Some slot) button = false
  /\ XR_Input_GetButtonUp state2 (Some slot) button = false
  /\ XR_Input_GetButton state2 (Some slot) button = cached_button env1 state slot button.
Proof.
  intros Hr1 Hr2 Hslot Hbutton Hready H1 H2 Hsame.
  destruct (sync_success env1 state Hr1) as (s1 & Hs1 & Hcur1 & _ & Hctl1 & Hact1 & _).
  rewrite H1 in Hs1. injection Hs1 as <-.
  destruct (sync_success env2 state1 Hr2) as (s2 & Hs2 & Hcur2 & Hprev2 & Hctl2 & _ & _).
  rewrite H2 in Hs2. injection Hs2 as <-.
  unfold XR_Input_GetButton, XR_Input_GetButtonDown, XR_Input_GetButtonUp. cbv zeta.
  rewrite (Hctl2 slot Hslot), (Hctl1 slot Hslot). cbn [_state hand set_active].
  unfold slot_ready in Hready. apply andb_true_iff in Hready.
  destruct Hready as [Hst Hhand]. apply Nat.eqb_eq in Hhand.
  rewrite Hst, Hhand. pose proof Hbutton as Hb. apply Nat.leb_gt in Hb. rewrite Hb.
  cbn [negb orb].
  rewrite (Hcur2 slot button Hslot Hbutton), Hprev2, (Hcur1 slot button Hslot Hbutton).
  assert (Hc : cached_button env2 state1 slot button = cached_button env2 state slot button)
    by (unfold cached_button; now rewrite Hact1).
  rewrite Hc, Hsame.
  destruct (cached_button env1 state slot button); repeat split; reflexivity.
Qed.

Lemma edge_lasts_one_sync_witness :
  exists state2,
    fst (XR_Input_Sync InputScenario.sync_trigger_held
           (snd (fst (XR_Input_Sync InputScenario.sync_trigger_held
                        (Some InputScenario.state)))))
    = (true, Some state2)
    /\ XR_Input_GetButtonDown state2 (Some XR_HAND_RIGHT) XR_BUTTON_TRIGGER = false
    /\ XR_Input_GetButton state2 (Some XR_HAND_RIGHT) XR_BUTTON_TRIGGER = true.
Proof.
  eexists. split; [reflexivity|].
  refine ((fun H => conj (proj1 H) (proj2 (proj2 H)))
            (edge_lasts_one_sync InputScenario.sync_trigger_held
               InputScenario.sync_trigger_held InputScenario.state _ _
               XR_HAND_RIGHT XR_BUTTON_TRIGGER eq_refl eq_refl
               ltac:(unfold XR_HAND_RIGHT, XR_HAND_COUNT; lia)
               ltac:(unfold XR_BUTTON_TRIGGER, XR_BUTTON_COUNT; lia)
               eq_refl eq_refl eq_refl eq_refl)).
Defined.

(** ** Suggested bindings *)

Lemma w_ext {A} (r : W A) (a : A) (t : list InputCall) :
  fst r = a -> snd r = t -> r = (a, t).
Proof. destruct r; cbn; now intros -> ->. Qed.

Lemma GetPath_trace env s :
  snd (GetPath env s) = [xrStringToPath s (fst (string_to_path env s))].
Proof.
  unfold GetPath. cbv zeta. rewrite wbind_trace. cbn [wcall snd].
  destruct (negb _); reflexivity.
Qed.

Lemma bind_field_run env prefix field action bindings :
  map fst (fst (bind_field env prefix field action bindings))
  = map fst bindings ++ match field with Some _ => [action] | None => [] end
  /\ Forall (fun c => is_suggest c = false /\ spaces_created [c] = [])
            (snd (bind_field env prefix field action bindings)).
Proof.
  unfold bind_field. destruct field as [suffix|].
  - rewrite wbind_value, wbind_trace, GetPath_trace. cbn [wret fst snd app].
    split; [|repeat constructor].
    rewrite map_app. reflexivity.
  - split; [cbn; now rewrite app_nil_r|constructor].
Qed.

Lemma bound_actions_length {A} (fields : list (option String.string)) : forall actions : list A,
  length fields <= length actions ->
  length (flat_map (fun fa => match fst fa with Some _ => [snd fa] | None => [] end)
                   (combine fields actions))
  = length (filter (fun f => match f with Some _ => true | None => false end) fields).
Proof.
  induction fields as [|f fields IH]; intros [|a actions] H; cbn in *; try reflexivity;
    try lia.
  rewrite length_app, IH by lia. destruct f; reflexivity.
Qed.

Lemma bind_hand_run env state p hand bindings :
  map fst (fst (bind_hand env state p hand bindings))
  = map fst bindings ++ profile_actions state p
  /\ Forall (fun c => is_suggest c = false /\ spaces_created [c] = [])
            (snd (bind_hand env state p hand bindings)).
Proof.
  unfold bind_hand. cbv zeta.
  repeat match goal with
  | |- context [wbind (bind_field ?e ?pre ?f ?a ?b) ?k] =>
      let H1 := fresh "Hv" in let H2 := fresh "Ht" in
      destruct (bind_field_run e pre f a b) as [H1 H2];
      rewrite (wbind_value (bind_field e pre f a b) k),
              (wbind_trace (bind_field e pre f a b) k);
      cbv beta;
      generalize dependent (bind_field e pre f a b); intros ? ? ?
  end.
  match goal with
  | |- context [bind_field ?e ?pre ?f ?a ?b] =>
      destruct (bind_field_run e pre f a b) as [Hlast Htlast]
  end.
  split.
  - rewrite Hlast. repeat match goal with H : map fst _ = _ |- _ => rewrite H; clear H end.
    unfold profile_actions, profile_fields. cbn [combine flat_map fst snd].
    rewrite <- !app_assoc. rewrite ?app_nil_r. reflexivity.
  - repeat (apply Forall_app; split; try assumption).
Qed.

Lemma profile_actions_length state p :
  length (profile_actions state p) = fields_present p.
Proof.
  unfold profile_actions, fields_present. apply bound_actions_length.
  cbn. lia.
Qed.

Lemma fields_present_bound p : fields_present p <= 11.
Proof.
  unfold fields_present.
  etransitivity; [apply filter_length_le|]. cbn. lia.
Qed.

(** The bindings [SuggestBindingsForProfile] hands to the runtime, and the
    calls it makes before that. *)
Lemma SuggestBindingsForProfile_run env state p :
  let profilePath := fst (GetPath env (profile p)) in
  let first := xrStringToPath (profile p) (fst (string_to_path env (profile p))) in
  if (profilePath =? XR_NULL_PATH)%N
  then SuggestBindingsForProfile env state p = (false, [first])
  else exists bindings conversions,
         SuggestBindingsForProfile env state p
         = ((suggest_result env profilePath =? XR_SUCCESS)%Z,
            first :: conversions
              ++ [xrSuggestInteractionProfileBindings profilePath bindings
                    (suggest_result env profilePath)])
         /\ Forall (fun c => is_suggest c = false /\ spaces_created [c] = []) conversions
         /\ map fst bindings = profile_actions state p ++ profile_actions state p.
Proof.
  cbv zeta. unfold SuggestBindingsForProfile.
  pose proof (GetPath_trace env (profile p)) as Ht.
  destruct (GetPath env (profile p)) as [path t]. cbn [fst snd] in *. subst t.
  destruct (path =? XR_NULL_PATH)%N eqn:E.
  { unfold wbind at 1. cbn [fst snd]. rewrite E. reflexivity. }
  change (seq 0 2) with [0; 1].
  set (B := wfold [0; 1] (bind_hand env state p) []).
  exists (fst B), (snd B). split; [|split].
  - apply w_ext.
    + rewrite wbind_value. cbn [fst]. rewrite E. rewrite !wbind_value. reflexivity.
    + rewrite wbind_trace. cbn [fst snd]. rewrite E. rewrite !wbind_trace.
      cbn [wcall wret snd app]. rewrite ?app_nil_r. reflexivity.
  - subst B. rewrite wfold_cons, wbind_trace.
    destruct (bind_hand_run env state p 0 []) as [_ Ht0].
    apply Forall_app. split; [exact Ht0|].
    rewrite wfold_cons, wbind_trace. cbn [wfold wret snd]. rewrite app_nil_r.
    apply bind_hand_run.
  - subst B. rewrite wfold_cons, wbind_value, wfold_cons, wbind_value.
    cbn [wfold wret fst].
    rewrite (proj1 (bind_hand_run env state p 1 _)),
      (proj1 (bind_hand_run env state p 0 _)). reflexivity.
Qed.

Lemma bind_field_exact env prefix field action bindings :
  bind_field env prefix field action bindings
  = (bindings ++ match field with
                 | Some suffix => [(action, fst (GetPath env (snprintf_pathBuf prefix suffix)))]
                 | None => []
                 end,
     match field with
     | Some suffix => snd (GetPath env (snprintf_pathBuf prefix suffix))
     | None => []
     end).
Proof.
  unfold bind_field. destruct field as [suffix|].
  - apply w_ext; [reflexivity|]. rewrite wbind_trace. cbn [wret snd]. apply app_nil_r.
  - unfold wret. now rewrite app_nil_r.
Qed.

Lemma bind_hand_exact env state p hand bindings :
  bind_hand env state p hand bindings
  = (bindings ++ hand_bindings env state p hand, hand_conversions env p hand).
Proof.
  unfold bind_hand. cbv zeta. rewrite !bind_field_exact.
  unfold wbind. cbn [fst snd]. rewrite !bind_field_exact. cbn [fst snd].
  unfold hand_bindings, hand_conversions, profile_fields.
  cbn [combine flat_map fst snd]. rewrite <- !app_assoc, ?app_nil_r. reflexivity.
Qed.

Lemma SuggestBindingsForProfile_exact env state p :
  SuggestBindingsForProfile env state p
  = let profilePath := fst (GetPath env (profile p)) in
    let first := xrStringToPath (profile p) (fst (string_to_path env (profile p))) in
    if (profilePath =? XR_NULL_PATH)%N then (false, [first])
    else ((suggest_result env profilePath =? XR_SUCCESS)%Z,
          first :: (hand_conversions env p 0 ++ hand_conversions env p 1)
            ++ [xrSuggestInteractionProfileBindings profilePath
                  (hand_bindings env state p 0 ++ hand_bindings env state p 1)
                  (suggest_result env profilePath)]).
Proof.
  cbv zeta. unfold SuggestBindingsForProfile.
  pose proof (GetPath_trace env (profile p)) as Ht.
  destruct (GetPath env (profile p)) as [path t]. cbn [fst snd] in *. subst t.
  unfold wbind at 1. cbn [fst snd].
  destruct (path =? XR_NULL_PATH)%N; [reflexivity|].
  change (seq 0 2) with [0; 1]. cbn [wfold].
  rewrite !bind_hand_exact. unfold wbind. cbn [fst snd]. rewrite !bind_hand_exact.
  cbn [fst snd wcall wret app]. rewrite ?app_nil_r, <- ?app_assoc. reflexivity.
Qed.

Lemma hand_bindings_actions env state p hand :
  map fst (hand_bindings env state p hand) = profile_actions state p.
Proof.
  pose proof (bind_hand_run env state p hand []) as [H _].
  rewrite bind_hand_exact in H. exact H.
Qed.

Lemma hand_conversions_no_suggest env p hand :
  filter is_suggest (hand_conversions env p hand) = [].
Proof.
  unfold hand_conversions. induction (profile_fields p) as [|f l IH]; [reflexivity|].
  cbn [flat_map]. rewrite filter_app, IH, app_nil_r.
  destruct f; [|reflexivity]. rewrite GetPath_trace. reflexivity.
Qed.

(** X22. [SuggestBindingsForProfile] never overruns its 64-entry [bindings]
    array.  For any profile whose path the runtime knows it converts, for the
    left hand and then for the right hand, the path of that hand's prefix
    followed by the suffix of every field the profile gives, in the order of
    the fields, and suggests in a single call that ends its trace exactly
    those bindings: each field's action with the path converted for it, the
    left hand's first and the right hand's for the same actions in the same
    order, two per field given and at most 22; it returns whether that call
    returned [XR_SUCCESS].  When the runtime does not know the profile path
    it returns [false] after the one path conversion, with no suggestion.
    And every path built for the four known profiles fits the 256-byte path
    buffer. *)
Theorem suggested_bindings_fit_buffer (env : CreateEnv) (state : XR_InputState)
  (p : ControllerProfile) :
  let profilePath := fst (GetPath env (profile p)) in
  let first := xrStringToPath (profile p) (fst (string_to_path env (profile p))) in
  let bindings := hand_bindings env state p 0 ++ hand_bindings env state p 1 in
  let conversions := hand_conversions env p 0 ++ hand_conversions env p 1 in
  SuggestBindingsForProfile env state p
  = (if (profilePath =? XR_NULL_PATH)%N then (false, [first])
     else ((suggest_result env profilePath =? XR_SUCCESS)%Z,
           first :: conversions
             ++ [xrSuggestInteractionProfileBindings profilePath bindings
                   (suggest_result env profilePath)]))
  /\ filter is_suggest conversions = []
  /\ map fst bindings = profile_actions state p ++ profile_actions state p
  /\ length bindings = 2 * fields_present p
  /\ length bindings <= 22 < bindings_capacity
  /\ forallb paths_fit g_profiles = true.
Proof.
  cbv zeta.
  assert (Hact : map fst (hand_bindings env state p 0 ++ hand_bindings env state p 1)
                 = profile_actions state p ++ profile_actions state p)
    by (now rewrite map_app, !hand_bindings_actions).
  assert (Hlen : length (hand_bindings env state p 0 ++ hand_bindings env state p 1)
                 = 2 * fields_present p).
  { rewrite <- (length_map fst), Hact, length_app, profile_actions_length. lia. }
  split; [apply SuggestBindingsForProfile_exact|].
  split; [now rewrite filter_app, !hand_conversions_no_suggest|].
  split; [exact Hact|]. split; [exact Hlen|].
  split; [|reflexivity].
  rewrite Hlen. pose proof (fields_present_bound p). unfold bindings_capacity. lia.
Qed.

Import String.StringSyntax.
Local Open Scope string_scope.

(** The path conversions made for the right hand of the simple controller
    profile. *)
Example simple_controller_right_hand :
  map (fun c => match c with xrStringToPath s _ => s | _ => String.EmptyString end)
      (hand_conversions InputScenario.create_all_ok
         (nth 3 g_profiles (mkProfile String.EmptyString None None None None None None
                              None None None None None)) 1)
  = [ "/user/hand/right/input/select/click"; "/user/hand/right/input/select/click";
      "/user/hand/right/input/menu/click"; "/user/hand/right/input/grip/pose";
      "/user/hand/right/input/aim/pose"; "/user/hand/right/output/haptic" ].
Proof. vm_compute. reflexivity. Qed.

Local Close Scope string_scope.

(** ** Creation and destruction *)

Lemma spaces_created_app t1 t2 :
  spaces_created (t1 ++ t2) = spaces_created t1 ++ spaces_created t2.
Proof. apply flat_map_app. Qed.

Lemma spaces_created_none t :
  Forall (fun c => spaces_created [c] = []) t -> spaces_created t = [].
Proof.
  induction 1 as [|c t Hc _ IH]; [reflexivity|].
  change (c :: t) with ([c] ++ t). now rewrite spaces_created_app, Hc, IH.
Qed.

Lemma CreateAction_trace env type name :
  snd (CreateAction env type name)
  = [xrCreateAction type name (fst (action_answer env name))].
Proof.
  unfold CreateAction. cbv zeta. rewrite wbind_trace. cbn [wcall snd].
  destruct (negb _); reflexivity.
Qed.

Lemma create_buttons_quiet env l : forall actions,
  spaces_created (snd (wfold l (create_button env) actions)) = [].
Proof.
  induction l as [|i l IH]; intros actions; [reflexivity|].
  rewrite wfold_cons, wbind_trace, spaces_created_app, IH.
  unfold create_button. rewrite wbind_trace, CreateAction_trace. reflexivity.
Qed.

Lemma suggest_profiles_quiet env state l : forall n,
  spaces_created (snd (wfold l (suggest_profile env state) n)) = [].
Proof.
  induction l as [|p l IH]; intros n; [reflexivity|].
  rewrite wfold_cons, wbind_trace, spaces_created_app, IH, app_nil_r.
  assert (Ht : snd (suggest_profile env state p n)
               = snd (SuggestBindingsForProfile env state p)).
  { unfold suggest_profile. rewrite wbind_trace.
    destruct (fst (SuggestBindingsForProfile env state p)); apply app_nil_r. }
  rewrite Ht.
  pose proof (SuggestBindingsForProfile_run env state p) as H. cbv zeta in H.
  destruct (_ =? _)%N.
  - rewrite H. reflexivity.
  - destruct H as (bindings & conversions & -> & Hconv & _). cbn [snd].
    change (?c :: conversions ++ ?l) with ([c] ++ conversions ++ l).
    rewrite !spaces_created_app.
    rewrite (spaces_created_none conversions)
      by (eapply Forall_impl; [|exact Hconv]; now intros c [_ Hc]).
    reflexivity.
Qed.

Lemma create_hand_run env hand state :
  fst (create_hand env hand state)
  = set_controllers
      (upd hand (mkController hand (active (controllers state hand))
                   (space_made env hand false) (space_made env hand true) true)
           (controllers state)) state
  /\ spaces_created (snd (create_hand env hand state))
     = (if (fst (space_answer env hand false) =? XR_SUCCESS)%Z
        then [snd (space_answer env hand false)] else [])
       ++ (if (fst (space_answer env hand true) =? XR_SUCCESS)%Z
           then [snd (space_answer env hand true)] else []).
Proof.
  unfold create_hand, create_space, space_made, wbind, wcall, wret. cbn [fst snd].
  split.
  - destruct (fst (space_answer env hand false) =? XR_SUCCESS)%Z,
      (fst (space_answer env hand true) =? XR_SUCCESS)%Z; reflexivity.
  - rewrite !spaces_created_app. unfold spaces_created at 1 3.
    cbn [flat_map app].
    destruct (fst (space_answer env hand false) =? XR_SUCCESS)%Z,
      (fst (space_answer env hand true) =? XR_SUCCESS)%Z; reflexivity.
Qed.

Lemma GetPath_quiet env s : spaces_created (snd (GetPath env s)) = [].
Proof. now rewrite GetPath_trace. Qed.

Lemma CreateAction_quiet env type name :
  spaces_created (snd (CreateAction env type name)) = [].
Proof. now rewrite CreateAction_trace. Qed.

Lemma create_hands_run env st0 :
  fst (wfold (seq 0 XR_HAND_COUNT) (create_hand env) st0)
  = set_controllers
      (upd 1 (mkController 1 (active (controllers st0 1))
                (space_made env 1 false) (space_made env 1 true) true)
         (upd 0 (mkController 0 (active (controllers st0 0))
                   (space_made env 0 false) (space_made env 0 true) true)
              (controllers st0))) st0
  /\ spaces_created (snd (wfold (seq 0 XR_HAND_COUNT) (create_hand env) st0))
     = flat_map (fun hand =>
         (if (fst (space_answer env hand false) =? XR_SUCCESS)%Z
          then [snd (space_answer env hand false)] else [])
         ++ (if (fst (space_answer env hand true) =? XR_SUCCESS)%Z
             then [snd (space_answer env hand true)] else []))
         (seq 0 XR_HAND_COUNT).
Proof.
  change (seq 0 XR_HAND_COUNT) with [0; 1].
  rewrite wfold_cons, wbind_value, wbind_trace.
  destruct (create_hand_run env 0 st0) as [Hv0 Ht0]. rewrite Hv0.
  rewrite wfold_cons, wbind_value, wbind_trace.
  match goal with
  | |- context [create_hand env 1 ?s] => destruct (create_hand_run env 1 s) as [Hv1 Ht1]
  end.
  rewrite Hv1. cbn [wfold wret fst snd]. split.
  - cbn [controllers set_controllers]. unfold upd at 2. cbn [Nat.eqb]. reflexivity.
  - rewrite !spaces_created_app, Ht0, Ht1. cbn [flat_map]. now rewrite !app_nil_r.
Qed.

(** The state [XR_Input_Create] returns when the allocation and the action
    set creation succeed, and the spaces its trace created. *)
Lemma XR_Input_Create_run env instance0 session0 :
  calloc_ok env = true -> actionSet_result env = XR_SUCCESS ->
  exists st,
    fst (XR_Input_Create env instance0 session0) = Some st
    /\ (forall slot, slot < XR_HAND_COUNT ->
          controllers st slot
          = mkController slot false (space_made env slot false)
              (space_made env slot true) true)
    /\ (forall h b, currButtons st h b = false)
    /\ (forall h b, prevButtons st h b = false)
    /\ actionSet st = actionSet_handle env
    /\ spaces_created (snd (XR_Input_Create env instance0 session0))
       = flat_map (fun hand =>
           (if (fst (space_answer env hand false) =? XR_SUCCESS)%Z
            then [snd (space_answer env hand false)] else [])
           ++ (if (fst (space_answer env hand true) =? XR_SUCCESS)%Z
               then [snd (space_answer env hand true)] else []))
           (seq 0 XR_HAND_COUNT).
Proof.
  intros Hc Ha. unfold XR_Input_Create. rewrite Hc. cbn [negb].
  eexists. split; [|split; [|split; [|split; [|split]]]].
  - repeat (rewrite wbind_value; cbv beta zeta). rewrite Ha. cbn [Z.eqb XR_SUCCESS negb].
    repeat (rewrite wbind_value; cbv beta zeta).
    cbn [wret fst]. reflexivity.
  - intros slot Hslot. rewrite (proj1 (create_hands_run env _)).
    cbn [controllers set_controllers]. unfold XR_HAND_COUNT in Hslot.
    destruct slot as [|[|slot]]; try lia; reflexivity.
  - intros h b. now rewrite (proj1 (create_hands_run env _)).
  - intros h b. now rewrite (proj1 (create_hands_run env _)).
  - now rewrite (proj1 (create_hands_run env _)).
  - repeat (rewrite wbind_trace; cbv beta zeta). rewrite Ha. cbn [Z.eqb XR_SUCCESS negb].
    repeat (rewrite wbind_trace; cbv beta zeta).
    rewrite !spaces_created_app, !GetPath_quiet, !CreateAction_quiet,
      create_buttons_quiet, suggest_profiles_quiet.
    rewrite (proj2 (create_hands_run env _)). cbn [wcall wret snd app spaces_created flat_map].
    now rewrite ?app_nil_r.
Qed.

Lemma XR_Input_Create_fails env instance0 session0 :
  calloc_ok env && (actionSet_result env =? XR_SUCCESS)%Z = false ->
  fst (XR_Input_Create env instance0 session0) = None.
Proof.
  intros H. unfold XR_Input_Create.
  destruct (calloc_ok env); cbn [negb andb] in *; [|reflexivity].
  repeat (rewrite wbind_value; cbv beta zeta). rewrite H. reflexivity.
Qed.

Lemma XR_Input_Create_some env instance0 session0 st :
  fst (XR_Input_Create env instance0 session0) = Some st ->
  calloc_ok env = true /\ actionSet_result env = XR_SUCCESS.
Proof.
  intros H.
  destruct (calloc_ok env && (actionSet_result env =? XR_SUCCESS)%Z) eqn:E.
  - apply andb_true_iff in E. destruct E as [Hc Ha]. apply Z.eqb_eq in Ha. now split.
  - rewrite (XR_Input_Create_fails env instance0 session0 E) in H. discriminate.
Qed.

(** X23. [XR_Input_Create] fails only when the allocation or the creation of the
    action set fails: no failure to convert a path, to create an action, to
    suggest bindings or to create a hand space makes it return [NULL].  The
    state it returns has both controller slots handed out by
    [XR_Input_GetController] bound to their hand and to the state, not yet
    active, with a null space wherever the space creation did not succeed;
    and until the first sync no button reads as pressed and no edge is
    reported, for any controller pointer. *)
Theorem create_fails_only_without_action_set (env : CreateEnv)
  (instance0 session0 : handle) :
  let r := XR_Input_Create env instance0 session0 in
  is_some (fst r) = calloc_ok env && (actionSet_result env =? XR_SUCCESS)%Z
  /\ forall st, fst r = Some st ->
       XR_Input_GetActionSet (Some st) = actionSet_handle env
       /\ (forall slot, slot < XR_HAND_COUNT ->
             XR_Input_GetController (Some st) (Z.of_nat slot) = Some slot
             /\ slot_ready st slot = true
             /\ active (controllers st slot) = false
             /\ gripSpace (controllers st slot) = space_made env slot false
             /\ aimSpace (controllers st slot) = space_made env slot true)
       /\ (forall controller button,
             XR_Input_GetButton st controller button = false
             /\ XR_Input_GetButtonDown st controller button = false
             /\ XR_Input_GetButtonUp st controller button = false).
Proof.
  cbv zeta. split.
  - destruct (calloc_ok env && (actionSet_result env =? XR_SUCCESS)%Z) eqn:E.
    + apply andb_true_iff in E. destruct E as [Hc Ha]. apply Z.eqb_eq in Ha.
      destruct (XR_Input_Create_run env instance0 session0 Hc Ha) as (st & -> & _).
      reflexivity.
    + now rewrite (XR_Input_Create_fails env instance0 session0 E).
  - intros st Hst.
    destruct (XR_Input_Create_some env instance0 session0 st Hst) as [Hc Ha].
    destruct (XR_Input_Create_run env instance0 session0 Hc Ha)
      as (st' & Hst' & Hctl & Hcur & Hprev & Hset & _).
    rewrite Hst in Hst'. injection Hst' as <-.
    split; [exact Hset|]. split.
    + intros slot Hslot. rewrite (Hctl slot Hslot). unfold slot_ready.
      rewrite (Hctl slot Hslot). cbn [_state hand active gripSpace aimSpace andb].
      rewrite Nat.eqb_refl. repeat split.
      unfold XR_Input_GetController, XR_HAND_COUNT in *.
      destruct slot as [|[|slot]]; try lia; reflexivity.
    + intros [slot|] button; [|repeat split; reflexivity].
      unfold XR_Input_GetButton, XR_Input_GetButtonDown, XR_Input_GetButtonUp.
      cbv zeta. rewrite !Hcur, !Hprev.
      destruct (negb _ || _); repeat split; reflexivity.
Qed.

Lemma create_fails_only_without_action_set_witness :
  exists st,
    fst (XR_Input_Create InputScenario.create_all_ok 1%N 2%N) = Some st
    /\ XR_Input_GetActionSet (Some st) = 3%N.
Proof.
  eexists. split; [reflexivity|].
  exact (proj1 (proj2 (create_fails_only_without_action_set
                         InputScenario.create_all_ok 1%N 2%N) _ eq_refl)).
Defined.

Lemma spaces_destroyed_app t1 t2 :
  spaces_destroyed (t1 ++ t2) = spaces_destroyed t1 ++ spaces_destroyed t2.
Proof. apply flat_map_app. Qed.

(** X24. [XR_Input_Destroy], given the state [XR_Input_Create] returned, destroys
    exactly the spaces that creation obtained with a non-null handle, grip
    before aim and left hand before right, then the action set if its handle
    is not null, and makes no other call; given [NULL] it does nothing. *)
Theorem destroy_releases_created_spaces (env : CreateEnv) (instance0 session0 : handle)
  (st : XR_InputState) :
  fst (XR_Input_Create env instance0 session0) = Some st ->
  XR_Input_Destroy (Some st)
  = map xrDestroySpace
      (filter (fun h => negb (is_null h))
         (spaces_created (snd (XR_Input_Create env instance0 session0))))
    ++ (if is_null (actionSet_handle env) then []
        else [xrDestroyActionSet (actionSet_handle env)])
  /\ XR_Input_Destroy None = [].
Proof.
  intros Hst. split; [|reflexivity].
  destruct (XR_Input_Create_some env instance0 session0 st Hst) as [Hc Ha].
  destruct (XR_Input_Create_run env instance0 session0 Hc Ha)
    as (st' & Hst' & Hctl & _ & _ & Hset & Hsp).
  rewrite Hst in Hst'. injection Hst' as <-.
  rewrite Hsp. unfold XR_Input_Destroy. rewrite Hset.
  f_equal; [|now destruct (is_null (actionSet_handle env))].
  change (seq 0 XR_HAND_COUNT) with [0; 1]. cbn [flat_map]. rewrite !app_nil_r.
  unfold destroy_hand.
  rewrite (Hctl 0), (Hctl 1) by (unfold XR_HAND_COUNT; lia).
  cbn [gripSpace aimSpace]. unfold space_made.
  rewrite !filter_app, !map_app.
  destruct (fst (space_answer env 0 false) =? XR_SUCCESS)%Z,
    (fst (space_answer env 0 true) =? XR_SUCCESS)%Z,
    (fst (space_answer env 1 false) =? XR_SUCCESS)%Z,
    (fst (space_answer env 1 true) =? XR_SUCCESS)%Z;
    cbn [filter map app is_null XR_NULL_HANDLE N.eqb negb];
    repeat match goal with
    | |- context [is_null ?h] => destruct (is_null h)
    end; reflexivity.
Qed.

Lemma destroy_releases_created_spaces_witness :
  exists st,
    fst (XR_Input_Create InputScenario.create_all_ok 1%N 2%N) = Some st
    /\ XR_Input_Destroy (Some st)
       = [xrDestroySpace 300%N; xrDestroySpace 301%N; xrDestroySpace 302%N;
          xrDestroySpace 303%N; xrDestroyActionSet 3%N].
Proof.
  eexists. split; [reflexivity|].
  rewrite (proj1 (destroy_releases_created_spaces InputScenario.create_all_ok 1%N 2%N
                    _ eq_refl)).
  reflexivity.
Defined.
